(** * Invoice validation engine ([accuracy_check.py])

    A shallow embedding of [validate_invoice_data] and of its three nested
    stages [check_missing_values], [check_data_types] and [check_relations],
    together with the properties its specification states about them.

    Modelling conventions.
    - A pandas [DataFrame] with the default [RangeIndex] is a row count and
      an association list from column names to columns (lists of cells).
    - A cell is [None], [NaN], a string, a number or a timestamp.
    - Step 3 is read twice.  Over frames a number is an exact rational:
      this reading settles which rows are compared, which are skipped and
      which raise, from the caller's frames to the verdict.  Over numpy
      scalars the arithmetic and [np.isclose] are numpy's own, with no law
      assumed, and [binary64] gives them for float64 values: this reading
      settles what each comparison answers.  The first reading is the
      second with exact arithmetic ([relations_rational]).
    - Python exceptions are the [Raise] outcome of the [result] type.
    - f-strings are kept as lists of fragments, so that interpolated numbers
      stay numbers (their textual rendering is pandas' business).
    - The objects the caller passes are references into a heap of frames;
      [DataFrame.replace] allocates, column assignment writes in place. *)

From Stdlib Require Import PrimFloat SpecFloat FloatOps FloatAxioms.
From Stdlib Require Import List String Ascii Bool Arith ZArith QArith Qabs Lia Lqa.
Import ListNotations.
Local Open Scope string_scope.
Local Open Scope list_scope.

(** ** Outcomes of fallible code *)

Record Timestamp := mkTimestamp { ts_year : Z; ts_month : Z; ts_day : Z }.

Inductive cell : Type :=
| CNone                      (* Python [None] *)
| CNaN                       (* [np.nan], also [NaT] *)
| CStr (s : string)
| CNum (q : Q)
| CDate (t : Timestamp).

Inductive exn : Type :=
| KeyError (key : string)            (* a column that the frame does not have *)
| IndexError                         (* positional access out of range *)
| ValueError (offending : cell)      (* a cell pandas could not convert *)
| UnboundLocalError (var : string)   (* a local read before any assignment *)
| AttributeError.                    (* the argument is not a frame *)

Inductive result (A : Type) : Type :=
| Ok (a : A)
| Raise (e : exn).
Arguments Ok {A} a.
Arguments Raise {A} e.

Definition bind {A B} (m : result A) (k : A -> result B) : result B :=
  match m with
  | Ok a => k a
  | Raise e => Raise e
  end.

Declare Scope result_scope.
Delimit Scope result_scope with result.
Notation "x <- m ;; k" := (bind m (fun x => k))
  (at level 61, m at next level, right associativity) : result_scope.
Notation "' p <- m ;; k" := (bind m (fun x => match x with p => k end))
  (at level 61, p pattern, m at next level, right associativity) : result_scope.
Local Open Scope result_scope.

Fixpoint mapM {A B} (f : A -> result B) (l : list A) : result (list B) :=
  match l with
  | [] => Ok []
  | a :: l' => b <- f a ;; bs <- mapM f l' ;; Ok (b :: bs)
  end.

(** [[x for x in l if p(x)]] where the test itself may raise. *)
Fixpoint filterM {A} (p : A -> result bool) (l : list A) : result (list A) :=
  match l with
  | [] => Ok []
  | a :: l' =>
      b <- p a ;; r <- filterM p l' ;; Ok (if b then a :: r else r)
  end.

(** ** Messages *)

Inductive frag : Type :=
| Lit (s : string)        (* literal text *)
| Idx (n : nat)           (* an interpolated row index *)
| Num (q : Q)             (* an interpolated number *)
| Exc (e : exn).          (* [str(e)] of a caught exception *)

Definition fstring := list frag.

(** [sep.join(l)] *)
Fixpoint join (sep : string) (l : list string) : string :=
  match l with
  | [] => ""
  | [s] => s
  | s :: l' => s ++ sep ++ join sep l'
  end.

(** ** Series and frames *)

Definition Series := list cell.

Record DataFrame := mkDF { nrows : nat; cols : list (string * Series) }.

Definition columns (df : DataFrame) : list string := map fst (cols df).

Fixpoint assoc (k : string) (l : list (string * Series)) : option Series :=
  match l with
  | [] => None
  | (k', v) :: l' => if String.eqb k k' then Some v else assoc k l'
  end.

(** [df[col]] *)
Definition getitem (df : DataFrame) (col : string) : result Series :=
  match assoc col (cols df) with
  | Some s => Ok s
  | None => Raise (KeyError col)
  end.

Fixpoint assoc_set (k : string) (v : Series) (l : list (string * Series))
  : list (string * Series) :=
  match l with
  | [] => [(k, v)]
  | (k', v') :: l' =>
      if String.eqb k k' then (k', v) :: l' else (k', v') :: assoc_set k v l'
  end.

(** [df[col] = s] *)
Definition setitem (df : DataFrame) (col : string) (s : Series) : DataFrame :=
  mkDF (nrows df) (assoc_set col s (cols df)).

(** [col in df.columns] *)
Definition has_column (df : DataFrame) (col : string) : bool :=
  existsb (String.eqb col) (columns df).

(** [pd.isna] on one value. *)
Definition isna (c : cell) : bool :=
  match c with
  | CNone | CNaN => true
  | _ => false
  end.

Definition notna (c : cell) : bool := negb (isna c).

(** [s.iloc[i]] *)
Definition iloc {A} (s : list A) (i : nat) : result A :=
  match nth_error s i with
  | Some a => Ok a
  | None => Raise IndexError
  end.

(** Every column has one cell per row. *)
Definition wf_frame (df : DataFrame) : bool :=
  forallb (fun kv => Nat.eqb (List.length (snd kv)) (nrows df)) (cols df).

(** ** The normalizer *)

Definition null_strings : list string := [""; "nan"; "null"; "none"; "None"].

Definition replace_cell (c : cell) : cell :=
  match c with
  | CStr s => if existsb (String.eqb s) null_strings then CNaN else c
  | _ => c
  end.

(** [df.replace(['', 'nan', 'null', 'none', 'None'], np.nan)]: a new frame. *)
Definition standardize_nulls (df : DataFrame) : DataFrame :=
  mkDF (nrows df) (map (fun kv => (fst kv, map replace_cell (snd kv))) (cols df)).

(** ** The comparator *)

Definition rtol : Q := 1 # 100000.
Definition atol : Q := 1 # 100000000.

(** [np.isclose(a, b, rtol=1e-05)] over rationals; [atol] keeps numpy's
    default [1e-08].  numpy documents the test as
    [absolute(a - b) <= atol + rtol * absolute(b)]; [isclose64] is its
    computation on float64 values. *)
Definition isclose (a b : Q) : bool :=
  Qle_bool (Qabs (a - b)) (atol + rtol * Qabs b).

(** ** Step 1: missing values *)

(** Element-wise [&] and [|] of two boolean series of one frame. *)
Definition band (a b : list bool) : list bool :=
  map (fun p => andb (fst p) (snd p)) (combine a b).
Definition bor (a b : list bool) : list bool :=
  map (fun p => orb (fst p) (snd p)) (combine a b).
Infix "&&&" := band (at level 40, left associativity).
Infix "|||" := bor (at level 50, left associativity).

(** [cond.all()] *)
Definition all (cond : list bool) : bool := forallb (fun b => b) cond.

Fixpoint first_false (cond : list bool) : option nat :=
  match cond with
  | [] => None
  | b :: cond' => if b then option_map S (first_false cond') else Some 0%nat
  end.

(** [cond[~cond].index[0]] *)
Definition first_false_index (cond : list bool) : result nat :=
  match first_false cond with
  | Some i => Ok i
  | None => Raise IndexError
  end.

(** [df[col].notna()] *)
Definition col_notna (df : DataFrame) (col : string) : result (list bool) :=
  s <- getitem df col ;; Ok (map notna s).

(** The three blocks of [check_missing_values] answer [None] when every row of
    their collection satisfies its condition and the message otherwise. *)
Definition check_invoice_df (invoice_df : DataFrame) : result (option fstring) :=
  invoice_number <- col_notna invoice_df "invoice_number" ;;
  invoice_date <- col_notna invoice_df "invoice_date" ;;
  place_of_supply <- col_notna invoice_df "place_of_supply" ;;
  place_of_origin <- col_notna invoice_df "place_of_origin" ;;
  receiver_name <- col_notna invoice_df "receiver_name" ;;
  gstin_supplier <- col_notna invoice_df "gstin_supplier" ;;
  taxable_value <- col_notna invoice_df "taxable_value" ;;
  invoice_value <- col_notna invoice_df "invoice_value" ;;
  tax_amount <- col_notna invoice_df "tax_amount" ;;
  let invoice_condition :=
    invoice_number &&& invoice_date &&& place_of_supply &&& place_of_origin &&&
    receiver_name &&& gstin_supplier &&& (taxable_value ||| invoice_value) &&&
    tax_amount in
  if negb (all invoice_condition) then
    row_idx <- first_false_index invoice_condition ;;
    missing_cols <-
      filterM (fun col => s <- getitem invoice_df col ;; iloc (map isna s) row_idx)
              (columns invoice_df) ;;
    Ok (Some [Lit "Missing required values in invoice_df: ";
              Lit (join ", " missing_cols); Lit " at row "; Idx row_idx])
  else Ok None.

Definition check_line_items_df (line_items_df : DataFrame) : result (option fstring) :=
  tax_amount <- col_notna line_items_df "tax_amount" ;;
  tax_rate <- col_notna line_items_df "tax_rate" ;;
  sgst_amount <- col_notna line_items_df "sgst_amount" ;;
  cgst_amount <- col_notna line_items_df "cgst_amount" ;;
  igst_amount <- col_notna line_items_df "igst_amount" ;;
  sgst_rate <- col_notna line_items_df "sgst_rate" ;;
  cgst_rate <- col_notna line_items_df "cgst_rate" ;;
  igst_rate <- col_notna line_items_df "igst_rate" ;;
  final_amount <- col_notna line_items_df "final_amount" ;;
  taxable_value <- col_notna line_items_df "taxable_value" ;;
  rate_per_item_after_discount <-
    col_notna line_items_df "rate_per_item_after_discount" ;;
  quantity <- col_notna line_items_df "quantity" ;;
  let line_items_condition :=
    (tax_amount ||| tax_rate ||| (sgst_amount &&& cgst_amount) ||| igst_amount |||
     (sgst_rate &&& cgst_rate) ||| igst_rate) &&&
    (final_amount ||| taxable_value ||| (rate_per_item_after_discount &&& quantity)) in
  if negb (all line_items_condition) then
    row_idx <- first_false_index line_items_condition ;;
    Ok (Some [Lit "Missing required values in line_items_df at row "; Idx row_idx])
  else Ok None.

Definition check_total_summary_df (total_summary_df : DataFrame)
  : result (option fstring) :=
  total_taxable_value <- col_notna total_summary_df "total_taxable_value" ;;
  total_invoice_value <- col_notna total_summary_df "total_invoice_value" ;;
  total_tax_amount <- col_notna total_summary_df "total_tax_amount" ;;
  total_igst_amount <- col_notna total_summary_df "total_igst_amount" ;;
  total_cgst_amount <- col_notna total_summary_df "total_cgst_amount" ;;
  total_sgst_amount <- col_notna total_summary_df "total_sgst_amount" ;;
  let summary_condition :=
    (total_taxable_value ||| total_invoice_value) &&&
    (total_tax_amount ||| total_igst_amount |||
     (total_cgst_amount &&& total_sgst_amount)) in
  if negb (all summary_condition) then
    row_idx <- first_false_index summary_condition ;;
    Ok (Some [Lit "Missing required values in total_summary_df at row "; Idx row_idx])
  else Ok None.

Definition check_missing_values
    (invoice_df line_items_df total_summary_df : DataFrame) : result (bool * fstring) :=
  r <- check_invoice_df invoice_df ;;
  match r with
  | Some msg => Ok (false, msg)
  | None =>
      r <- check_line_items_df line_items_df ;;
      match r with
      | Some msg => Ok (false, msg)
      | None =>
          r <- check_total_summary_df total_summary_df ;;
          match r with
          | Some msg => Ok (false, msg)
          | None => Ok (true, [])
          end
      end
  end.

(** ** Step 3: the per-row relations

    [check_relations] first coerces every numeric column with
    [pd.to_numeric(..., errors='coerce')], so each value a row yields is a
    number or NaN: a row is read through [float_of].  In this reading a
    number is an exact rational, so a sum or a product of numbers is never
    NaN; the reading over numpy scalars ([np_invoice_row] and what follows
    it) keeps numpy's arithmetic. *)

Definition float_of (c : cell) : option Q :=
  match c with
  | CNum q => Some q
  | _ => None
  end.

(** [row[col]] for a row of [df.iterrows()]; [None] is NaN. *)
Definition Row := string -> result (option Q).

Definition iterrow (df : DataFrame) (idx : nat) : Row :=
  fun col => s <- getitem df col ;; c <- iloc s idx ;; Ok (float_of c).

(** [if not pd.isna(row[col]): k(row[col]) else: absent] *)
Definition when_present {A} (row : Row) (col : string)
    (absent : result A) (k : Q -> result A) : result A :=
  v <- row col ;;
  match v with
  | Some q => k q
  | None => absent
  end.

Definition invoice_mismatch (idx : nat) (invoice_value taxable_value tax_amount : Q)
  : fstring :=
  [Lit "Invoice value mismatch at row "; Idx idx; Lit ": "; Num invoice_value;
   Lit " != "; Num taxable_value; Lit " + "; Num tax_amount].

(** Body of the loop over [invoice_df.iterrows()]. *)
Definition invoice_row (idx : nat) (row : Row) : result (option fstring) :=
  when_present row "invoice_value" (Ok None) (fun invoice_value =>
  when_present row "taxable_value" (Ok None) (fun taxable_value =>
  when_present row "tax_amount" (Ok None) (fun tax_amount =>
    if negb (isclose invoice_value (taxable_value + tax_amount))
    then Ok (Some (invoice_mismatch idx invoice_value taxable_value tax_amount))
    else Ok None))).

(** The [if / elif / else: continue] that opens the line-item loop body. *)
Definition base_value (row : Row) : result (option Q) :=
  when_present row "taxable_value"
    (when_present row "rate_per_item_after_discount" (Ok None) (fun rate =>
     when_present row "quantity" (Ok None) (fun quantity =>
       Ok (Some (rate * quantity)))))
    (fun taxable_value => Ok (Some taxable_value)).

(** The list [tax_vars] once the four [if] blocks have run. *)
Definition tax_vars (row : Row) (base_value : Q) : result (list Q) :=
  let tax_vars := [] in
  tax_vars <-
    when_present row "sgst_amount" (Ok tax_vars) (fun sgst_amount =>
    when_present row "cgst_amount" (Ok tax_vars) (fun cgst_amount =>
    when_present row "igst_amount" (Ok tax_vars) (fun igst_amount =>
      Ok (tax_vars ++ [sgst_amount + cgst_amount + igst_amount])))) ;;
  tax_vars <-
    when_present row "sgst_rate" (Ok tax_vars) (fun sgst_rate =>
    when_present row "cgst_rate" (Ok tax_vars) (fun cgst_rate =>
    when_present row "igst_rate" (Ok tax_vars) (fun igst_rate =>
      Ok (tax_vars ++ [base_value * (sgst_rate + cgst_rate + igst_rate) / 100])))) ;;
  tax_vars <-
    when_present row "tax_amount" (Ok tax_vars) (fun tax_amount =>
      Ok (tax_vars ++ [tax_amount])) ;;
  when_present row "tax_rate" (Ok tax_vars) (fun tax_rate =>
    Ok (tax_vars ++ [base_value * tax_rate / 100])).

(** [for i in range(len(tax_vars)-1)]: is every successive pair close? *)
Fixpoint successive_close (tax_vars : list Q) : bool :=
  match tax_vars with
  | a :: ((b :: _) as rest) => isclose a b && successive_close rest
  | _ => true
  end.

Definition tax_mismatch (idx : nat) : fstring :=
  [Lit "Tax amount mismatch at row "; Idx idx;
   Lit ": Different tax calculations yield different results"].

Definition final_mismatch (idx : nat) (final_amount base_value tax_amount : Q)
  : fstring :=
  [Lit "Final amount mismatch at row "; Idx idx; Lit ": "; Num final_amount;
   Lit " != "; Num base_value; Lit " + "; Num tax_amount].

(** Body of the loop over [line_items_df.iterrows()].  An estimate computed
    from rationals is never NaN, so [next(t for t in tax_vars if not
    pd.isna(t))] is the head of the list; [np_line_item_row] keeps the
    filter. *)
Definition line_item_row (idx : nat) (row : Row) : result (option fstring) :=
  base <- base_value row ;;
  match base with
  | None => Ok None
  | Some base_value =>
      tax_vars <- tax_vars row base_value ;;
      if (2 <=? List.length tax_vars)%nat && negb (successive_close tax_vars)
      then Ok (Some (tax_mismatch idx))
      else
        when_present row "final_amount" (Ok None) (fun final_amount =>
          match hd_error tax_vars with
          | Some tax_amount =>
              if negb (isclose final_amount (base_value + tax_amount))
              then Ok (Some (final_mismatch idx final_amount base_value tax_amount))
              else Ok None
          | None => Ok None
          end)
  end.

Definition total_mismatch (idx : nat)
    (total_invoice_value total_taxable_value total_tax : Q) : fstring :=
  [Lit "Total invoice value mismatch at row "; Idx idx; Lit ": ";
   Num total_invoice_value; Lit " != "; Num total_taxable_value; Lit " + ";
   Num total_tax].

(** Body of the loop over [total_summary_df.iterrows()].  The local
    [total_tax] lives across iterations: [None] is "not yet assigned", and a
    row that assigns nothing leaves the previous binding in place.  A total
    tax computed from rationals is never NaN, so [not pd.isna(total_tax)]
    holds as soon as the name is bound; [np_summary_row] keeps the test. *)
Definition summary_row (idx : nat) (row : Row) (total_tax : option Q)
  : result (option Q * option fstring) :=
  total_tax <-
    when_present row "total_tax_amount"
      (when_present row "total_cgst_amount" (Ok total_tax) (fun cgst =>
       when_present row "total_sgst_amount" (Ok total_tax) (fun sgst =>
       when_present row "total_igst_amount" (Ok total_tax) (fun igst =>
         Ok (Some (cgst + sgst + igst))))))
      (fun total_tax_amount => Ok (Some total_tax_amount)) ;;
  when_present row "total_taxable_value" (Ok (total_tax, None))
    (fun total_taxable_value =>
  when_present row "total_invoice_value" (Ok (total_tax, None))
    (fun total_invoice_value =>
    match total_tax with
    | None => Raise (UnboundLocalError "total_tax")
    | Some tax =>
        if negb (isclose total_invoice_value (total_taxable_value + tax))
        then Ok (total_tax,
                 Some (total_mismatch idx total_invoice_value total_taxable_value tax))
        else Ok (total_tax, None)
    end)).

(** [for idx, row in df.iterrows()] with a body that may [return] a message. *)
Fixpoint for_rows (body : nat -> result (option fstring)) (idx n : nat)
  : result (option fstring) :=
  match n with
  | O => Ok None
  | S n' =>
      r <- body idx ;;
      match r with
      | Some msg => Ok (Some msg)
      | None => for_rows body (S idx) n'
      end
  end.

(** The same loop carrying a local variable from one iteration to the next. *)
Fixpoint for_rows_with {St : Type} (body : nat -> St -> result (St * option fstring))
    (idx n : nat) (s : St) : result (option fstring) :=
  match n with
  | O => Ok None
  | S n' =>
      r <- body idx s ;;
      match r with
      | (_, Some msg) => Ok (Some msg)
      | (s', None) => for_rows_with body (S idx) n' s'
      end
  end.

Definition invoice_relations (invoice_df : DataFrame) : result (option fstring) :=
  for_rows (fun idx => invoice_row idx (iterrow invoice_df idx)) 0 (nrows invoice_df).

Definition line_item_relations (line_items_df : DataFrame) : result (option fstring) :=
  for_rows (fun idx => line_item_row idx (iterrow line_items_df idx))
           0 (nrows line_items_df).

Definition summary_relations (total_summary_df : DataFrame) : result (option fstring) :=
  for_rows_with (fun idx => summary_row idx (iterrow total_summary_df idx))
                0 (nrows total_summary_df) None.

(** ** The heap of frames *)

Definition ref := nat.
Definition heap := list DataFrame.

(** Computations that read and write the heap and may raise; what was written
    before an exception stays written. *)
Definition M (A : Type) := heap -> result A * heap.

Definition retM {A} (a : A) : M A := fun h => (Ok a, h).

Definition bindM {A B} (m : M A) (k : A -> M B) : M B :=
  fun h =>
    match m h with
    | (Ok a, h') => k a h'
    | (Raise e, h') => (Raise e, h')
    end.

Definition lift {A} (r : result A) : M A := fun h => (r, h).

Declare Scope heap_scope.
Delimit Scope heap_scope with heap.
Notation "x <-- m ;; k" := (bindM m (fun x => k))
  (at level 61, m at next level, right associativity) : heap_scope.
Notation "' p <-- m ;; k" := (bindM m (fun x => match x with p => k end))
  (at level 61, p pattern, m at next level, right associativity) : heap_scope.

Definition read (r : ref) : M DataFrame :=
  fun h =>
    match nth_error h r with
    | Some df => (Ok df, h)
    | None => (Raise AttributeError, h)
    end.

Fixpoint update (h : heap) (r : ref) (df : DataFrame) : heap :=
  match h, r with
  | [], _ => []
  | _ :: h', O => df :: h'
  | d :: h', S r' => d :: update h' r' df
  end.

Definition write (r : ref) (df : DataFrame) : M unit :=
  fun h => (Ok tt, update h r df).

Definition alloc (df : DataFrame) : M ref :=
  fun h => (Ok (List.length h), h ++ [df]).

(** ** Steps 2 and 3, and the engine *)

Definition numeric_cols_invoice : list string :=
  ["place_of_supply"; "place_of_origin"; "taxable_value"; "invoice_value";
   "tax_amount"].

Definition numeric_cols_items : list string :=
  ["quantity"; "rate_per_item_after_discount"; "taxable_value"; "sgst_amount";
   "cgst_amount"; "igst_amount"; "sgst_rate"; "cgst_rate"; "igst_rate";
   "tax_amount"; "tax_rate"; "final_amount"].

Definition numeric_cols_summary : list string :=
  ["total_taxable_value"; "total_cgst_amount"; "total_sgst_amount";
   "total_igst_amount"; "total_tax_amount"; "total_invoice_value";
   "rounding_adjustment"].

(** The dictionary [numeric_cols] of [check_relations], per frame. *)
Definition relation_cols_invoice : list string :=
  ["taxable_value"; "invoice_value"; "tax_amount"].

Definition relation_cols_items : list string :=
  ["rate_per_item_after_discount"; "quantity"; "taxable_value"; "sgst_amount";
   "cgst_amount"; "igst_amount"; "sgst_rate"; "cgst_rate"; "igst_rate";
   "tax_amount"; "tax_rate"; "final_amount"].

Definition relation_cols_summary : list string :=
  ["total_taxable_value"; "total_cgst_amount"; "total_sgst_amount";
   "total_igst_amount"; "total_tax_amount"; "total_invoice_value";
   "rounding_adjustment"].

Definition verdict : Type := bool * string * fstring.

Section Engine.

(** pandas' own parsers are taken as given.  [parse_date c] is what
    [pd.to_datetime(..., format='%d-%b-%y')] makes of a value that is not
    null, [None] when it raises.  [parse_number c] is what [pd.to_numeric]
    makes of a value that is neither null nor a number: [None] when it
    raises, [Some None] for NaN. *)
Variable parse_date : cell -> option Timestamp.
Variable parse_number : cell -> option (option Q).

Definition to_datetime (s : Series) : result Series :=
  mapM (fun c =>
          if isna c then Ok CNaN
          else match parse_date c with
               | Some t => Ok (CDate t)
               | None => Raise (ValueError c)
               end) s.

Definition to_numeric_cell (c : cell) : result cell :=
  match c with
  | CNone | CNaN => Ok CNaN
  | CNum q => Ok (CNum q)
  | _ => match parse_number c with
         | Some (Some q) => Ok (CNum q)
         | Some None => Ok CNaN
         | None => Raise (ValueError c)
         end
  end.

(** [pd.to_numeric(s)] *)
Definition to_numeric (s : Series) : result Series := mapM to_numeric_cell s.

(** [pd.to_numeric(s, errors='coerce')] *)
Definition to_numeric_coerce (s : Series) : Series :=
  map (fun c => match to_numeric_cell c with
                | Ok c' => c'
                | Raise _ => CNaN
                end) s.

(** [s.dropna()] *)
Definition dropna (s : Series) : Series := filter notna s.

(** [for col in cols: if not pd.isna(df[col]).all(): pd.to_numeric(df[col].dropna())] *)
Fixpoint check_numeric (df : DataFrame) (cols : list string) : result unit :=
  match cols with
  | [] => Ok tt
  | col :: cols' =>
      s <- getitem df col ;;
      _ <- (if negb (all (map isna s))
            then s' <- getitem df col ;; _ <- to_numeric (dropna s') ;; Ok tt
            else Ok tt) ;;
      check_numeric df cols'
  end.

Definition conversion_failed (e : exn) : fstring :=
  [Lit "Data type conversion failed: "; Exc e].

(** The [try] block: the invoice frame after the date assignment when
    nothing raised. *)
Definition data_types_body (invoice_df line_items_df total_summary_df : DataFrame)
  : result DataFrame * DataFrame :=
  match (s <- getitem invoice_df "invoice_date" ;; to_datetime s) with
  | Raise e => (Raise e, invoice_df)
  | Ok dates =>
      let invoice_df := setitem invoice_df "invoice_date" dates in
      (_ <- check_numeric invoice_df numeric_cols_invoice ;;
       _ <- check_numeric line_items_df numeric_cols_items ;;
       _ <- check_numeric total_summary_df numeric_cols_summary ;;
       Ok invoice_df,
       invoice_df)
  end.

(** Step 2.  Returns the answer and the invoice frame as the step leaves it
    (the only frame it assigns into). *)
Definition check_data_types (invoice_df line_items_df total_summary_df : DataFrame)
  : (bool * fstring) * DataFrame :=
  match data_types_body invoice_df line_items_df total_summary_df with
  | (Ok _, invoice_df') => ((true, []), invoice_df')
  | (Raise e, invoice_df') => ((false, conversion_failed e), invoice_df')
  end.

(** [for col in cols: if col in df.columns: df[col] = pd.to_numeric(df[col], errors='coerce')] *)
Definition coerce_columns (df : DataFrame) (cols : list string) : DataFrame :=
  fold_left
    (fun df col =>
       if has_column df col
       then match getitem df col with
            | Ok s => setitem df col (to_numeric_coerce s)
            | Raise _ => df
            end
       else df)
    cols df.

(** The three loops of Step 3 over frames already coerced. *)
Definition relations (invoice_df line_items_df total_summary_df : DataFrame)
  : result (bool * fstring) :=
  r <- invoice_relations invoice_df ;;
  match r with
  | Some msg => Ok (false, msg)
  | None =>
      r <- line_item_relations line_items_df ;;
      match r with
      | Some msg => Ok (false, msg)
      | None =>
          r <- summary_relations total_summary_df ;;
          match r with
          | Some msg => Ok (false, msg)
          | None => Ok (true, [])
          end
      end
  end.

(** Step 3.  Returns the outcome and the three frames as the coercion
    leaves them. *)
Definition check_relations (invoice_df line_items_df total_summary_df : DataFrame)
  : result (bool * fstring) * (DataFrame * DataFrame * DataFrame) :=
  let invoice_df := coerce_columns invoice_df relation_cols_invoice in
  let line_items_df := coerce_columns line_items_df relation_cols_items in
  let total_summary_df := coerce_columns total_summary_df relation_cols_summary in
  (relations invoice_df line_items_df total_summary_df,
   (invoice_df, line_items_df, total_summary_df)).

Local Open Scope heap_scope.

(** The three nested functions close over the local names, which hold
    references; each call reads the frames and writes back what it assigned. *)
Definition run_check_missing_values (invoice_df line_items_df total_summary_df : ref)
  : M (bool * fstring) :=
  a <-- read invoice_df ;; b <-- read line_items_df ;; c <-- read total_summary_df ;;
  lift (check_missing_values a b c).

Definition run_check_data_types (invoice_df line_items_df total_summary_df : ref)
  : M (bool * fstring) :=
  a <-- read invoice_df ;; b <-- read line_items_df ;; c <-- read total_summary_df ;;
  let '(answer, a') := check_data_types a b c in
  _ <-- write invoice_df a' ;;
  retM answer.

Definition run_check_relations (invoice_df line_items_df total_summary_df : ref)
  : M (bool * fstring) :=
  a <-- read invoice_df ;; b <-- read line_items_df ;; c <-- read total_summary_df ;;
  let '(outcome, (a', b', c')) := check_relations a b c in
  _ <-- write invoice_df a' ;;
  _ <-- write line_items_df b' ;;
  _ <-- write total_summary_df c' ;;
  lift outcome.

(** The nested [standardize_nulls(df)] call: [replace] builds a new frame. *)
Definition standardize_nulls_at (df : ref) : M ref :=
  d <-- read df ;; alloc (standardize_nulls d).

Definition validate_invoice_data (invoice_df line_items_df total_summary_df : ref)
  : M verdict :=
  invoice_df <-- standardize_nulls_at invoice_df ;;
  line_items_df <-- standardize_nulls_at line_items_df ;;
  total_summary_df <-- standardize_nulls_at total_summary_df ;;
  '(passed_step1, error_msg) <--
    run_check_missing_values invoice_df line_items_df total_summary_df ;;
  if negb passed_step1 then retM (false, "Step 1: Missing Values", error_msg)
  else
    '(passed_step2, error_msg) <--
      run_check_data_types invoice_df line_items_df total_summary_df ;;
    if negb passed_step2 then retM (false, "Step 2: Data Types", error_msg)
    else
      '(passed_step3, error_msg) <--
        run_check_relations invoice_df line_items_df total_summary_df ;;
      if negb passed_step3 then retM (false, "Step 3: Relations", error_msg)
      else retM (true, "All Steps", [Lit "Validation successful"]).

End Engine.

(** ** Reference parsers

    Instances of the two parsers for the closed examples below.  They accept
    the plain forms only (a signed decimal literal; day, abbreviated month
    and two-digit year) and reject everything else; the general results hold
    for any pair of parsers. *)

Definition digit_of (c : ascii) : option Z :=
  let n := nat_of_ascii c in
  if ((48 <=? n) && (n <=? 57))%nat then Some (Z.of_nat (n - 48)) else None.

(** Reads a run of digits: the value accumulated, how many, and the rest. *)
Fixpoint read_digits (s : string) (acc : Z) (n : nat) : Z * nat * string :=
  match s with
  | String c s' =>
      match digit_of c with
      | Some d => read_digits s' (10 * acc + d)%Z (S n)
      | None => (acc, n, s)
      end
  | EmptyString => (acc, n, s)
  end.

Definition parse_decimal (s : string) : option Q :=
  let '(negative, s1) :=
    match s with
    | String "-"%char s' => (true, s')
    | String "+"%char s' => (false, s')
    | _ => (false, s)
    end in
  let '(whole, n1, s2) := read_digits s1 0%Z 0%nat in
  let signed (q : Q) := if negative then Qopp q else q in
  match s2 with
  | EmptyString => if (n1 =? 0)%nat then None else Some (signed (whole # 1))
  | String "."%char s3 =>
      let '(mantissa, n2, s4) := read_digits s3 whole 0%nat in
      match s4 with
      | EmptyString =>
          if (n1 + n2 =? 0)%nat then None
          else Some (signed (mantissa # Z.to_pos (10 ^ Z.of_nat n2)))
      | _ => None
      end
  | _ => None
  end.

Definition decimal_number (c : cell) : option (option Q) :=
  match c with
  | CStr s => option_map (@Some Q) (parse_decimal s)
  | _ => None
  end.

Definition lower (c : ascii) : ascii :=
  let n := nat_of_ascii c in
  if ((65 <=? n) && (n <=? 90))%nat then ascii_of_nat (n + 32) else c.

Definition month_names : list string :=
  ["jan"; "feb"; "mar"; "apr"; "may"; "jun"; "jul"; "aug"; "sep"; "oct"; "nov"; "dec"].

Fixpoint index_of (s : string) (l : list string) (i : Z) : option Z :=
  match l with
  | [] => None
  | x :: l' => if String.eqb s x then Some i else index_of s l' (i + 1)%Z
  end.

Definition leap_year (y : Z) : bool :=
  ((y mod 4 =? 0) && (negb (y mod 100 =? 0) || (y mod 400 =? 0)))%Z.

Definition days_in_month (y m : Z) : Z :=
  (if m =? 2 then (if leap_year y then 29 else 28)
   else if (m =? 4) || (m =? 6) || (m =? 9) || (m =? 11) then 30 else 31)%Z.

Definition parse_dby (s : string) : option Timestamp :=
  let '(day, n1, s1) := read_digits s 0%Z 0%nat in
  match s1 with
  | String "-"%char (String a (String b (String c (String "-"%char s2)))) =>
      let '(yy, n2, s3) := read_digits s2 0%Z 0%nat in
      match index_of (String (lower a) (String (lower b) (String (lower c) ""))) month_names 1%Z, s3 with
      | Some month, EmptyString =>
          let year := (if yy <? 69 then 2000 + yy else 1900 + yy)%Z in
          if ((1 <=? n1) && (n1 <=? 2) && (n2 =? 2))%nat &&
             ((1 <=? day) && (day <=? days_in_month year month))%Z
          then Some (mkTimestamp year month day)
          else None
      | _, _ => None
      end
  | _ => None
  end.

Definition dby_date (c : cell) : option Timestamp :=
  match c with
  | CStr s => parse_dby s
  | _ => None
  end.

(** The engine with the reference parsers, run on a heap that holds exactly
    the caller's three frames. *)
Definition validate_frames (invoice_df line_items_df total_summary_df : DataFrame)
  : result verdict :=
  fst (validate_invoice_data dby_date decimal_number 0%nat 1%nat 2%nat
         [invoice_df; line_items_df; total_summary_df]).

(** [pd.DataFrame(records)] for records that all carry the same keys in the
    same order: the first record fixes the columns. *)
Definition record := list (string * cell).

Definition field (name : string) (r : record) : cell :=
  match find (fun kv => String.eqb name (fst kv)) r with
  | Some kv => snd kv
  | None => CNaN
  end.

Definition frame_of_records (records : list record) : DataFrame :=
  match records with
  | [] => mkDF 0 []
  | r :: _ =>
      mkDF (List.length records)
           (map (fun kv => (fst kv, map (field (fst kv)) records)) r)
  end.

(** ** Sample collections *)

Definition header_record (invoice_value taxable_value tax_amount gstin : cell) : record :=
  [("invoice_number", CStr "INV-001"); ("invoice_date", CStr "05-Jan-24");
   ("place_of_supply", CNum 29); ("place_of_origin", CNum 27);
   ("receiver_name", CStr "Acme Traders"); ("gstin_supplier", gstin);
   ("taxable_value", taxable_value); ("invoice_value", invoice_value);
   ("tax_amount", tax_amount)].

Definition sample_gstin : cell := CStr "29ABCDE1234F1Z5".

(** Header of Example 1: 118 = 100 + 18. *)
Definition header_118 : DataFrame :=
  frame_of_records [header_record (CNum 118) (CNum 100) (CNum 18) sample_gstin].

(** Header of Example 2: 120 against 100 + 18. *)
Definition header_120 : DataFrame :=
  frame_of_records [header_record (CNum 120) (CNum 100) (CNum 18) sample_gstin].

(** Header of Example 4: [gstin_supplier] is null. *)
Definition header_no_gstin : DataFrame :=
  frame_of_records [header_record (CNum 118) (CNum 100) (CNum 18) CNone].

Definition item_record
    (quantity rate taxable_value sgst_amount cgst_amount igst_amount
     sgst_rate cgst_rate igst_rate tax_amount tax_rate final_amount : cell) : record :=
  [("quantity", quantity); ("rate_per_item_after_discount", rate);
   ("taxable_value", taxable_value); ("sgst_amount", sgst_amount);
   ("cgst_amount", cgst_amount); ("igst_amount", igst_amount);
   ("sgst_rate", sgst_rate); ("cgst_rate", cgst_rate); ("igst_rate", igst_rate);
   ("tax_amount", tax_amount); ("tax_rate", tax_rate);
   ("final_amount", final_amount)].

(** Line item of Example 3: rates 9 + 9 + 0 on 1000 and a tax amount of 180. *)
Definition item_180 : record :=
  item_record CNone CNone (CNum 1000) CNone CNone CNone
              (CNum 9) (CNum 9) (CNum 0) (CNum 180) CNone CNone.

(** A line item whose only tax field is [igst_amount]: no estimate can be
    formed, and its final amount is far from the base value. *)
Definition item_igst_only : record :=
  item_record CNone CNone (CNum 100) CNone CNone (CNum 18)
              CNone CNone CNone CNone CNone (CNum 999).

(** A line item with neither a taxable value nor a rate and quantity. *)
Definition item_no_base : record :=
  item_record CNone (CNum 10) CNone CNone CNone CNone
              CNone CNone CNone (CNum 18) (CNum 5) (CNum 999).

Definition items_180 : DataFrame := frame_of_records [item_180].

Definition summary_record
    (total_taxable_value total_cgst_amount total_sgst_amount total_igst_amount
     total_tax_amount total_invoice_value : cell) : record :=
  [("total_taxable_value", total_taxable_value);
   ("total_cgst_amount", total_cgst_amount);
   ("total_sgst_amount", total_sgst_amount);
   ("total_igst_amount", total_igst_amount);
   ("total_tax_amount", total_tax_amount);
   ("total_invoice_value", total_invoice_value);
   ("rounding_adjustment", CNone)].

(** Summary consistent with the header of Example 1. *)
Definition summary_118 : DataFrame :=
  frame_of_records [summary_record (CNum 100) (CNum 9) (CNum 9) (CNum 0) CNone (CNum 118)].

(** A summary row with 5000 + 450 + 450 + 0 against a stated total of 6000. *)
Definition summary_6000 : DataFrame :=
  frame_of_records
    [summary_record (CNum 5000) (CNum 450) (CNum 450) (CNum 0) CNone (CNum 6000)].

(** The summary row of Example 5, as the specification gives it. *)
Definition summary_5900 : DataFrame :=
  frame_of_records
    [summary_record (CNum 5000) (CNum 450) (CNum 450) (CNum 0) CNone (CNum 5900)].

(** A summary row with only [total_igst_amount] as tax: the presence condition
    holds, no total tax is resolved, both values are present. *)
Definition summary_igst_only : DataFrame :=
  frame_of_records
    [summary_record (CNum 100) CNone CNone (CNum 18) CNone (CNum 118)].

(** A resolved first row followed by an unresolved one. *)
Definition summary_stale : DataFrame :=
  frame_of_records
    [summary_record (CNum 100) CNone CNone CNone (CNum 18) (CNum 118);
     summary_record (CNum 100) CNone CNone (CNum 400) CNone (CNum 500)].

(** A line item with a taxable value and no tax field at all, and a frame
    that holds it as its second row. *)
Definition item_no_tax : record :=
  item_record CNone CNone (CNum 100) CNone CNone CNone
              CNone CNone CNone CNone CNone CNone.

Definition items_second_invalid : DataFrame :=
  frame_of_records [item_180; item_no_tax].

(** A frame whose null-like strings are spelled in other cases. *)
Definition upper_case_nulls : DataFrame :=
  frame_of_records
    [[("receiver_name", CStr "NAN"); ("gstin_supplier", CStr "Null");
      ("invoice_number", CStr "NONE")]].

(** ** Vocabulary of the specification

    Row-wise readings of what the specification states, to be compared with
    the column-wise code above. *)

Definition cell_at (df : DataFrame) (col : string) (i : nat) : result cell :=
  s <- getitem df col ;; iloc s i.

(** "Field [col] is present at row [i]." *)
Definition present (df : DataFrame) (i : nat) (col : string) : bool :=
  match cell_at df col i with
  | Ok c => notna c
  | Raise _ => false
  end.

Definition has_columns (df : DataFrame) (names : list string) : bool :=
  forallb (has_column df) names.

Definition header_cols : list string :=
  ["invoice_number"; "invoice_date"; "place_of_supply"; "place_of_origin";
   "receiver_name"; "gstin_supplier"; "taxable_value"; "invoice_value";
   "tax_amount"].

Definition summary_cols : list string :=
  ["total_taxable_value"; "total_invoice_value"; "total_tax_amount";
   "total_igst_amount"; "total_cgst_amount"; "total_sgst_amount"].

(** Section 4.2, header rows. *)
Definition header_row_valid (df : DataFrame) (i : nat) : bool :=
  present df i "invoice_number" && present df i "invoice_date" &&
  present df i "place_of_supply" && present df i "place_of_origin" &&
  present df i "receiver_name" && present df i "gstin_supplier" &&
  present df i "tax_amount" &&
  (present df i "taxable_value" || present df i "invoice_value").

(** Section 4.2, line-item rows. *)
Definition item_row_valid (df : DataFrame) (i : nat) : bool :=
  (present df i "tax_amount" || present df i "tax_rate" ||
   (present df i "sgst_amount" && present df i "cgst_amount") ||
   present df i "igst_amount" ||
   (present df i "sgst_rate" && present df i "cgst_rate") ||
   present df i "igst_rate") &&
  (present df i "final_amount" || present df i "taxable_value" ||
   (present df i "rate_per_item_after_discount" && present df i "quantity")).

(** Section 4.2, summary rows. *)
Definition summary_row_valid (df : DataFrame) (i : nat) : bool :=
  (present df i "total_taxable_value" || present df i "total_invoice_value") &&
  (present df i "total_tax_amount" || present df i "total_igst_amount" ||
   (present df i "total_cgst_amount" && present df i "total_sgst_amount")).

(** The least row index below [start + n], from [start] on, that fails [valid]. *)
Fixpoint first_violation_from (valid : nat -> bool) (start n : nat) : option nat :=
  match n with
  | O => None
  | S n' =>
      if valid start then first_violation_from valid (S start) n' else Some start
  end.

Definition first_violation (valid : nat -> bool) (n : nat) : option nat :=
  first_violation_from valid 0 n.

(** The columns of the frame that are null at row [i], in column order. *)
Definition missing_fields (df : DataFrame) (i : nat) : list string :=
  filter (fun col => negb (present df i col)) (columns df).

Definition missing_in_invoice (df : DataFrame) (i : nat) : fstring :=
  [Lit "Missing required values in invoice_df: ";
   Lit (join ", " (missing_fields df i)); Lit " at row "; Idx i].

Definition missing_in_items (i : nat) : fstring :=
  [Lit "Missing required values in line_items_df at row "; Idx i].

Definition missing_in_summary (i : nat) : fstring :=
  [Lit "Missing required values in total_summary_df at row "; Idx i].

(** Every listed field of the row can be read (its column exists). *)
Definition readable (row : Row) (names : list string) : Prop :=
  forall col, In col names -> exists v, row col = Ok v.

(** Section 4.4, the base value of a line item. *)
Definition base_value_of (taxable_value rate quantity : option Q) : option Q :=
  match taxable_value, rate, quantity with
  | Some v, _, _ => Some v
  | None, Some r, Some q => Some (r * q)
  | _, _, _ => None
  end.

Definition sum3 (a b c : option Q) : list Q :=
  match a, b, c with
  | Some x, Some y, Some z => [x + y + z]
  | _, _, _ => []
  end.

(** Section 4.4, the estimates (a), (b), (c), (d) in the listed order. *)
Definition estimates (base : Q)
    (sgst_amount cgst_amount igst_amount sgst_rate cgst_rate igst_rate
     tax_amount tax_rate : option Q) : list Q :=
  sum3 sgst_amount cgst_amount igst_amount ++
  map (fun rates => base * rates / 100) (sum3 sgst_rate cgst_rate igst_rate) ++
  match tax_amount with Some t => [t] | None => [] end ++
  match tax_rate with Some r => [base * r / 100] | None => [] end.

(** At least two estimates, and some successive pair is not close. *)
Definition disagree (l : list Q) : Prop :=
  (2 <= List.length l)%nat /\
  exists i a b,
    nth_error l i = Some a /\ nth_error l (S i) = Some b /\ isclose a b = false.

Definition item_tax_cols : list string :=
  ["sgst_amount"; "cgst_amount"; "igst_amount"; "sgst_rate"; "cgst_rate";
   "igst_rate"; "tax_amount"; "tax_rate"].

(** Section 4.4, the total tax of a summary row: the stated amount, else the
    sum of the three components when all are present. *)
Definition total_tax_of (total_tax_amount cgst sgst igst : option Q) : option Q :=
  match total_tax_amount with
  | Some t => Some t
  | None => match cgst, sgst, igst with
            | Some c, Some s, Some i => Some (c + s + i)
            | _, _, _ => None
            end
  end.

(** Row [i] is the first row of the collection that fails [valid]. *)
Definition is_first_violation (valid : nat -> bool) (n i : nat) : Prop :=
  (i < n)%nat /\ valid i = false /\ forall j, (j < i)%nat -> valid j = true.

(** The engine as a function of the contents of the caller's three frames:
    the outcome, and the three local frames as the call leaves them. *)
Definition engine (parse_date : cell -> option Timestamp)
    (parse_number : cell -> option (option Q))
    (invoice_df line_items_df total_summary_df : DataFrame)
  : result verdict * list DataFrame :=
  let a := standardize_nulls invoice_df in
  let b := standardize_nulls line_items_df in
  let c := standardize_nulls total_summary_df in
  match check_missing_values a b c with
  | Raise e => (Raise e, [a; b; c])
  | Ok (false, msg) => (Ok (false, "Step 1: Missing Values", msg), [a; b; c])
  | Ok (true, _) =>
      match check_data_types parse_date parse_number a b c with
      | ((false, msg), a1) => (Ok (false, "Step 2: Data Types", msg), [a1; b; c])
      | ((true, _), a1) =>
          match check_relations parse_number a1 b c with
          | (Raise e, (a2, b2, c2)) => (Raise e, [a2; b2; c2])
          | (Ok (false, msg), (a2, b2, c2)) =>
              (Ok (false, "Step 3: Relations", msg), [a2; b2; c2])
          | (Ok (true, _), (a2, b2, c2)) =>
              (Ok (true, "All Steps", [Lit "Validation successful"]), [a2; b2; c2])
          end
      end
  end.

(** ** Vocabulary for the stages as a whole *)

(** What a summary row answers when its total tax resolves to [tax]. *)
Definition summary_answer (idx : nat) (tax : Q) (taxable invoice : option Q)
  : option fstring :=
  match taxable, invoice with
  | Some t, Some v =>
      if isclose v (t + tax) then None else Some (total_mismatch idx v t tax)
  | _, _ => None
  end.

(** Every listed column exists and each of its cells converts under
    [pd.to_numeric]. *)
Definition numeric_columns_convert (parse_number : cell -> option (option Q))
    (df : DataFrame) (names : list string) : Prop :=
  forall col, In col names ->
    exists s, getitem df col = Ok s /\
              forall c, In c s -> exists c', to_numeric_cell parse_number c = Ok c'.

(** The [invoice_date] column exists and each of its non-null cells parses. *)
Definition dates_parse (parse_date : cell -> option Timestamp) (df : DataFrame) : Prop :=
  exists s, getitem df "invoice_date" = Ok s /\
            forall c, In c s -> isna c = false -> exists t, parse_date c = Some t.

(** The first of the listed columns that the frame does not have. *)
Definition first_missing (df : DataFrame) (names : list string) : option string :=
  find (fun col => negb (has_column df col)) names.

(** The columns of the line-item condition in the order the code reads them. *)
Definition item_presence_cols : list string :=
  ["tax_amount"; "tax_rate"; "sgst_amount"; "cgst_amount"; "igst_amount";
   "sgst_rate"; "cgst_rate"; "igst_rate"; "final_amount"; "taxable_value";
   "rate_per_item_after_discount"; "quantity"].

(** A line-item frame as [pd.DataFrame([])] builds it: no row, no column. *)
Definition no_items : DataFrame := frame_of_records [].

(** A summary frame without the [rounding_adjustment] column. *)
Definition summary_no_rounding : DataFrame :=
  frame_of_records
    [[("total_taxable_value", CNum 100); ("total_cgst_amount", CNum 9);
      ("total_sgst_amount", CNum 9); ("total_igst_amount", CNum 0);
      ("total_tax_amount", CNone); ("total_invoice_value", CNum 118)]].

(** A header whose date does not follow the format. *)
Definition header_bad_date : DataFrame :=
  frame_of_records
    [[("invoice_number", CStr "INV-001"); ("invoice_date", CStr "2024-01-05");
      ("place_of_supply", CNum 29); ("place_of_origin", CNum 27);
      ("receiver_name", CStr "Acme Traders"); ("gstin_supplier", sample_gstin);
      ("taxable_value", CNum 100); ("invoice_value", CNum 118);
      ("tax_amount", CNum 18)]].

(** The three collections with their columns and no row. *)
Definition empty_header : DataFrame := mkDF 0 (map (fun col => (col, [])) header_cols).
Definition empty_items : DataFrame :=
  mkDF 0 (map (fun col => (col, [])) relation_cols_items).
Definition empty_summary : DataFrame :=
  mkDF 0 (map (fun col => (col, [])) numeric_cols_summary).

(** ** Step 3 on numpy scalars

    After the coercion loop every value that a row of [df.iterrows()] yields
    is a number as pandas hands it out: a float64, NaN included, or an
    integer.  The three loops of [check_relations] are given here over such
    scalars.  The operations the loops apply to them are taken as pandas and
    numpy provide them, with no law assumed; [binary64] below gives them for
    float64 values. *)

Record numpy : Type := mkNumpy {
  scalar : Type;
  np_isna : scalar -> bool;               (* [pd.isna(x)] *)
  np_add : scalar -> scalar -> scalar;    (* [x + y] *)
  np_mul : scalar -> scalar -> scalar;    (* [x * y] *)
  np_per_cent : scalar -> scalar;         (* [x / 100] *)
  np_isclose : scalar -> scalar -> bool   (* [np.isclose(x, y, rtol=1e-05)] *)
}.

(** The fragments of an f-string that interpolates scalars. *)
Inductive piece (A : Type) : Type :=
| Text (s : string)
| RowIndex (n : nat)
| Value (x : A).
Arguments Text {A} s.
Arguments RowIndex {A} n.
Arguments Value {A} x.

Section Numpy.

Variable np : numpy.

Definition np_message : Type := list (piece (scalar np)).

(** [row[col]] for a row of [df.iterrows()]: a scalar, or [KeyError]. *)
Definition np_row : Type := string -> result (scalar np).

(** [if not pd.isna(row[col]): k(row[col]) else: absent] *)
Definition np_when_present {A} (row : np_row) (col : string)
    (absent : result A) (k : scalar np -> result A) : result A :=
  v <- row col ;;
  if negb (np_isna np v) then k v else absent.

Definition np_invoice_mismatch (idx : nat)
    (invoice_value taxable_value tax_amount : scalar np) : np_message :=
  [Text "Invoice value mismatch at row "; RowIndex idx; Text ": ";
   Value invoice_value; Text " != "; Value taxable_value; Text " + ";
   Value tax_amount].

(** Body of the loop over [invoice_df.iterrows()]. *)
Definition np_invoice_row (idx : nat) (row : np_row) : result (option np_message) :=
  np_when_present row "invoice_value" (Ok None) (fun invoice_value =>
  np_when_present row "taxable_value" (Ok None) (fun taxable_value =>
  np_when_present row "tax_amount" (Ok None) (fun tax_amount =>
    if negb (np_isclose np invoice_value (np_add np taxable_value tax_amount))
    then Ok (Some (np_invoice_mismatch idx invoice_value taxable_value tax_amount))
    else Ok None))).

(** The [if / elif / else: continue] that opens the line-item loop body. *)
Definition np_base_value (row : np_row) : result (option (scalar np)) :=
  np_when_present row "taxable_value"
    (np_when_present row "rate_per_item_after_discount" (Ok None) (fun rate =>
     np_when_present row "quantity" (Ok None) (fun quantity =>
       Ok (Some (np_mul np rate quantity)))))
    (fun taxable_value => Ok (Some taxable_value)).

(** The list [tax_vars] once the four [if] blocks have run. *)
Definition np_tax_vars (row : np_row) (base_value : scalar np)
  : result (list (scalar np)) :=
  let tax_vars := [] in
  tax_vars <-
    np_when_present row "sgst_amount" (Ok tax_vars) (fun sgst_amount =>
    np_when_present row "cgst_amount" (Ok tax_vars) (fun cgst_amount =>
    np_when_present row "igst_amount" (Ok tax_vars) (fun igst_amount =>
      Ok (tax_vars ++ [np_add np (np_add np sgst_amount cgst_amount) igst_amount])))) ;;
  tax_vars <-
    np_when_present row "sgst_rate" (Ok tax_vars) (fun sgst_rate =>
    np_when_present row "cgst_rate" (Ok tax_vars) (fun cgst_rate =>
    np_when_present row "igst_rate" (Ok tax_vars) (fun igst_rate =>
      Ok (tax_vars ++
          [np_per_cent np
             (np_mul np base_value
                (np_add np (np_add np sgst_rate cgst_rate) igst_rate))])))) ;;
  tax_vars <-
    np_when_present row "tax_amount" (Ok tax_vars) (fun tax_amount =>
      Ok (tax_vars ++ [tax_amount])) ;;
  np_when_present row "tax_rate" (Ok tax_vars) (fun tax_rate =>
    Ok (tax_vars ++ [np_per_cent np (np_mul np base_value tax_rate)])).

(** [for i in range(len(tax_vars)-1)]: is every successive pair close? *)
Fixpoint np_successive_close (tax_vars : list (scalar np)) : bool :=
  match tax_vars with
  | a :: ((b :: _) as rest) => np_isclose np a b && np_successive_close rest
  | _ => true
  end.

Definition np_tax_mismatch (idx : nat) : np_message :=
  [Text "Tax amount mismatch at row "; RowIndex idx;
   Text ": Different tax calculations yield different results"].

Definition np_final_mismatch (idx : nat)
    (final_amount base_value tax_amount : scalar np) : np_message :=
  [Text "Final amount mismatch at row "; RowIndex idx; Text ": ";
   Value final_amount; Text " != "; Value base_value; Text " + ";
   Value tax_amount].

(** [next((t for t in tax_vars if not pd.isna(t)), None)] *)
Definition np_first_estimate (tax_vars : list (scalar np)) : option (scalar np) :=
  find (fun t => negb (np_isna np t)) tax_vars.

(** Body of the loop over [line_items_df.iterrows()]. *)
Definition np_line_item_row (idx : nat) (row : np_row) : result (option np_message) :=
  base <- np_base_value row ;;
  match base with
  | None => Ok None
  | Some base_value =>
      tax_vars <- np_tax_vars row base_value ;;
      if (2 <=? List.length tax_vars)%nat && negb (np_successive_close tax_vars)
      then Ok (Some (np_tax_mismatch idx))
      else
        np_when_present row "final_amount" (Ok None) (fun final_amount =>
          match np_first_estimate tax_vars with
          | Some tax_amount =>
              if negb (np_isclose np final_amount (np_add np base_value tax_amount))
              then Ok (Some (np_final_mismatch idx final_amount base_value tax_amount))
              else Ok None
          | None => Ok None
          end)
  end.

Definition np_total_mismatch (idx : nat)
    (total_invoice_value total_taxable_value total_tax : scalar np) : np_message :=
  [Text "Total invoice value mismatch at row "; RowIndex idx; Text ": ";
   Value total_invoice_value; Text " != "; Value total_taxable_value; Text " + ";
   Value total_tax].

(** Body of the loop over [total_summary_df.iterrows()].  The local
    [total_tax] lives across iterations: [None] is "not yet assigned", and a
    row that assigns nothing leaves the previous binding in place.  The
    condition reads [total_tax] last, after both values were found present. *)
Definition np_summary_row (idx : nat) (row : np_row) (total_tax : option (scalar np))
  : result (option (scalar np) * option np_message) :=
  total_tax <-
    np_when_present row "total_tax_amount"
      (np_when_present row "total_cgst_amount" (Ok total_tax) (fun cgst =>
       np_when_present row "total_sgst_amount" (Ok total_tax) (fun sgst =>
       np_when_present row "total_igst_amount" (Ok total_tax) (fun igst =>
         Ok (Some (np_add np (np_add np cgst sgst) igst))))))
      (fun total_tax_amount => Ok (Some total_tax_amount)) ;;
  np_when_present row "total_taxable_value" (Ok (total_tax, None))
    (fun total_taxable_value =>
  np_when_present row "total_invoice_value" (Ok (total_tax, None))
    (fun total_invoice_value =>
    match total_tax with
    | None => Raise (UnboundLocalError "total_tax")
    | Some tax =>
        if negb (np_isna np tax) then
          if negb (np_isclose np total_invoice_value
                     (np_add np total_taxable_value tax))
          then Ok (total_tax,
                   Some (np_total_mismatch idx total_invoice_value
                           total_taxable_value tax))
          else Ok (total_tax, None)
        else Ok (total_tax, None)
    end)).

(** [for idx, row in df.iterrows()] over the rows in order, with a body that
    may [return] a message; under the default [RangeIndex], [idx] counts the
    rows from 0. *)
Fixpoint np_for_rows (body : nat -> np_row -> result (option np_message))
    (idx : nat) (rows : list np_row) : result (option np_message) :=
  match rows with
  | [] => Ok None
  | row :: rows' =>
      r <- body idx row ;;
      match r with
      | Some msg => Ok (Some msg)
      | None => np_for_rows body (S idx) rows'
      end
  end.

(** The same loop carrying a local variable from one iteration to the next. *)
Fixpoint np_for_rows_with {St : Type}
    (body : nat -> np_row -> St -> result (St * option np_message))
    (idx : nat) (rows : list np_row) (s : St) : result (option np_message) :=
  match rows with
  | [] => Ok None
  | row :: rows' =>
      r <- body idx row s ;;
      match r with
      | (_, Some msg) => Ok (Some msg)
      | (s', None) => np_for_rows_with body (S idx) rows' s'
      end
  end.

Definition np_invoice_relations (invoice_rows : list np_row)
  : result (option np_message) :=
  np_for_rows np_invoice_row 0 invoice_rows.

Definition np_line_item_relations (line_item_rows : list np_row)
  : result (option np_message) :=
  np_for_rows np_line_item_row 0 line_item_rows.

Definition np_summary_relations (summary_rows : list np_row)
  : result (option np_message) :=
  np_for_rows_with np_summary_row 0 summary_rows None.

(** The three loops of Step 3 in their order, over the rows of the coerced
    frames. *)
Definition np_relations (invoice_rows line_item_rows summary_rows : list np_row)
  : result (bool * np_message) :=
  r <- np_invoice_relations invoice_rows ;;
  match r with
  | Some msg => Ok (false, msg)
  | None =>
      r <- np_line_item_relations line_item_rows ;;
      match r with
      | Some msg => Ok (false, msg)
      | None =>
          r <- np_summary_relations summary_rows ;;
          match r with
          | Some msg => Ok (false, msg)
          | None => Ok (true, [])
          end
      end
  end.

(** A row given by its labelled values. *)
Definition np_series (fields : list (string * scalar np)) : np_row :=
  fun col =>
    match find (fun kv => String.eqb col (fst kv)) fields with
    | Some kv => Ok (snd kv)
    | None => Raise (KeyError col)
    end.

(** The vocabulary of the specification over scalars. *)

Definition np_readable (row : np_row) (names : list string) : Prop :=
  forall col, In col names -> exists v, row col = Ok v.

(** Section 4.4, header relation on one row. *)
Definition np_header_row_agrees (row : np_row) : Prop :=
  forall invoice_value taxable_value tax_amount,
    row "invoice_value" = Ok invoice_value ->
    row "taxable_value" = Ok taxable_value ->
    row "tax_amount" = Ok tax_amount ->
    np_isna np invoice_value = false ->
    np_isna np taxable_value = false ->
    np_isna np tax_amount = false ->
    np_isclose np invoice_value (np_add np taxable_value tax_amount) = true.

(** The sum of three values when all three are present. *)
Definition np_sum3 (a b c : scalar np) : list (scalar np) :=
  if negb (np_isna np a) && negb (np_isna np b) && negb (np_isna np c)
  then [np_add np (np_add np a b) c]
  else [].

Definition np_if_present (a : scalar np) : list (scalar np) :=
  if negb (np_isna np a) then [a] else [].

(** Section 4.4, the estimates (a), (b), (c), (d) in the listed order. *)
Definition np_estimates (base : scalar np)
    (sgst_amount cgst_amount igst_amount sgst_rate cgst_rate igst_rate
     tax_amount tax_rate : scalar np) : list (scalar np) :=
  np_sum3 sgst_amount cgst_amount igst_amount ++
  map (fun rates => np_per_cent np (np_mul np base rates))
      (np_sum3 sgst_rate cgst_rate igst_rate) ++
  np_if_present tax_amount ++
  map (fun rate => np_per_cent np (np_mul np base rate)) (np_if_present tax_rate).

(** At least two estimates, and some successive pair is not close. *)
Definition np_disagree (l : list (scalar np)) : Prop :=
  (2 <= List.length l)%nat /\
  exists i a b,
    nth_error l i = Some a /\ nth_error l (S i) = Some b /\
    np_isclose np a b = false.

(** Section 4.4, the total tax of a summary row: the stated amount, else the
    sum of the three components when all are present. *)
Definition np_total_tax_of (total_tax_amount cgst sgst igst : scalar np)
  : option (scalar np) :=
  if negb (np_isna np total_tax_amount) then Some total_tax_amount
  else match np_sum3 cgst sgst igst with
       | t :: _ => Some t
       | [] => None
       end.

(** The row resolves its total tax to [tax]. *)
Definition np_resolves (row : np_row) (tax : scalar np) : Prop :=
  exists total_tax_amount cgst sgst igst,
    row "total_tax_amount" = Ok total_tax_amount /\
    row "total_cgst_amount" = Ok cgst /\
    row "total_sgst_amount" = Ok sgst /\
    row "total_igst_amount" = Ok igst /\
    np_total_tax_of total_tax_amount cgst sgst igst = Some tax.

(** Section 4.4, the summary relation on a row that resolves its total tax. *)
Definition np_summary_row_agrees (row : np_row) : Prop :=
  forall tax taxable invoice,
    np_resolves row tax ->
    row "total_taxable_value" = Ok taxable ->
    row "total_invoice_value" = Ok invoice ->
    np_isna np taxable = false -> np_isna np invoice = false ->
    np_isna np tax = false ->
    np_isclose np invoice (np_add np taxable tax) = true.

End Numpy.

Arguments np_when_present {np A} row col absent k.
Arguments np_series {np} fields col.
Arguments np_readable {np} row names.

(** ** float64 values

    The operations on float64 scalars are those of IEEE 754 binary64:
    [pd.isna] is the NaN test and [x / 100] divides by the float 100.
    [np.isclose(x, y, rtol=1e-05)] computes
    [(abs(x - y) <= atol + rtol * abs(y)) & isfinite(y) | (x == y)] in that
    arithmetic, [atol] keeping its default [1e-08]; numpy before 2.0 tests
    both operands for finiteness first, which answers the same on scalars.
    A decimal literal denotes the nearest float64, as it does in Python. *)

Set Warnings "-inexact-float".

Definition rtol64 : float := 1e-5.
Definition atol64 : float := 1e-8.

Definition isclose64 (a b : float) : bool :=
  (PrimFloat.leb (PrimFloat.abs (PrimFloat.sub a b))
     (PrimFloat.add atol64 (PrimFloat.mul rtol64 (PrimFloat.abs b)))
   && is_finite b)
  || PrimFloat.eqb a b.

Definition binary64 : numpy :=
  mkNumpy float is_nan PrimFloat.add PrimFloat.mul
          (fun x => PrimFloat.div x 100%float) isclose64.

(** The comparison as the specification words it: purely relative, against
    the larger magnitude. *)
Definition relative_close64 (a b : float) : bool :=
  PrimFloat.leb (PrimFloat.abs (PrimFloat.sub a b))
    (PrimFloat.mul rtol64 (if PrimFloat.ltb (PrimFloat.abs a) (PrimFloat.abs b)
                          then PrimFloat.abs b else PrimFloat.abs a)).

(** What a summary row answers when its total tax resolves to [tax]. *)
Definition np_summary_answer (np : numpy) (idx : nat)
    (tax taxable invoice : scalar np) : option (np_message np) :=
  if negb (np_isna np taxable) && negb (np_isna np invoice) && negb (np_isna np tax)
  then if np_isclose np invoice (np_add np taxable tax) then None
       else Some (np_total_mismatch np idx invoice taxable tax)
  else None.

(** ** Sample rows of float64 values

    [nan] is an absent value. *)

Definition header64 (invoice_value taxable_value tax_amount : float)
  : np_row binary64 :=
  @np_series binary64 [("taxable_value", taxable_value); ("invoice_value", invoice_value);
             ("tax_amount", tax_amount)].

Definition item64
    (quantity rate taxable_value sgst_amount cgst_amount igst_amount
     sgst_rate cgst_rate igst_rate tax_amount tax_rate final_amount : float)
  : np_row binary64 :=
  @np_series binary64
    [("quantity", quantity); ("rate_per_item_after_discount", rate);
     ("taxable_value", taxable_value); ("sgst_amount", sgst_amount);
     ("cgst_amount", cgst_amount); ("igst_amount", igst_amount);
     ("sgst_rate", sgst_rate); ("cgst_rate", cgst_rate); ("igst_rate", igst_rate);
     ("tax_amount", tax_amount); ("tax_rate", tax_rate);
     ("final_amount", final_amount)].

Definition summary64
    (total_taxable_value total_cgst_amount total_sgst_amount total_igst_amount
     total_tax_amount total_invoice_value : float) : np_row binary64 :=
  @np_series binary64
    [("total_taxable_value", total_taxable_value);
     ("total_cgst_amount", total_cgst_amount);
     ("total_sgst_amount", total_sgst_amount);
     ("total_igst_amount", total_igst_amount);
     ("total_tax_amount", total_tax_amount);
     ("total_invoice_value", total_invoice_value);
     ("rounding_adjustment", nan)].

(** Line item of Example 3: rates 9 + 9 + 0 on 1000 and a tax amount of 180. *)
Definition item64_180 : np_row binary64 :=
  item64 nan nan 1000 nan nan nan 9 9 0 180 nan nan.

(** The same line item with a tax amount of 200. *)
Definition item64_200 : np_row binary64 :=
  item64 nan nan 1000 nan nan nan 9 9 0 200 nan nan.

(** One estimate (the tax amount) and a final amount that does not add up. *)
Definition item64_bad_final : np_row binary64 :=
  item64 nan nan 100 nan nan nan nan nan nan 18 nan 150.

(** Rate times quantity overflows to infinity, and infinity times the zero
    rate is NaN: the only estimate is NaN. *)
Definition item64_overflow : np_row binary64 :=
  item64 1e200 1e200 nan nan nan nan 0 0 0 nan nan 5.

(** Both estimates overflow to infinity. *)
Definition item64_infinite : np_row binary64 :=
  item64 nan nan 1e308 nan nan nan nan nan nan infinity 1e5 nan.

(** Summary consistent with the header of Example 1. *)
Definition summary64_118 : np_row binary64 := summary64 100 9 9 0 nan 118.

(** A summary row with 5000 + 450 + 450 + 0 against a stated total of 6000. *)
Definition summary64_6000 : np_row binary64 := summary64 5000 450 450 0 nan 6000.

(** The summary row of Example 5, as the specification gives it. *)
Definition summary64_5900 : np_row binary64 := summary64 5000 450 450 0 nan 5900.

(** Components of opposite infinite sign: the total tax is NaN. *)
Definition summary64_nan_tax : np_row binary64 :=
  summary64 100 infinity neg_infinity 0 nan 118.

(** ** Exact arithmetic

    The scalars of the reading over frames: a rational, or NaN.  No
    operation on rationals yields NaN or an infinity, and none rounds. *)

Definition rational_isna (x : option Q) : bool :=
  match x with
  | Some _ => false
  | None => true
  end.

Definition rational_add (x y : option Q) : option Q :=
  match x, y with
  | Some a, Some b => Some (a + b)
  | _, _ => None
  end.

Definition rational_mul (x y : option Q) : option Q :=
  match x, y with
  | Some a, Some b => Some (a * b)
  | _, _ => None
  end.

Definition rational_per_cent (x : option Q) : option Q :=
  match x with
  | Some a => Some (a / 100)
  | None => None
  end.

Definition rational_isclose (x y : option Q) : bool :=
  match x, y with
  | Some a, Some b => isclose a b
  | _, _ => false
  end.

Definition rational : numpy :=
  mkNumpy (option Q) rational_isna rational_add rational_mul rational_per_cent rational_isclose.

(** A message over rational scalars as a message over cells. *)
Definition render (p : piece (option Q)) : frag :=
  match p with
  | Text s => Lit s
  | RowIndex n => Idx n
  | Value (Some q) => Num q
  | Value None => Lit "nan"
  end.

Definition rendered (r : result (option (np_message rational)))
  : result (option fstring) :=
  m <- r ;; Ok (option_map (map render) m).

(** [df.iterrows()]: the rows of a frame in order. *)
Definition iterrows (df : DataFrame) : list Row :=
  map (iterrow df) (seq 0 (nrows df)).

(** * Properties *)

(** ** The comparator *)


(** ** The normalizer *)

Lemma assoc_map_values (f : Series -> Series) (col : string) (l : list (string * Series)) :
  assoc col (map (fun kv => (fst kv, f (snd kv))) l) = option_map f (assoc col l).
Proof.
  induction l as [|[k v] l IH]; simpl; [reflexivity|].
  destruct (String.eqb col k); [reflexivity|apply IH].
Qed.

Lemma cell_at_standardize_nulls (df : DataFrame) (col : string) (i : nat) :
  cell_at (standardize_nulls df) col i =
  (c <- cell_at df col i ;; Ok (replace_cell c)).
Proof.
  unfold cell_at, getitem, standardize_nulls; simpl.
  rewrite assoc_map_values.
  destruct (assoc col (cols df)) as [s|]; simpl; [|reflexivity].
  unfold iloc. rewrite nth_error_map.
  destruct (nth_error s i); reflexivity.
Qed.

Lemma replace_cell_other (c : cell) :
  ~ (exists s, c = CStr s /\ In s null_strings) -> replace_cell c = c.
Proof.
  intro H. destruct c as [| |s| |]; try reflexivity.
  unfold replace_cell.
  destruct (existsb (String.eqb s) null_strings) eqn:E; [|reflexivity].
  exfalso. apply H. exists s. split; [reflexivity|].
  apply existsb_exists in E. destruct E as [x [Hin Heq]].
  apply String.eqb_eq in Heq. subst x. exact Hin.
Qed.

Lemma replace_cell_null (s : string) :
  In s null_strings -> replace_cell (CStr s) = CNaN.
Proof.
  intro H. unfold replace_cell.
  replace (existsb (String.eqb s) null_strings) with true; [reflexivity|].
  symmetry. apply existsb_exists. exists s. split; [exact H|apply String.eqb_refl].
Qed.

(** C3, as the code has it: the normalizer turns a cell into the absent
    marker exactly when it is one of the strings [""], ["nan"], ["null"],
    ["none"], ["None"]; it keeps every other cell, the columns and the row
    count, adds no error, and builds a new frame next to the caller's. *)
Theorem standardize_nulls_exact_match (df : DataFrame) (col : string) (i : nat) :
  columns (standardize_nulls df) = columns df /\
  nrows (standardize_nulls df) = nrows df /\
  (forall e, cell_at df col i = Raise e ->
             cell_at (standardize_nulls df) col i = Raise e) /\
  (forall c, cell_at df col i = Ok c ->
     ((exists s, c = CStr s /\ In s [""; "nan"; "null"; "none"; "None"]) ->
      cell_at (standardize_nulls df) col i = Ok CNaN) /\
     (~ (exists s, c = CStr s /\ In s [""; "nan"; "null"; "none"; "None"]) ->
      cell_at (standardize_nulls df) col i = Ok c)) /\
  (forall (h : heap) (r : ref),
     nth_error h r = Some df ->
     standardize_nulls_at r h = (Ok (List.length h), h ++ [standardize_nulls df])).
Proof.
  split; [|split; [|split; [|split]]].
  - unfold columns, standardize_nulls; simpl. rewrite map_map. reflexivity.
  - reflexivity.
  - intros e H. rewrite cell_at_standardize_nulls, H. reflexivity.
  - intros c H. split; intro Hc.
    + destruct Hc as [s [-> Hin]].
      rewrite cell_at_standardize_nulls, H. simpl bind.
      f_equal. apply replace_cell_null. exact Hin.
    + rewrite cell_at_standardize_nulls, H. simpl bind.
      f_equal. apply replace_cell_other. exact Hc.
  - intros h r H. unfold standardize_nulls_at, bindM, read, alloc.
    rewrite H. reflexivity.
Qed.

Lemma standardize_nulls_exact_match_witness :
  cell_at (standardize_nulls (frame_of_records [[("receiver_name", CStr "null")]]))
          "receiver_name" 0 = Ok CNaN /\
  cell_at (standardize_nulls (frame_of_records [[("receiver_name", CStr "Acme")]]))
          "receiver_name" 0 = Ok (CStr "Acme").
Proof.
  split.
  - apply (proj1 (proj2 (proj2 (proj2
             (standardize_nulls_exact_match
                (frame_of_records [[("receiver_name", CStr "null")]])
                "receiver_name" 0)))) (CStr "null") eq_refl).
    exists "null". split; [reflexivity|simpl; tauto].
  - apply (proj1 (proj2 (proj2 (proj2
             (standardize_nulls_exact_match
                (frame_of_records [[("receiver_name", CStr "Acme")]])
                "receiver_name" 0)))) (CStr "Acme") eq_refl).
    intros [s [Hs Hin]]. injection Hs as <-.
    simpl in Hin. repeat (destruct Hin as [Hin|Hin]; [discriminate|]). exact Hin.
Defined.

(** C3, as stated, fails: ["NAN"], ["Null"] and ["NONE"] come out of the
    normalizer unchanged and count as present. *)
Lemma standardize_nulls_case_counterexample :
  standardize_nulls upper_case_nulls = upper_case_nulls /\
  cell_at (standardize_nulls upper_case_nulls) "receiver_name" 0 = Ok (CStr "NAN") /\
  cell_at (standardize_nulls upper_case_nulls) "gstin_supplier" 0 = Ok (CStr "Null") /\
  cell_at (standardize_nulls upper_case_nulls) "invoice_number" 0 = Ok (CStr "NONE") /\
  present (standardize_nulls upper_case_nulls) 0 "receiver_name" = true.
Proof. repeat split; vm_compute; reflexivity. Qed.

(** ** Frames and rows *)

Lemma has_column_getitem (df : DataFrame) (col : string) :
  has_column df col = true -> exists s, getitem df col = Ok s.
Proof.
  unfold has_column, getitem, columns. destruct df as [n l]; simpl.
  induction l as [|[k v] l IH]; simpl; [discriminate|].
  destruct (String.eqb col k); simpl; [intros _; eauto|exact IH].
Qed.

Lemma assoc_In (col : string) (l : list (string * Series)) (s : Series) :
  assoc col l = Some s -> In (col, s) l.
Proof.
  induction l as [|[k v] l IH]; simpl; [discriminate|].
  destruct (String.eqb col k) eqn:E.
  - intros [= ->]. apply String.eqb_eq in E. subst. left. reflexivity.
  - intro H. right. apply IH. exact H.
Qed.

Lemma wf_frame_length (df : DataFrame) (col : string) (s : Series) :
  wf_frame df = true -> getitem df col = Ok s -> List.length s = nrows df.
Proof.
  unfold wf_frame, getitem. intros Hwf H.
  destruct (assoc col (cols df)) as [s'|] eqn:E; [|discriminate].
  injection H as ->. apply assoc_In in E.
  rewrite forallb_forall in Hwf. specialize (Hwf _ E). simpl in Hwf.
  apply Nat.eqb_eq. exact Hwf.
Qed.

Lemma has_columns_In (df : DataFrame) (names : list string) (col : string) :
  has_columns df names = true -> In col names -> has_column df col = true.
Proof.
  unfold has_columns. rewrite forallb_forall. intros H Hin. apply H. exact Hin.
Qed.

Lemma cell_at_defined (df : DataFrame) (col : string) (i : nat) :
  wf_frame df = true -> has_column df col = true -> (i < nrows df)%nat ->
  exists s c, getitem df col = Ok s /\ nth_error s i = Some c /\
              cell_at df col i = Ok c.
Proof.
  intros Hwf Hcol Hi. destruct (has_column_getitem _ _ Hcol) as [s Hs].
  pose proof (wf_frame_length _ _ _ Hwf Hs) as Hlen.
  destruct (nth_error s i) as [c|] eqn:E.
  - exists s, c. repeat split; try assumption.
    unfold cell_at. rewrite Hs. simpl. unfold iloc. rewrite E. reflexivity.
  - apply nth_error_None in E. lia.
Qed.

Lemma iterrow_readable (df : DataFrame) (names : list string) (i : nat) :
  wf_frame df = true -> has_columns df names = true -> (i < nrows df)%nat ->
  readable (iterrow df i) names.
Proof.
  intros Hwf Hcols Hi col Hin.
  destruct (cell_at_defined df col i Hwf (has_columns_In _ _ _ Hcols Hin) Hi)
    as [s [c [Hs [Hc _]]]].
  exists (float_of c). unfold iterrow. rewrite Hs. simpl.
  unfold iloc. rewrite Hc. reflexivity.
Qed.

Lemma when_present_some {A} (row : Row) (col : string) (q : Q)
    (absent : result A) (k : Q -> result A) :
  row col = Ok (Some q) -> when_present row col absent k = k q.
Proof. intro H. unfold when_present. rewrite H. reflexivity. Qed.

Lemma when_present_none {A} (row : Row) (col : string)
    (absent : result A) (k : Q -> result A) :
  row col = Ok None -> when_present row col absent k = absent.
Proof. intro H. unfold when_present. rewrite H. reflexivity. Qed.

(** ** Header relation *)


(** ** Line items *)

Ltac read_row :=
  repeat (match goal with
          | H : ?row ?col = Ok (Some ?q) |- context [when_present ?row ?col _ _] =>
              rewrite (when_present_some row col q _ _ H)
          | H : ?row ?col = Ok None |- context [when_present ?row ?col _ _] =>
              rewrite (when_present_none row col _ _ H)
          end; cbn [bind]).

Lemma base_value_spec (row : Row) (taxable_value rate quantity : option Q) :
  row "taxable_value" = Ok taxable_value ->
  row "rate_per_item_after_discount" = Ok rate ->
  row "quantity" = Ok quantity ->
  base_value row = Ok (base_value_of taxable_value rate quantity).
Proof.
  intros H1 H2 H3. unfold base_value.
  destruct taxable_value, rate, quantity; read_row; reflexivity.
Qed.

Lemma tax_vars_spec (row : Row) (b : Q)
    (sa ca ia sr cr ir ta tr : option Q) :
  row "sgst_amount" = Ok sa -> row "cgst_amount" = Ok ca ->
  row "igst_amount" = Ok ia -> row "sgst_rate" = Ok sr ->
  row "cgst_rate" = Ok cr -> row "igst_rate" = Ok ir ->
  row "tax_amount" = Ok ta -> row "tax_rate" = Ok tr ->
  tax_vars row b = Ok (estimates b sa ca ia sr cr ir ta tr).
Proof.
  intros H1 H2 H3 H4 H5 H6 H7 H8. unfold tax_vars, estimates.
  assert (Ha : when_present row "sgst_amount" (Ok [])
                 (fun x => when_present row "cgst_amount" (Ok [])
                 (fun y => when_present row "igst_amount" (Ok [])
                 (fun z => Ok ([] ++ [x + y + z]))))
               = Ok (sum3 sa ca ia))
    by (destruct sa, ca, ia; read_row; reflexivity).
  rewrite Ha. cbn [bind]. clear Ha H1 H2 H3.
  generalize (sum3 sa ca ia). intro l0.
  assert (Hb : when_present row "sgst_rate" (Ok l0)
                 (fun x => when_present row "cgst_rate" (Ok l0)
                 (fun y => when_present row "igst_rate" (Ok l0)
                 (fun z => Ok (l0 ++ [b * (x + y + z) / 100]))))
               = Ok (l0 ++ map (fun rates => b * rates / 100) (sum3 sr cr ir)))
    by (destruct sr, cr, ir; read_row; simpl; rewrite ?app_nil_r; reflexivity).
  rewrite Hb. cbn [bind]. clear Hb H4 H5 H6.
  generalize (map (fun rates => b * rates / 100) (sum3 sr cr ir)). intro l1.
  destruct ta, tr; read_row; rewrite <- ?app_assoc; simpl; rewrite ?app_nil_r;
    reflexivity.
Qed.

Lemma successive_close_false (l : list Q) :
  successive_close l = false <->
  exists i a b,
    nth_error l i = Some a /\ nth_error l (S i) = Some b /\ isclose a b = false.
Proof.
  induction l as [|x l IH].
  - simpl. split; [discriminate|]. intros [i [a [b [H _]]]].
    destruct i; discriminate.
  - destruct l as [|y l].
    + simpl. split; [discriminate|]. intros [i [a [b [_ [H _]]]]].
      destruct i; simpl in H; [discriminate|destruct i; discriminate].
    + change (successive_close (x :: y :: l))
        with (isclose x y && successive_close (y :: l)).
      rewrite andb_false_iff, IH. split.
      * intros [H|[i [a [b [Ha [Hb Hab]]]]]].
        -- exists 0%nat, x, y. repeat split; assumption.
        -- exists (S i), a, b. repeat split; assumption.
      * intros [i [a [b [Ha [Hb Hab]]]]]. destruct i as [|i].
        -- left. simpl in Ha, Hb. congruence.
        -- right. exists i, a, b. repeat split; assumption.
Qed.

Lemma disagree_iff (l : list Q) :
  ((2 <=? List.length l)%nat && negb (successive_close l) = true) <-> disagree l.
Proof.
  unfold disagree. rewrite andb_true_iff, negb_true_iff, Nat.leb_le,
    successive_close_false. reflexivity.
Qed.

Lemma disagree_dec (l : list Q) :
  ((2 <=? List.length l)%nat && negb (successive_close l) = false) <-> ~ disagree l.
Proof.
  rewrite <- disagree_iff.
  destruct ((2 <=? List.length l)%nat && negb (successive_close l));
    split; intro H; try reflexivity; try discriminate; try congruence.
Qed.

(** What the line-item body answers once the base value and the estimates
    are known. *)
Lemma line_item_row_spec (idx : nat) (row : Row) (b : Q) (tvs : list Q) :
  base_value row = Ok (Some b) -> tax_vars row b = Ok tvs ->
  line_item_row idx row =
  if (2 <=? List.length tvs)%nat && negb (successive_close tvs)
  then Ok (Some (tax_mismatch idx))
  else when_present row "final_amount" (Ok None) (fun final_amount =>
         match hd_error tvs with
         | Some tax_amount =>
             if negb (isclose final_amount (b + tax_amount))
             then Ok (Some (final_mismatch idx final_amount b tax_amount))
             else Ok None
         | None => Ok None
         end).
Proof.
  intros Hb Ht. unfold line_item_row. rewrite Hb. cbn [bind]. rewrite Ht.
  reflexivity.
Qed.

Lemma line_item_row_tax_mismatch_iff (idx : nat) (row : Row) (b : Q) (tvs : list Q) :
  base_value row = Ok (Some b) -> tax_vars row b = Ok tvs ->
  (line_item_row idx row = Ok (Some (tax_mismatch idx)) <-> disagree tvs).
Proof.
  intros Hb Ht. rewrite (line_item_row_spec idx row b tvs Hb Ht).
  destruct ((2 <=? List.length tvs)%nat && negb (successive_close tvs)) eqn:E.
  - apply disagree_iff in E. tauto.
  - apply disagree_dec in E. split; [|tauto].
    unfold when_present. destruct (row "final_amount") as [[fa|]|e]; simpl;
      try discriminate.
    destruct (hd_error tvs) as [t|]; try discriminate.
    destruct (negb (isclose fa (b + t))); discriminate.
Qed.

(** C6: the base value of a line item is its taxable value when present,
    else rate times quantity when both are present; a row with no base value
    is skipped without error whatever its other fields hold; a row whose
    eight tax inputs are all absent passes without error; and fewer than two
    estimates never produce a tax-mismatch. *)
Theorem base_value_and_absent_fields :
  (forall (row : Row) (taxable_value rate quantity : option Q),
     row "taxable_value" = Ok taxable_value ->
     row "rate_per_item_after_discount" = Ok rate ->
     row "quantity" = Ok quantity ->
     base_value row =
     Ok (match taxable_value with
         | Some v => Some v
         | None => match rate, quantity with
                   | Some r, Some q => Some (r * q)
                   | _, _ => None
                   end
         end)) /\
  (forall (idx : nat) (row : Row),
     base_value row = Ok None -> line_item_row idx row = Ok None) /\
  (forall (idx : nat) (row : Row) (b : Q) (final_amount : option Q),
     base_value row = Ok (Some b) ->
     (forall col, In col item_tax_cols -> row col = Ok None) ->
     row "final_amount" = Ok final_amount ->
     line_item_row idx row = Ok None) /\
  (forall (idx : nat) (row : Row) (b : Q) (tvs : list Q),
     base_value row = Ok (Some b) -> tax_vars row b = Ok tvs ->
     (List.length tvs < 2)%nat ->
     line_item_row idx row <> Ok (Some (tax_mismatch idx))) /\
  line_item_row 0 (iterrow (frame_of_records [item_no_base]) 0) = Ok None /\
  validate_frames header_118 (frame_of_records [item_no_base]) summary_118 =
    Ok (true, "All Steps", [Lit "Validation successful"]).
Proof.
  split; [|split; [|split; [|split; [|split; vm_compute; reflexivity]]]].
  - intros row tv rate qty H1 H2 H3.
    rewrite (base_value_spec row tv rate qty H1 H2 H3).
    destruct tv, rate, qty; reflexivity.
  - intros idx row H. unfold line_item_row. rewrite H. reflexivity.
  - intros idx row b fa Hb Habs Hfa.
    assert (Ht : tax_vars row b = Ok []).
    { rewrite (tax_vars_spec row b None None None None None None None None);
        try reflexivity; apply Habs; simpl; tauto. }
    rewrite (line_item_row_spec idx row b [] Hb Ht). simpl.
    unfold when_present. rewrite Hfa. destruct fa; reflexivity.
  - intros idx row b tvs Hb Ht Hlen H.
    apply (line_item_row_tax_mismatch_iff idx row b tvs Hb Ht) in H.
    destruct H as [H _]. lia.
Qed.

Lemma base_value_and_absent_fields_witness :
  line_item_row 0 (iterrow (frame_of_records [item_no_base]) 0) = Ok None /\
  line_item_row 0 (iterrow (frame_of_records [item_igst_only]) 0)
    <> Ok (Some (tax_mismatch 0)).
Proof.
  split.
  - apply (proj1 (proj2 base_value_and_absent_fields) 0%nat). reflexivity.
  - apply (proj1 (proj2 (proj2 (proj2 base_value_and_absent_fields)))
             0%nat _ 100 []).
    + reflexivity.
    + reflexivity.
    + simpl. lia.
Defined.

(** C10: a line-item row with a base value and a final amount, from whose
    fields none of the four estimates can be formed, passes whatever the
    final amount is: the final-amount check has nothing to compare with. *)
Theorem final_amount_unchecked_without_estimate :
  (forall (idx : nat) (row : Row) (b final_amount : Q)
          (sa ca ia sr cr ir ta tr : option Q),
     base_value row = Ok (Some b) ->
     row "final_amount" = Ok (Some final_amount) ->
     row "sgst_amount" = Ok sa -> row "cgst_amount" = Ok ca ->
     row "igst_amount" = Ok ia -> row "sgst_rate" = Ok sr ->
     row "cgst_rate" = Ok cr -> row "igst_rate" = Ok ir ->
     row "tax_amount" = Ok ta -> row "tax_rate" = Ok tr ->
     estimates b sa ca ia sr cr ir ta tr = [] ->
     line_item_row idx row = Ok None) /\
  validate_frames header_118 (frame_of_records [item_igst_only]) summary_118 =
    Ok (true, "All Steps", [Lit "Validation successful"]).
Proof.
  split; [|vm_compute; reflexivity].
  intros idx row b fa sa ca ia sr cr ir ta tr Hb Hfa H1 H2 H3 H4 H5 H6 H7 H8 He.
  pose proof (tax_vars_spec row b sa ca ia sr cr ir ta tr H1 H2 H3 H4 H5 H6 H7 H8)
    as Ht.
  rewrite He in Ht.
  rewrite (line_item_row_spec idx row b [] Hb Ht). simpl.
  rewrite (when_present_some _ _ _ _ _ Hfa). reflexivity.
Qed.

Lemma final_amount_unchecked_without_estimate_witness :
  line_item_row 0 (iterrow (frame_of_records [item_igst_only]) 0) = Ok None.
Proof.
  apply (proj1 final_amount_unchecked_without_estimate 0%nat _ 100 999
           None None (Some 18) None None None None None); reflexivity.
Defined.

(** ** Boolean series *)

Lemma nth_error_band (a b : list bool) (i : nat) :
  nth_error (a &&& b) i =
  match nth_error a i, nth_error b i with
  | Some x, Some y => Some (x && y)
  | _, _ => None
  end.
Proof.
  unfold band. revert b i. induction a as [|x a IH]; intros b i.
  - simpl. destruct i; reflexivity.
  - destruct b as [|y b].
    + simpl. destruct i; simpl; [reflexivity|]. destruct (nth_error a i); reflexivity.
    + destruct i; simpl; [reflexivity|apply IH].
Qed.

Lemma nth_error_bor (a b : list bool) (i : nat) :
  nth_error (a ||| b) i =
  match nth_error a i, nth_error b i with
  | Some x, Some y => Some (x || y)
  | _, _ => None
  end.
Proof.
  unfold bor. revert b i. induction a as [|x a IH]; intros b i.
  - simpl. destruct i; reflexivity.
  - destruct b as [|y b].
    + simpl. destruct i; simpl; [reflexivity|]. destruct (nth_error a i); reflexivity.
    + destruct i; simpl; [reflexivity|apply IH].
Qed.

Lemma all_first_false (cond : list bool) :
  all cond = match first_false cond with Some _ => false | None => true end.
Proof.
  unfold all. induction cond as [|b cond IH]; simpl; [reflexivity|].
  destruct b; simpl; [|reflexivity].
  rewrite IH. destruct (first_false cond); reflexivity.
Qed.

Lemma first_false_from (valid : nat -> bool) (cond : list bool) (start : nat) :
  (forall i, (i < List.length cond)%nat ->
             nth_error cond i = Some (valid (start + i)%nat)) ->
  option_map (Nat.add start) (first_false cond) =
  first_violation_from valid start (List.length cond).
Proof.
  revert start. induction cond as [|b cond IH]; intros start H; simpl; [reflexivity|].
  assert (Hb : b = valid start).
  { specialize (H 0%nat). simpl in H. rewrite Nat.add_0_r in H.
    injection (H (Nat.lt_0_succ _)) as ->. reflexivity. }
  rewrite <- Hb. destruct b; simpl.
  - rewrite <- (IH (S start)).
    + destruct (first_false cond); simpl; [f_equal; lia|reflexivity].
    + intros i Hi. specialize (H (S i)). simpl in H.
      rewrite H by lia. do 2 f_equal. lia.
  - f_equal. lia.
Qed.

(** A condition of [n] entries that is row-wise [valid] stops at the first
    violation of [valid]. *)
Lemma first_false_violation (valid : nat -> bool) (cond : list bool) (n : nat) :
  (forall i, nth_error cond i = if (i <? n)%nat then Some (valid i) else None) ->
  first_false cond = first_violation valid n.
Proof.
  intro H.
  assert (Hlen : List.length cond = n).
  { destruct (Nat.lt_trichotomy (List.length cond) n) as [Hlt|[Heq|Hgt]];
      [|exact Heq|].
    - specialize (H (List.length cond)).
      rewrite (proj2 (Nat.ltb_lt _ _) Hlt) in H.
      rewrite (proj2 (nth_error_None _ _) (Nat.le_refl _)) in H. discriminate.
    - specialize (H n). rewrite Nat.ltb_irrefl in H.
      apply nth_error_None in H. lia. }
  unfold first_violation. rewrite <- Hlen.
  rewrite <- (first_false_from valid cond 0).
  - destruct (first_false cond); reflexivity.
  - intros i Hi. rewrite H. rewrite (proj2 (Nat.ltb_lt _ _)) by lia. reflexivity.
Qed.

Lemma first_violation_from_least (valid : nat -> bool) (n start i : nat) :
  first_violation_from valid start n = Some i ->
  (start <= i < start + n)%nat /\ valid i = false /\
  forall j, (start <= j < i)%nat -> valid j = true.
Proof.
  revert start. induction n as [|n IH]; intros start H; simpl in H; [discriminate|].
  destruct (valid start) eqn:E.
  - destruct (IH _ H) as [Hr [Hv Hl]]. split; [lia|]. split; [exact Hv|].
    intros j Hj. destruct (Nat.eq_dec j start) as [->|Hne]; [exact E|].
    apply Hl. lia.
  - injection H as <-. split; [lia|]. split; [exact E|]. intros j Hj. lia.
Qed.

Lemma first_violation_from_none (valid : nat -> bool) (n start : nat) :
  first_violation_from valid start n = None ->
  forall j, (start <= j < start + n)%nat -> valid j = true.
Proof.
  revert start. induction n as [|n IH]; intros start H j Hj; [lia|].
  simpl in H. destruct (valid start) eqn:E; [|discriminate].
  destruct (Nat.eq_dec j start) as [->|Hne]; [exact E|].
  apply (IH _ H). lia.
Qed.

Lemma first_violation_exists (valid : nat -> bool) (n start k : nat) :
  (start <= k < start + n)%nat -> valid k = false ->
  exists i, first_violation_from valid start n = Some i.
Proof.
  intros Hk Hv. destruct (first_violation_from valid start n) as [i|] eqn:E.
  - exists i. reflexivity.
  - rewrite (first_violation_from_none valid n start E k Hk) in Hv. discriminate.
Qed.

(** ** Step 1 against the row-wise predicates *)

Lemma column_ok (df : DataFrame) (names : list string) (col : string) :
  wf_frame df = true -> has_columns df names = true -> In col names ->
  exists s, getitem df col = Ok s /\ List.length s = nrows df.
Proof.
  intros Hwf Hc Hin.
  destruct (has_column_getitem df col (has_columns_In _ _ _ Hc Hin)) as [s Hs].
  exists s. split; [exact Hs|]. apply (wf_frame_length df col s Hwf Hs).
Qed.

Lemma col_notna_ok (df : DataFrame) (col : string) (s : Series) :
  getitem df col = Ok s -> col_notna df col = Ok (map notna s).
Proof. intro H. unfold col_notna. rewrite H. reflexivity. Qed.

Lemma nth_notna (df : DataFrame) (col : string) (s : Series) (i : nat) :
  getitem df col = Ok s ->
  nth_error (map notna s) i =
  if (i <? List.length s)%nat then Some (present df i col) else None.
Proof.
  intro H. rewrite nth_error_map. unfold present, cell_at. rewrite H. simpl.
  unfold iloc. destruct (nth_error s i) as [c|] eqn:E.
  - assert (i < List.length s)%nat by (apply nth_error_Some; congruence).
    rewrite (proj2 (Nat.ltb_lt _ _)) by assumption. reflexivity.
  - apply nth_error_None in E.
    rewrite (proj2 (Nat.ltb_ge _ _)) by assumption. reflexivity.
Qed.

Lemma filterM_filter {A} (p : A -> result bool) (q : A -> bool) (l : list A) :
  (forall a, In a l -> p a = Ok (q a)) -> filterM p l = Ok (filter q l).
Proof.
  induction l as [|a l IH]; intro H; simpl; [reflexivity|].
  rewrite (H a) by (left; reflexivity). simpl.
  rewrite IH by (intros x Hx; apply H; right; exact Hx). simpl.
  destruct (q a); reflexivity.
Qed.

Lemma columns_has_column (df : DataFrame) (col : string) :
  In col (columns df) -> has_column df col = true.
Proof.
  intro H. unfold has_column. apply existsb_exists. exists col.
  split; [exact H|apply String.eqb_refl].
Qed.

Lemma filterM_missing (df : DataFrame) (i : nat) :
  wf_frame df = true -> (i < nrows df)%nat ->
  filterM (fun col => s <- getitem df col ;; iloc (map isna s) i) (columns df) =
  Ok (missing_fields df i).
Proof.
  intros Hwf Hi. unfold missing_fields. apply filterM_filter.
  intros col Hin.
  destruct (cell_at_defined df col i Hwf (columns_has_column df col Hin) Hi)
    as [s [c [Hs [Hc Hcell]]]].
  rewrite Hs. simpl. unfold iloc. rewrite nth_error_map, Hc. simpl.
  unfold present. rewrite Hcell. unfold notna. rewrite negb_involutive.
  reflexivity.
Qed.

(** Reads the next column of a condition and exposes the following bind. *)
Ltac read_column Hwf Hc s Hs Hlen :=
  match goal with
  | |- context [col_notna ?df ?col] =>
      let Hin := fresh "Hin" in
      match type of Hc with
      | has_columns _ ?names = true =>
          assert (Hin : In col names) by (simpl; tauto);
          destruct (column_ok df names col Hwf Hc Hin) as [s [Hs Hlen]]
      end;
      clear Hin;
      rewrite (col_notna_ok df col s Hs); cbn [bind]
  end.

Ltac nth_condition :=
  repeat (rewrite nth_error_band || rewrite nth_error_bor);
  repeat match goal with
         | H : getitem ?df ?col = Ok ?s |- context [nth_error (map notna ?s) ?i] =>
             rewrite (nth_notna df col s i H)
         end.

Lemma check_invoice_df_spec (df : DataFrame) :
  wf_frame df = true -> has_columns df header_cols = true ->
  check_invoice_df df =
  Ok (option_map (missing_in_invoice df)
                 (first_violation (header_row_valid df) (nrows df))).
Proof.
  intros Hwf Hc. unfold check_invoice_df.
  read_column Hwf Hc s1 Hs1 Hl1. read_column Hwf Hc s2 Hs2 Hl2.
  read_column Hwf Hc s3 Hs3 Hl3. read_column Hwf Hc s4 Hs4 Hl4.
  read_column Hwf Hc s5 Hs5 Hl5. read_column Hwf Hc s6 Hs6 Hl6.
  read_column Hwf Hc s7 Hs7 Hl7. read_column Hwf Hc s8 Hs8 Hl8.
  read_column Hwf Hc s9 Hs9 Hl9.
  match goal with
  | |- context [all ?c] => set (cond := c)
  end.
  assert (Hcond : first_false cond = first_violation (header_row_valid df) (nrows df)).
  { apply first_false_violation. intro i. unfold cond. nth_condition.
    rewrite Hl1, Hl2, Hl3, Hl4, Hl5, Hl6, Hl7, Hl8, Hl9.
    destruct (i <? nrows df)%nat; [|reflexivity].
    unfold header_row_valid. f_equal.
    rewrite <- !andb_assoc. do 6 f_equal. apply andb_comm. }
  rewrite all_first_false. unfold first_false_index. rewrite Hcond.
  destruct (first_violation (header_row_valid df) (nrows df)) as [i|] eqn:E;
    simpl; [|reflexivity].
  apply first_violation_from_least in E. destruct E as [[_ Hi] _].
  rewrite (filterM_missing df i Hwf Hi). reflexivity.
Qed.

Lemma check_line_items_df_spec (df : DataFrame) :
  wf_frame df = true -> has_columns df relation_cols_items = true ->
  check_line_items_df df =
  Ok (option_map missing_in_items
                 (first_violation (item_row_valid df) (nrows df))).
Proof.
  intros Hwf Hc. unfold check_line_items_df.
  read_column Hwf Hc s1 Hs1 Hl1. read_column Hwf Hc s2 Hs2 Hl2.
  read_column Hwf Hc s3 Hs3 Hl3. read_column Hwf Hc s4 Hs4 Hl4.
  read_column Hwf Hc s5 Hs5 Hl5. read_column Hwf Hc s6 Hs6 Hl6.
  read_column Hwf Hc s7 Hs7 Hl7. read_column Hwf Hc s8 Hs8 Hl8.
  read_column Hwf Hc s9 Hs9 Hl9. read_column Hwf Hc s10 Hs10 Hl10.
  read_column Hwf Hc s11 Hs11 Hl11. read_column Hwf Hc s12 Hs12 Hl12.
  match goal with
  | |- context [all ?c] => set (cond := c)
  end.
  assert (Hcond : first_false cond = first_violation (item_row_valid df) (nrows df)).
  { apply first_false_violation. intro i. unfold cond. nth_condition.
    rewrite Hl1, Hl2, Hl3, Hl4, Hl5, Hl6, Hl7, Hl8, Hl9, Hl10, Hl11, Hl12.
    destruct (i <? nrows df)%nat; reflexivity. }
  rewrite all_first_false. unfold first_false_index. rewrite Hcond.
  destruct (first_violation (item_row_valid df) (nrows df)); reflexivity.
Qed.

Lemma check_total_summary_df_spec (df : DataFrame) :
  wf_frame df = true -> has_columns df summary_cols = true ->
  check_total_summary_df df =
  Ok (option_map missing_in_summary
                 (first_violation (summary_row_valid df) (nrows df))).
Proof.
  intros Hwf Hc. unfold check_total_summary_df.
  read_column Hwf Hc s1 Hs1 Hl1. read_column Hwf Hc s2 Hs2 Hl2.
  read_column Hwf Hc s3 Hs3 Hl3. read_column Hwf Hc s4 Hs4 Hl4.
  read_column Hwf Hc s5 Hs5 Hl5. read_column Hwf Hc s6 Hs6 Hl6.
  match goal with
  | |- context [all ?c] => set (cond := c)
  end.
  assert (Hcond : first_false cond = first_violation (summary_row_valid df) (nrows df)).
  { apply first_false_violation. intro i. unfold cond. nth_condition.
    rewrite Hl1, Hl2, Hl3, Hl4, Hl5, Hl6.
    destruct (i <? nrows df)%nat; reflexivity. }
  rewrite all_first_false. unfold first_false_index. rewrite Hcond.
  destruct (first_violation (summary_row_valid df) (nrows df)); reflexivity.
Qed.

Lemma first_violation_is (valid : nat -> bool) (n i : nat) :
  (i < n)%nat -> valid i = false -> (forall j, (j < i)%nat -> valid j = true) ->
  first_violation valid n = Some i.
Proof.
  intros Hi Hv Hbefore. unfold first_violation.
  destruct (first_violation_exists valid n 0 i) as [k Hk]; [lia|exact Hv|].
  rewrite Hk. f_equal.
  destruct (first_violation_from_least valid n 0 k Hk) as [Hr [Hvk Hl]].
  destruct (Nat.lt_trichotomy k i) as [Hlt|[Heq|Hgt]]; [|exact Heq|].
  - rewrite (Hbefore k Hlt) in Hvk. discriminate.
  - rewrite (Hl i) in Hv by lia. discriminate.
Qed.

Lemma first_violation_none_iff (valid : nat -> bool) (n : nat) :
  first_violation valid n = None <-> forall i, (i < n)%nat -> valid i = true.
Proof.
  split.
  - intros H i Hi. apply (first_violation_from_none valid n 0 H). lia.
  - intro H. destruct (first_violation valid n) as [i|] eqn:E; [|reflexivity].
    destruct (first_violation_from_least valid n 0 i E) as [Hr [Hv _]].
    rewrite H in Hv by lia. discriminate.
Qed.

Lemma check_missing_values_header (invoice_df line_items_df total_summary_df : DataFrame)
    (i : nat) :
  wf_frame invoice_df = true -> has_columns invoice_df header_cols = true ->
  first_violation (header_row_valid invoice_df) (nrows invoice_df) = Some i ->
  check_missing_values invoice_df line_items_df total_summary_df =
  Ok (false, missing_in_invoice invoice_df i).
Proof.
  intros Hwf Hc H. unfold check_missing_values.
  rewrite (check_invoice_df_spec invoice_df Hwf Hc), H. reflexivity.
Qed.

(** C4: over a header frame with the nine header columns, a row satisfies
    the code's condition exactly when the seven listed fields are present and
    one of [taxable_value], [invoice_value] is; the header block passes
    exactly when every row does; otherwise Step 1 fails with the message
    that carries the index of the first failing row and the names of the
    columns that are null at that row, in column order.  A header whose only
    null field is [gstin_supplier] is reported naming [gstin_supplier]. *)
Theorem header_presence :
  (forall df : DataFrame,
     wf_frame df = true -> has_columns df header_cols = true ->
     (forall i,
        header_row_valid df i = true <->
        (present df i "invoice_number" = true /\
         present df i "invoice_date" = true /\
         present df i "place_of_supply" = true /\
         present df i "place_of_origin" = true /\
         present df i "receiver_name" = true /\
         present df i "gstin_supplier" = true /\
         present df i "tax_amount" = true /\
         (present df i "taxable_value" = true \/
          present df i "invoice_value" = true))) /\
     (check_invoice_df df = Ok None <->
      forall i, (i < nrows df)%nat -> header_row_valid df i = true) /\
     (forall i,
        (i < nrows df)%nat -> header_row_valid df i = false ->
        (forall j, (j < i)%nat -> header_row_valid df j = true) ->
        (forall col, In col (missing_fields df i) <->
                     In col (columns df) /\ present df i col = false) /\
        forall line_items_df total_summary_df,
          check_missing_values df line_items_df total_summary_df =
          Ok (false,
              [Lit "Missing required values in invoice_df: ";
               Lit (join ", " (missing_fields df i)); Lit " at row "; Idx i]))) /\
  missing_fields (standardize_nulls header_no_gstin) 0 = ["gstin_supplier"] /\
  validate_frames header_no_gstin items_180 summary_118 =
    Ok (false, "Step 1: Missing Values",
        [Lit "Missing required values in invoice_df: "; Lit "gstin_supplier";
         Lit " at row "; Idx 0]).
Proof.
  split; [|split; vm_compute; reflexivity].
  intros df Hwf Hc. split; [|split].
  - intro i. unfold header_row_valid.
    rewrite !andb_true_iff, orb_true_iff. tauto.
  - rewrite (check_invoice_df_spec df Hwf Hc).
    rewrite <- first_violation_none_iff.
    destruct (first_violation (header_row_valid df) (nrows df)); simpl;
      split; intro H; try reflexivity; discriminate.
  - intros i Hi Hv Hbefore. split.
    + intro col. unfold missing_fields. rewrite filter_In, negb_true_iff.
      reflexivity.
    + intros items summ.
      apply (check_missing_values_header df items summ i Hwf Hc).
      apply first_violation_is; assumption.
Qed.

Lemma header_presence_witness :
  check_missing_values (standardize_nulls header_no_gstin) items_180 summary_118 =
  Ok (false,
      [Lit "Missing required values in invoice_df: ";
       Lit (join ", " (missing_fields (standardize_nulls header_no_gstin) 0));
       Lit " at row "; Idx 0]).
Proof.
  apply (proj2 (proj2 (proj2 (proj1 header_presence
           (standardize_nulls header_no_gstin) eq_refl eq_refl))
           0%nat (Nat.lt_0_succ 0) eq_refl (fun j Hj => match Nat.nlt_0_r j Hj with end))).
Defined.

(** ** The heap during a call *)

Local Open Scope nat_scope.

Lemma nth_error_app_at (h t : heap) (k : nat) :
  nth_error (h ++ t) (List.length h + k) = nth_error t k.
Proof.
  rewrite nth_error_app2 by lia. f_equal. lia.
Qed.

Lemma update_app_at (h t : heap) (k : nat) (d : DataFrame) :
  update (h ++ t) (List.length h + k) d = h ++ update t k d.
Proof.
  induction h as [|x h IH]; simpl; [reflexivity|].
  rewrite IH. reflexivity.
Qed.

Lemma read_local (h t : heap) (k : nat) (d : DataFrame) :
  nth_error t k = Some d ->
  read (List.length h + k) (h ++ t) = (Ok d, h ++ t).
Proof. intro H. unfold read. rewrite nth_error_app_at, H. reflexivity. Qed.

Lemma read_caller (h t : heap) (r : ref) (d : DataFrame) :
  nth_error h r = Some d -> read r (h ++ t) = (Ok d, h ++ t).
Proof.
  intro H. unfold read. rewrite nth_error_app1, H; [reflexivity|].
  apply nth_error_Some. congruence.
Qed.

Lemma write_local (h t : heap) (k : nat) (d : DataFrame) :
  write (List.length h + k) d (h ++ t) = (Ok tt, h ++ update t k d).
Proof. unfold write. rewrite update_app_at. reflexivity. Qed.

Lemma run_check_missing_values_local (h : heap) (x y z : DataFrame) :
  run_check_missing_values (List.length h + 0) (List.length h + 1) (List.length h + 2)
                           (h ++ [x; y; z]) =
  (check_missing_values x y z, h ++ [x; y; z]).
Proof.
  unfold run_check_missing_values, bindM.
  rewrite (read_local h [x; y; z] 0 x eq_refl).
  rewrite (read_local h [x; y; z] 1 y eq_refl).
  rewrite (read_local h [x; y; z] 2 z eq_refl).
  reflexivity.
Qed.

Lemma run_check_data_types_local (parse_date : cell -> option Timestamp)
    (parse_number : cell -> option (option Q)) (h : heap) (x y z : DataFrame) :
  run_check_data_types parse_date parse_number
    (List.length h + 0) (List.length h + 1) (List.length h + 2) (h ++ [x; y; z]) =
  (Ok (fst (check_data_types parse_date parse_number x y z)),
   h ++ [snd (check_data_types parse_date parse_number x y z); y; z]).
Proof.
  unfold run_check_data_types, bindM.
  rewrite (read_local h [x; y; z] 0 x eq_refl).
  rewrite (read_local h [x; y; z] 1 y eq_refl).
  rewrite (read_local h [x; y; z] 2 z eq_refl).
  destruct (check_data_types parse_date parse_number x y z) as [answer x'].
  rewrite write_local. reflexivity.
Qed.

Lemma run_check_relations_local (parse_number : cell -> option (option Q))
    (h : heap) (x y z : DataFrame) :
  run_check_relations parse_number
    (List.length h + 0) (List.length h + 1) (List.length h + 2) (h ++ [x; y; z]) =
  (fst (check_relations parse_number x y z),
   h ++ (let '(x', y', z') := snd (check_relations parse_number x y z) in
         [x'; y'; z'])).
Proof.
  unfold run_check_relations, bindM.
  rewrite (read_local h [x; y; z] 0 x eq_refl).
  rewrite (read_local h [x; y; z] 1 y eq_refl).
  rewrite (read_local h [x; y; z] 2 z eq_refl).
  destruct (check_relations parse_number x y z) as [outcome [[x' y'] z']].
  rewrite !write_local. reflexivity.
Qed.

Lemma standardize_nulls_allocations (h : heap) (r1 r2 r3 : ref) (a b c : DataFrame) :
  nth_error h r1 = Some a -> nth_error h r2 = Some b -> nth_error h r3 = Some c ->
  standardize_nulls_at r1 h = (Ok (List.length h + 0), h ++ [standardize_nulls a]) /\
  standardize_nulls_at r2 (h ++ [standardize_nulls a]) =
    (Ok (List.length h + 1), h ++ [standardize_nulls a; standardize_nulls b]) /\
  standardize_nulls_at r3 (h ++ [standardize_nulls a; standardize_nulls b]) =
    (Ok (List.length h + 2),
     h ++ [standardize_nulls a; standardize_nulls b; standardize_nulls c]).
Proof.
  intros H1 H2 H3. unfold standardize_nulls_at, bindM, alloc.
  rewrite (read_caller h _ r2 b H2), (read_caller h _ r3 c H3).
  unfold read. rewrite H1. rewrite !length_app, <- !app_assoc. simpl.
  rewrite Nat.add_0_r. repeat split.
Qed.

(** The call computes [engine] on the contents of the caller's frames and
    leaves its three local frames behind the caller's heap. *)
Lemma validate_run (parse_date : cell -> option Timestamp)
    (parse_number : cell -> option (option Q))
    (h : heap) (r1 r2 r3 : ref) (a b c : DataFrame) :
  nth_error h r1 = Some a -> nth_error h r2 = Some b -> nth_error h r3 = Some c ->
  validate_invoice_data parse_date parse_number r1 r2 r3 h =
  (fst (engine parse_date parse_number a b c),
   h ++ snd (engine parse_date parse_number a b c)).
Proof.
  intros H1 H2 H3.
  destruct (standardize_nulls_allocations h r1 r2 r3 a b c H1 H2 H3)
    as [Ha [Hb Hc]].
  unfold validate_invoice_data, engine.
  unfold bindM at 1. rewrite Ha.
  unfold bindM at 1. rewrite Hb.
  unfold bindM at 1. rewrite Hc.
  unfold bindM at 1. rewrite run_check_missing_values_local.
  generalize (standardize_nulls a) (standardize_nulls b) (standardize_nulls c).
  intros a0 b0 c0.
  destruct (check_missing_values a0 b0 c0) as [[[|] m1]|e];
    cbn [negb fst snd retM]; try reflexivity.
  unfold bindM at 1. rewrite run_check_data_types_local.
  destruct (check_data_types parse_date parse_number a0 b0 c0) as [[[|] m2] a1];
    cbn [negb fst snd retM]; try reflexivity.
  unfold bindM at 1. rewrite run_check_relations_local.
  destruct (check_relations parse_number a1 b0 c0) as [[[[|] m3]|e] [[a2 b2] c2]];
    cbn [negb fst snd retM lift]; reflexivity.
Qed.

(** C9: a call leaves every frame of the caller's heap as it found it (it
    works on the three frames it allocates), its outcome depends on nothing
    but the contents of the three frames it is given, and a second call on
    the same references after the first returns the same outcome. *)
Theorem validation_repeatable (parse_date : cell -> option Timestamp)
    (parse_number : cell -> option (option Q))
    (h : heap) (r1 r2 r3 : ref) (a b c : DataFrame) :
  nth_error h r1 = Some a -> nth_error h r2 = Some b -> nth_error h r3 = Some c ->
  let first := validate_invoice_data parse_date parse_number r1 r2 r3 h in
  let second := validate_invoice_data parse_date parse_number r1 r2 r3 (snd first) in
  (forall r d, nth_error h r = Some d -> nth_error (snd first) r = Some d) /\
  fst second = fst first /\
  (forall r d, nth_error h r = Some d -> nth_error (snd second) r = Some d) /\
  (forall (h' : heap) (r1' r2' r3' : ref),
     nth_error h' r1' = Some a -> nth_error h' r2' = Some b ->
     nth_error h' r3' = Some c ->
     fst (validate_invoice_data parse_date parse_number r1' r2' r3' h') = fst first).
Proof.
  intros H1 H2 H3 first second.
  assert (Hfirst : first = (fst (engine parse_date parse_number a b c),
                            h ++ snd (engine parse_date parse_number a b c)))
    by (apply validate_run; assumption).
  assert (Hkeep : forall r d, nth_error h r = Some d ->
                              nth_error (snd first) r = Some d).
  { intros r d Hr. rewrite Hfirst. simpl snd.
    rewrite nth_error_app1; [exact Hr|]. apply nth_error_Some. congruence. }
  assert (Hsecond : second = (fst (engine parse_date parse_number a b c),
                              snd first ++ snd (engine parse_date parse_number a b c)))
    by (apply validate_run; apply Hkeep; assumption).
  split; [exact Hkeep|]. split; [rewrite Hsecond, Hfirst; reflexivity|]. split.
  - intros r d Hr. rewrite Hsecond. simpl snd.
    rewrite nth_error_app1; [apply Hkeep; exact Hr|].
    apply nth_error_Some. rewrite (Hkeep r d Hr). discriminate.
  - intros h' r1' r2' r3' H1' H2' H3'.
    rewrite (validate_run parse_date parse_number h' r1' r2' r3' a b c H1' H2' H3').
    rewrite Hfirst. reflexivity.
Qed.

Lemma validation_repeatable_witness :
  let h := [header_120; items_180; summary_118] in
  let first := validate_invoice_data dby_date decimal_number 0 1 2 h in
  fst (validate_invoice_data dby_date decimal_number 0 1 2 (snd first)) = fst first /\
  nth_error (snd first) 0 = Some header_120.
Proof.
  intros h first.
  destruct (validation_repeatable dby_date decimal_number h 0 1 2
              header_120 items_180 summary_118 eq_refl eq_refl eq_refl)
    as [Hkeep [Hsame _]].
  split; [exact Hsame|]. apply Hkeep. reflexivity.
Defined.

(** ** The verdict *)

Lemma is_first_violation_eq (valid : nat -> bool) (n i : nat) :
  is_first_violation valid n i -> first_violation valid n = Some i.
Proof. intros [Hi [Hv Hb]]. apply first_violation_is; assumption. Qed.

Lemma check_missing_values_items (invoice_df line_items_df total_summary_df : DataFrame)
    (i : nat) :
  wf_frame invoice_df = true -> has_columns invoice_df header_cols = true ->
  (forall j, j < nrows invoice_df -> header_row_valid invoice_df j = true) ->
  wf_frame line_items_df = true ->
  has_columns line_items_df relation_cols_items = true ->
  is_first_violation (item_row_valid line_items_df) (nrows line_items_df) i ->
  check_missing_values invoice_df line_items_df total_summary_df =
  Ok (false, missing_in_items i).
Proof.
  intros Hwf Hc Hv Hwf2 Hc2 Hi. unfold check_missing_values.
  rewrite (check_invoice_df_spec invoice_df Hwf Hc).
  rewrite (proj2 (first_violation_none_iff _ _) Hv). cbn [option_map bind].
  rewrite (check_line_items_df_spec line_items_df Hwf2 Hc2).
  rewrite (is_first_violation_eq _ _ _ Hi). reflexivity.
Qed.

Lemma check_missing_values_summary (invoice_df line_items_df total_summary_df : DataFrame)
    (i : nat) :
  wf_frame invoice_df = true -> has_columns invoice_df header_cols = true ->
  (forall j, j < nrows invoice_df -> header_row_valid invoice_df j = true) ->
  wf_frame line_items_df = true ->
  has_columns line_items_df relation_cols_items = true ->
  (forall j, j < nrows line_items_df -> item_row_valid line_items_df j = true) ->
  wf_frame total_summary_df = true ->
  has_columns total_summary_df summary_cols = true ->
  is_first_violation (summary_row_valid total_summary_df) (nrows total_summary_df) i ->
  check_missing_values invoice_df line_items_df total_summary_df =
  Ok (false, missing_in_summary i).
Proof.
  intros Hwf Hc Hv Hwf2 Hc2 Hv2 Hwf3 Hc3 Hi. unfold check_missing_values.
  rewrite (check_invoice_df_spec invoice_df Hwf Hc).
  rewrite (proj2 (first_violation_none_iff _ _) Hv). cbn [option_map bind].
  rewrite (check_line_items_df_spec line_items_df Hwf2 Hc2).
  rewrite (proj2 (first_violation_none_iff _ _) Hv2). cbn [option_map bind].
  rewrite (check_total_summary_df_spec total_summary_df Hwf3 Hc3).
  rewrite (is_first_violation_eq _ _ _ Hi). reflexivity.
Qed.

Lemma engine_step1 (parse_date : cell -> option Timestamp)
    (parse_number : cell -> option (option Q)) (a b c : DataFrame) (msg : fstring) :
  check_missing_values (standardize_nulls a) (standardize_nulls b)
                       (standardize_nulls c) = Ok (false, msg) ->
  fst (engine parse_date parse_number a b c) =
  Ok (false, "Step 1: Missing Values", msg).
Proof. intro H. unfold engine. rewrite H. reflexivity. Qed.

(** C8: whenever the call returns, the verdict is one of four triples, the
    success triple being exactly [(true, "All Steps", "Validation
    successful")]; the first stage that fails, in the order Step 1, Step 2,
    Step 3, fixes [failed_step] and the message, and later stages do not
    run; and when some row violates its presence predicate, the call returns
    [failed_step = "Step 1: Missing Values"] with the report of the first
    violating row of the first violating collection in the order header,
    line items, summary. *)
Theorem verdict_structure (parse_date : cell -> option Timestamp)
    (parse_number : cell -> option (option Q))
    (h : heap) (r1 r2 r3 : ref) (a b c : DataFrame) :
  nth_error h r1 = Some a -> nth_error h r2 = Some b -> nth_error h r3 = Some c ->
  let invoice_df := standardize_nulls a in
  let line_items_df := standardize_nulls b in
  let total_summary_df := standardize_nulls c in
  let outcome := fst (validate_invoice_data parse_date parse_number r1 r2 r3 h) in
  (forall v, outcome = Ok v ->
     v = (true, "All Steps", [Lit "Validation successful"]) \/
     exists msg,
       v = (false, "Step 1: Missing Values", msg) \/
       v = (false, "Step 2: Data Types", msg) \/
       v = (false, "Step 3: Relations", msg)) /\
  (forall msg,
     check_missing_values invoice_df line_items_df total_summary_df = Ok (false, msg) ->
     outcome = Ok (false, "Step 1: Missing Values", msg)) /\
  (forall m1 msg a1,
     check_missing_values invoice_df line_items_df total_summary_df = Ok (true, m1) ->
     check_data_types parse_date parse_number invoice_df line_items_df total_summary_df
       = ((false, msg), a1) ->
     outcome = Ok (false, "Step 2: Data Types", msg)) /\
  (forall m1 m2 a1,
     check_missing_values invoice_df line_items_df total_summary_df = Ok (true, m1) ->
     check_data_types parse_date parse_number invoice_df line_items_df total_summary_df
       = ((true, m2), a1) ->
     (forall msg,
        fst (check_relations parse_number a1 line_items_df total_summary_df)
          = Ok (false, msg) ->
        outcome = Ok (false, "Step 3: Relations", msg)) /\
     (forall m3,
        fst (check_relations parse_number a1 line_items_df total_summary_df)
          = Ok (true, m3) ->
        outcome = Ok (true, "All Steps", [Lit "Validation successful"]))) /\
  (wf_frame invoice_df = true -> has_columns invoice_df header_cols = true ->
   (forall i,
      is_first_violation (header_row_valid invoice_df) (nrows invoice_df) i ->
      outcome = Ok (false, "Step 1: Missing Values", missing_in_invoice invoice_df i)) /\
   ((forall j, j < nrows invoice_df -> header_row_valid invoice_df j = true) ->
    wf_frame line_items_df = true ->
    has_columns line_items_df relation_cols_items = true ->
    (forall i,
       is_first_violation (item_row_valid line_items_df) (nrows line_items_df) i ->
       outcome = Ok (false, "Step 1: Missing Values", missing_in_items i)) /\
    ((forall j, j < nrows line_items_df -> item_row_valid line_items_df j = true) ->
     wf_frame total_summary_df = true ->
     has_columns total_summary_df summary_cols = true ->
     forall i,
       is_first_violation (summary_row_valid total_summary_df)
                          (nrows total_summary_df) i ->
       outcome = Ok (false, "Step 1: Missing Values", missing_in_summary i)))).
Proof.
  intros H1 H2 H3 invoice_df line_items_df total_summary_df outcome.
  assert (Hout : outcome = fst (engine parse_date parse_number a b c)).
  { unfold outcome.
    rewrite (validate_run parse_date parse_number h r1 r2 r3 a b c H1 H2 H3).
    reflexivity. }
  assert (Hstep1 : forall msg,
             check_missing_values invoice_df line_items_df total_summary_df
               = Ok (false, msg) ->
             outcome = Ok (false, "Step 1: Missing Values", msg)).
  { intros msg H. rewrite Hout. apply engine_step1. exact H. }
  clearbody outcome. subst outcome. unfold engine.
  fold invoice_df line_items_df total_summary_df.
  split; [|split; [exact Hstep1|split; [|split]]].
  - intros v.
    destruct (check_missing_values invoice_df line_items_df total_summary_df)
      as [[[|] m1]|e]; cbn [fst].
    + destruct (check_data_types parse_date parse_number invoice_df line_items_df
                  total_summary_df) as [[[|] m2] a1]; cbn [fst].
      * destruct (check_relations parse_number a1 line_items_df total_summary_df)
          as [[[[|] m3]|e] [[a2 b2] c2]]; cbn [fst]; intros [= <-].
        -- left. reflexivity.
        -- right. exists m3. tauto.
      * intros [= <-]. right. exists m2. tauto.
    + intros [= <-]. right. exists m1. tauto.
    + discriminate.
  - intros m1 msg a1 Hs1 Hs2. rewrite Hs1, Hs2. reflexivity.
  - intros m1 m2 a1 Hs1 Hs2. rewrite Hs1, Hs2. split.
    + intros msg Hs3.
      destruct (check_relations parse_number a1 line_items_df total_summary_df)
        as [r [[a2 b2] c2]]. cbn [fst] in Hs3. subst r. reflexivity.
    + intros m3 Hs3.
      destruct (check_relations parse_number a1 line_items_df total_summary_df)
        as [r [[a2 b2] c2]]. cbn [fst] in Hs3. subst r. reflexivity.
  - intros Hwf Hc. split.
    + intros i Hi. apply Hstep1.
      apply check_missing_values_header; try assumption.
      apply is_first_violation_eq. exact Hi.
    + intros Hv Hwf2 Hc2. split.
      * intros i Hi. apply Hstep1. apply check_missing_values_items; assumption.
      * intros Hv2 Hwf3 Hc3 i Hi. apply Hstep1.
        apply check_missing_values_summary; assumption.
Qed.

Lemma verdict_structure_witness :
  fst (validate_invoice_data dby_date decimal_number 0 1 2
         [header_118; items_second_invalid; summary_118]) =
  Ok (false, "Step 1: Missing Values", missing_in_items 1).
Proof.
  destruct (verdict_structure dby_date decimal_number
              [header_118; items_second_invalid; summary_118] 0 1 2
              header_118 items_second_invalid summary_118
              eq_refl eq_refl eq_refl) as [_ [_ [_ [_ Hpresence]]]].
  destruct (Hpresence eq_refl eq_refl) as [_ Hitems].
  assert (Hheader : forall j, j < nrows (standardize_nulls header_118) ->
                              header_row_valid (standardize_nulls header_118) j = true).
  { intros j Hj. simpl in Hj. destruct j; [reflexivity|lia]. }
  destruct (Hitems Hheader eq_refl eq_refl) as [Hfirst _].
  apply Hfirst. split; [simpl; lia|]. split; [reflexivity|].
  intros j Hj. destruct j; [reflexivity|lia].
Defined.

(** ** Summary rows *)

Local Open Scope Q_scope.

Lemma summary_row_resolved (idx : nat) (row : Row) (previous : option Q)
    (total_tax_amount cgst sgst igst : option Q) (tax taxable invoice : Q) :
  row "total_tax_amount" = Ok total_tax_amount ->
  row "total_cgst_amount" = Ok cgst -> row "total_sgst_amount" = Ok sgst ->
  row "total_igst_amount" = Ok igst ->
  total_tax_of total_tax_amount cgst sgst igst = Some tax ->
  row "total_taxable_value" = Ok (Some taxable) ->
  row "total_invoice_value" = Ok (Some invoice) ->
  summary_row idx row previous =
  Ok (Some tax,
      if isclose invoice (taxable + tax) then None
      else Some (total_mismatch idx invoice taxable tax)).
Proof.
  intros H1 H2 H3 H4 Ht H5 H6. unfold summary_row.
  destruct total_tax_amount as [t|]; simpl in Ht.
  - injection Ht as ->. read_row.
    destruct (isclose invoice (taxable + tax)); reflexivity.
  - destruct cgst as [x|]; [|discriminate]. destruct sgst as [y|]; [|discriminate].
    destruct igst as [z|]; [|discriminate]. injection Ht as <-. read_row.
    destruct (isclose invoice (taxable + (x + y + z))); reflexivity.
Qed.

(** A row that resolves no total tax and has both values reads the binding
    an earlier row left, and raises when there is none. *)
Lemma summary_row_unresolved (idx : nat) (row : Row) (previous : option Q)
    (cgst sgst igst : option Q) (taxable invoice : Q) :
  row "total_tax_amount" = Ok None ->
  row "total_cgst_amount" = Ok cgst -> row "total_sgst_amount" = Ok sgst ->
  row "total_igst_amount" = Ok igst ->
  total_tax_of None cgst sgst igst = None ->
  row "total_taxable_value" = Ok (Some taxable) ->
  row "total_invoice_value" = Ok (Some invoice) ->
  summary_row idx row previous =
  match previous with
  | None => Raise (UnboundLocalError "total_tax")
  | Some stale =>
      Ok (Some stale,
          if isclose invoice (taxable + stale) then None
          else Some (total_mismatch idx invoice taxable stale))
  end.
Proof.
  intros H1 H2 H3 H4 Ht H5 H6. unfold summary_row.
  destruct cgst as [x|], sgst as [y|], igst as [z|]; simpl in Ht;
    try discriminate; read_row;
    (destruct previous as [t|]; [|reflexivity]);
    destruct (isclose invoice (taxable + t)); reflexivity.
Qed.

(** C1, on the code: a first summary row with no [total_tax_amount], an
    incomplete component triple and both values present makes the call raise
    [UnboundLocalError] instead of skipping the check; a later such row is
    checked against the total tax of an earlier row.  A row that resolves its
    total tax is checked as stated: 5000 + 900 against 6000 fails with both
    sides, and against 5900 passes. *)
Theorem summary_unresolved_total_tax :
  validate_frames header_118 items_180 summary_igst_only =
    Raise (UnboundLocalError "total_tax") /\
  validate_frames header_118 items_180 summary_stale =
    Ok (false, "Step 3: Relations", total_mismatch 1 500 100 18) /\
  validate_frames header_118 items_180 summary_6000 =
    Ok (false, "Step 3: Relations", total_mismatch 0 6000 5000 (450 + 450 + 0)) /\
  validate_frames header_118 items_180 summary_5900 =
    Ok (true, "All Steps", [Lit "Validation successful"]).
Proof. repeat split; vm_compute; reflexivity. Qed.

(** ** What the loops of Step 3 read after the coercion *)

Lemma assoc_assoc_set (k col : string) (v : Series) (l : list (string * Series)) :
  assoc col (assoc_set k v l) = if String.eqb col k then Some v else assoc col l.
Proof.
  induction l as [|[k' v'] l IH]; simpl.
  - destruct (String.eqb col k); reflexivity.
  - destruct (String.eqb k k') eqn:E; simpl.
    + apply String.eqb_eq in E. subst k'.
      destruct (String.eqb col k); reflexivity.
    + rewrite IH. destruct (String.eqb col k') eqn:E'; [|reflexivity].
      apply String.eqb_eq in E'. subst k'.
      rewrite String.eqb_sym in E. rewrite E. reflexivity.
Qed.

Lemma has_column_false (df : DataFrame) (col : string) :
  has_column df col = false -> getitem df col = Raise (KeyError col).
Proof.
  unfold has_column, getitem, columns. destruct df as [n l]; simpl.
  induction l as [|[k v] l IH]; simpl; [reflexivity|].
  destruct (String.eqb col k); simpl; [discriminate|exact IH].
Qed.

Lemma to_numeric_cell_shape (parse_number : cell -> option (option Q)) (c c' : cell) :
  to_numeric_cell parse_number c = Ok c' -> c' = CNaN \/ exists q, c' = CNum q.
Proof.
  unfold to_numeric_cell. destruct c; try (intros [= <-]; eauto);
    destruct (parse_number _) as [[q|]|]; intros [= <-]; eauto.
Qed.

(** A coerced column holds numbers and NaN only, and coercing again changes
    nothing. *)
Lemma to_numeric_coerce_idem (parse_number : cell -> option (option Q)) (s : Series) :
  to_numeric_coerce parse_number (to_numeric_coerce parse_number s) =
  to_numeric_coerce parse_number s.
Proof.
  unfold to_numeric_coerce. rewrite map_map. apply map_ext. intro c.
  destruct (to_numeric_cell parse_number c) as [c'|e] eqn:E; [|reflexivity].
  destruct (to_numeric_cell_shape parse_number c c' E) as [->|[q ->]]; reflexivity.
Qed.

Lemma getitem_coerce_columns (parse_number : cell -> option (option Q))
    (names : list string) (df : DataFrame) (col : string) :
  getitem (coerce_columns parse_number df names) col =
  (s <- getitem df col ;;
   Ok (if existsb (String.eqb col) names
       then to_numeric_coerce parse_number s else s)).
Proof.
  unfold coerce_columns. revert df.
  induction names as [|k names IH]; intro df; simpl.
  - destruct (getitem df col); reflexivity.
  - rewrite IH. clear IH.
    destruct (has_column df k) eqn:Hk.
    + destruct (has_column_getitem df k Hk) as [sk Hsk]. rewrite Hsk.
      unfold getitem at 1, setitem. simpl cols. rewrite assoc_assoc_set.
      destruct (String.eqb col k) eqn:E; simpl.
      * apply String.eqb_eq in E. subst k. rewrite Hsk. simpl.
        destruct (existsb (String.eqb col) names);
          [rewrite to_numeric_coerce_idem|]; reflexivity.
      * reflexivity.
    + destruct (String.eqb col k) eqn:E; simpl; [|reflexivity].
      apply String.eqb_eq in E. subst k.
      rewrite (has_column_false df col Hk). reflexivity.
Qed.

Lemma nrows_coerce_columns (parse_number : cell -> option (option Q))
    (names : list string) (df : DataFrame) :
  nrows (coerce_columns parse_number df names) = nrows df.
Proof.
  unfold coerce_columns. revert df.
  induction names as [|k names IH]; intro df; simpl; [reflexivity|].
  rewrite IH. destruct (has_column df k); [|reflexivity].
  destruct (getitem df k); reflexivity.
Qed.

(** Step 3 runs its loops on the coerced frames, and a row of a coerced
    frame yields, for a column of the coercion list, the number that
    [pd.to_numeric(..., errors='coerce')] makes of the caller's cell. *)
Lemma check_relations_reads (parse_number : cell -> option (option Q))
    (invoice_df line_items_df total_summary_df : DataFrame) :
  fst (check_relations parse_number invoice_df line_items_df total_summary_df) =
  relations (coerce_columns parse_number invoice_df relation_cols_invoice)
            (coerce_columns parse_number line_items_df relation_cols_items)
            (coerce_columns parse_number total_summary_df relation_cols_summary) /\
  forall (df : DataFrame) (names : list string) (i : nat) (col : string),
    In col names ->
    iterrow (coerce_columns parse_number df names) i col =
    (c <- cell_at df col i ;;
     Ok (match to_numeric_cell parse_number c with
         | Ok c' => float_of c'
         | Raise _ => None
         end)).
Proof.
  split; [reflexivity|].
  intros df names i col Hin. unfold iterrow, cell_at.
  rewrite getitem_coerce_columns.
  replace (existsb (String.eqb col) names) with true.
  - destruct (getitem df col) as [s|e]; simpl; [|reflexivity].
    unfold iloc, to_numeric_coerce. rewrite nth_error_map.
    destruct (nth_error s i) as [c|]; simpl; [|reflexivity].
    destruct (to_numeric_cell parse_number c); reflexivity.
  - symmetry. apply existsb_exists. exists col.
    split; [exact Hin|apply String.eqb_refl].
Qed.

(** * Step 3 on numpy scalars *)

Local Open Scope nat_scope.

Lemma np_when_present_some {np : numpy} {A} (row : np_row np) (col : string)
    (v : scalar np) (absent : result A) (k : scalar np -> result A) :
  row col = Ok v -> np_isna np v = false ->
  np_when_present row col absent k = k v.
Proof. intros H Hv. unfold np_when_present. rewrite H. cbn [bind]. rewrite Hv. reflexivity. Qed.

Lemma np_when_present_none {np : numpy} {A} (row : np_row np) (col : string)
    (v : scalar np) (absent : result A) (k : scalar np -> result A) :
  row col = Ok v -> np_isna np v = true ->
  np_when_present row col absent k = absent.
Proof. intros H Hv. unfold np_when_present. rewrite H. cbn [bind]. rewrite Hv. reflexivity. Qed.

(** Reads the fields of a row whose values and presence are known. *)
Ltac np_read_row :=
  repeat (match goal with
          | H : ?row ?col = Ok ?v, Hv : np_isna _ ?v = false
            |- context [np_when_present ?row ?col _ _] =>
              rewrite (np_when_present_some row col v _ _ H Hv)
          | H : ?row ?col = Ok ?v, Hv : np_isna _ ?v = true
            |- context [np_when_present ?row ?col _ _] =>
              rewrite (np_when_present_none row col v _ _ H Hv)
          end; cbn [bind]).

(** ** Loops over rows of scalars *)

Lemma np_for_rows_pass (np : numpy)
    (body : nat -> np_row np -> result (option (np_message np)))
    (rows : list (np_row np)) (start : nat) :
  (forall j row, nth_error rows j = Some row -> body (start + j) row = Ok None) ->
  np_for_rows np body start rows = Ok None.
Proof.
  revert start. induction rows as [|r rows IH]; intros start H; simpl; [reflexivity|].
  pose proof (H 0 r eq_refl) as H0. rewrite Nat.add_0_r in H0. rewrite H0. simpl.
  apply IH. intros j row Hj. replace (S start + j) with (start + S j) by lia.
  apply H. exact Hj.
Qed.

Lemma np_for_rows_pass_inv (np : numpy)
    (body : nat -> np_row np -> result (option (np_message np)))
    (rows : list (np_row np)) (start : nat) :
  np_for_rows np body start rows = Ok None ->
  forall j row, nth_error rows j = Some row -> body (start + j) row = Ok None.
Proof.
  revert start. induction rows as [|r rows IH]; intros start H j row Hj.
  - destruct j; discriminate.
  - simpl in H. destruct (body start r) as [[m|]|e] eqn:E; simpl in H; try discriminate.
    destruct j as [|j]; simpl in Hj.
    + injection Hj as <-. rewrite Nat.add_0_r. exact E.
    + replace (start + S j) with (S start + j) by lia. apply (IH _ H). exact Hj.
Qed.

Lemma np_for_rows_first (np : numpy)
    (body : nat -> np_row np -> result (option (np_message np)))
    (rows : list (np_row np)) (start k : nat) (row : np_row np)
    (r : result (option (np_message np))) :
  nth_error rows k = Some row ->
  (forall j row', j < k -> nth_error rows j = Some row' ->
                  body (start + j) row' = Ok None) ->
  body (start + k) row = r -> r <> Ok None ->
  np_for_rows np body start rows = r.
Proof.
  revert start k. induction rows as [|r0 rows IH]; intros start k Hk Hbefore Hat Hr.
  - destruct k; discriminate.
  - simpl. destruct k as [|k]; simpl in Hk.
    + injection Hk as ->. rewrite Nat.add_0_r in Hat. rewrite Hat.
      destruct r as [[m|]|e]; simpl; try reflexivity. congruence.
    + pose proof (Hbefore 0 r0 (Nat.lt_0_succ k) eq_refl) as H0.
      rewrite Nat.add_0_r in H0. rewrite H0. simpl.
      apply (IH (S start) k); try assumption.
      * intros j row' Hj Hn. replace (S start + j) with (start + S j) by lia.
        apply Hbefore; [lia|exact Hn].
      * rewrite <- Hat. f_equal. lia.
Qed.

(** A loop whose body answers independently of the carried variable. *)
Lemma np_for_rows_with_stateless (np : numpy) {St : Type}
    (body : nat -> np_row np -> St -> result (St * option (np_message np)))
    (answer : nat -> np_row np -> option (np_message np))
    (rows : list (np_row np)) (start : nat) (s : St) :
  (forall j row s0, nth_error rows j = Some row ->
     exists s', body (start + j) row s0 = Ok (s', answer (start + j) row)) ->
  np_for_rows_with np body start rows s =
  np_for_rows np (fun j row => Ok (answer j row)) start rows.
Proof.
  revert start s. induction rows as [|r rows IH]; intros start s H; simpl; [reflexivity|].
  destruct (H 0 r s eq_refl) as [s' Hs]. rewrite Nat.add_0_r in Hs. rewrite Hs. simpl.
  destruct (answer start r); [reflexivity|].
  apply IH. intros j row s0 Hj. replace (S start + j) with (start + S j) by lia.
  apply H. exact Hj.
Qed.

(** ** Header rows of scalars *)

Lemma np_invoice_row_present (np : numpy) (idx : nat) (row : np_row np)
    (iv tv ta : scalar np) :
  row "invoice_value" = Ok iv -> row "taxable_value" = Ok tv ->
  row "tax_amount" = Ok ta ->
  np_isna np iv = false -> np_isna np tv = false -> np_isna np ta = false ->
  np_invoice_row np idx row =
  Ok (if np_isclose np iv (np_add np tv ta) then None
      else Some (np_invoice_mismatch np idx iv tv ta)).
Proof.
  intros H1 H2 H3 N1 N2 N3. unfold np_invoice_row. np_read_row.
  destruct (np_isclose np iv (np_add np tv ta)); reflexivity.
Qed.

Lemma np_invoice_row_pass_iff (np : numpy) (idx : nat) (row : np_row np) :
  np_readable row relation_cols_invoice ->
  (np_invoice_row np idx row = Ok None <-> np_header_row_agrees np row).
Proof.
  intro Hr.
  destruct (Hr "invoice_value") as [iv H1]; [simpl; tauto|].
  destruct (Hr "taxable_value") as [tv H2]; [simpl; tauto|].
  destruct (Hr "tax_amount") as [ta H3]; [simpl; tauto|].
  unfold np_header_row_agrees.
  destruct (np_isna np iv) eqn:N1;
    [split; [intros _ a b c Ha Hb Hc Na; congruence|];
     intros _; unfold np_invoice_row; np_read_row; reflexivity|].
  destruct (np_isna np tv) eqn:N2;
    [split; [intros _ a b c Ha Hb Hc Na Nb; congruence|];
     intros _; unfold np_invoice_row; np_read_row; reflexivity|].
  destruct (np_isna np ta) eqn:N3;
    [split; [intros _ a b c Ha Hb Hc Na Nb Nc; congruence|];
     intros _; unfold np_invoice_row; np_read_row; reflexivity|].
  rewrite (np_invoice_row_present np idx row iv tv ta H1 H2 H3 N1 N2 N3). split.
  - intros H a b c Ha Hb Hc _ _ _.
    rewrite H1 in Ha. rewrite H2 in Hb. rewrite H3 in Hc.
    injection Ha as <-. injection Hb as <-. injection Hc as <-.
    destruct (np_isclose np iv (np_add np tv ta)); [reflexivity|discriminate].
  - intro H. rewrite (H iv tv ta H1 H2 H3 N1 N2 N3). reflexivity.
Qed.

(** ** Line-item rows of scalars *)

Lemma np_tax_vars_spec (np : numpy) (row : np_row np) (b : scalar np)
    (sa ca ia sr cr ir ta tr : scalar np) :
  row "sgst_amount" = Ok sa -> row "cgst_amount" = Ok ca ->
  row "igst_amount" = Ok ia -> row "sgst_rate" = Ok sr ->
  row "cgst_rate" = Ok cr -> row "igst_rate" = Ok ir ->
  row "tax_amount" = Ok ta -> row "tax_rate" = Ok tr ->
  np_tax_vars np row b = Ok (np_estimates np b sa ca ia sr cr ir ta tr).
Proof.
  intros H1 H2 H3 H4 H5 H6 H7 H8. unfold np_tax_vars, np_estimates.
  assert (Ha : np_when_present row "sgst_amount" (Ok [])
                 (fun x => np_when_present row "cgst_amount" (Ok [])
                 (fun y => np_when_present row "igst_amount" (Ok [])
                 (fun z => Ok ([] ++ [np_add np (np_add np x y) z]))))
               = Ok (np_sum3 np sa ca ia)).
  { unfold np_sum3.
    destruct (np_isna np sa) eqn:N1, (np_isna np ca) eqn:N2, (np_isna np ia) eqn:N3;
      np_read_row; reflexivity. }
  rewrite Ha. cbn [bind]. clear Ha H1 H2 H3.
  generalize (np_sum3 np sa ca ia). intro l0.
  assert (Hb : np_when_present row "sgst_rate" (Ok l0)
                 (fun x => np_when_present row "cgst_rate" (Ok l0)
                 (fun y => np_when_present row "igst_rate" (Ok l0)
                 (fun z => Ok (l0 ++ [np_per_cent np
                                        (np_mul np b (np_add np (np_add np x y) z))]))))
               = Ok (l0 ++ map (fun rates => np_per_cent np (np_mul np b rates))
                               (np_sum3 np sr cr ir))).
  { unfold np_sum3.
    destruct (np_isna np sr) eqn:N1, (np_isna np cr) eqn:N2, (np_isna np ir) eqn:N3;
      np_read_row; simpl; rewrite ?app_nil_r; reflexivity. }
  rewrite Hb. cbn [bind]. clear Hb H4 H5 H6.
  generalize (map (fun rates => np_per_cent np (np_mul np b rates))
                  (np_sum3 np sr cr ir)). intro l1.
  unfold np_if_present.
  destruct (np_isna np ta) eqn:N1, (np_isna np tr) eqn:N2;
    np_read_row; rewrite <- ?app_assoc; simpl; rewrite ?app_nil_r; reflexivity.
Qed.

Lemma np_successive_close_false (np : numpy) (l : list (scalar np)) :
  np_successive_close np l = false <->
  exists i a b,
    nth_error l i = Some a /\ nth_error l (S i) = Some b /\
    np_isclose np a b = false.
Proof.
  induction l as [|x l IH].
  - simpl. split; [discriminate|]. intros [i [a [b [H _]]]].
    destruct i; discriminate.
  - destruct l as [|y l].
    + simpl. split; [discriminate|]. intros [i [a [b [_ [H _]]]]].
      destruct i; simpl in H; [discriminate|destruct i; discriminate].
    + change (np_successive_close np (x :: y :: l))
        with (np_isclose np x y && np_successive_close np (y :: l)).
      rewrite andb_false_iff, IH. split.
      * intros [H|[i [a [b [Ha [Hb Hab]]]]]].
        -- exists 0, x, y. repeat split; assumption.
        -- exists (S i), a, b. repeat split; assumption.
      * intros [i [a [b [Ha [Hb Hab]]]]]. destruct i as [|i].
        -- left. simpl in Ha, Hb. congruence.
        -- right. exists i, a, b. repeat split; assumption.
Qed.

Lemma np_successive_close_true (np : numpy) (l : list (scalar np)) :
  np_successive_close np l = true <->
  forall i a b,
    nth_error l i = Some a -> nth_error l (S i) = Some b ->
    np_isclose np a b = true.
Proof.
  split.
  - intros H i a b Ha Hb. destruct (np_isclose np a b) eqn:E; [reflexivity|].
    assert (Hf : np_successive_close np l = false)
      by (apply np_successive_close_false; exists i, a, b; auto).
    congruence.
  - intro H. destruct (np_successive_close np l) eqn:E; [reflexivity|].
    apply np_successive_close_false in E. destruct E as [i [a [b [Ha [Hb Hab]]]]].
    rewrite (H i a b Ha Hb) in Hab. discriminate.
Qed.

Lemma np_disagree_iff (np : numpy) (l : list (scalar np)) :
  ((2 <=? List.length l) && negb (np_successive_close np l) = true)
  <-> np_disagree np l.
Proof.
  unfold np_disagree. rewrite andb_true_iff, negb_true_iff, Nat.leb_le,
    np_successive_close_false. reflexivity.
Qed.

Lemma np_disagree_dec (np : numpy) (l : list (scalar np)) :
  ((2 <=? List.length l) && negb (np_successive_close np l) = false)
  <-> ~ np_disagree np l.
Proof.
  rewrite <- np_disagree_iff.
  destruct ((2 <=? List.length l) && negb (np_successive_close np l));
    split; intro H; try reflexivity; try discriminate; try congruence.
Qed.

(** What the line-item body answers once the base value and the estimates
    are known. *)
Lemma np_line_item_row_spec (np : numpy) (idx : nat) (row : np_row np)
    (b : scalar np) (tvs : list (scalar np)) :
  np_base_value np row = Ok (Some b) -> np_tax_vars np row b = Ok tvs ->
  np_line_item_row np idx row =
  if (2 <=? List.length tvs) && negb (np_successive_close np tvs)
  then Ok (Some (np_tax_mismatch np idx))
  else np_when_present row "final_amount" (Ok None) (fun final_amount =>
         match np_first_estimate np tvs with
         | Some tax_amount =>
             if negb (np_isclose np final_amount (np_add np b tax_amount))
             then Ok (Some (np_final_mismatch np idx final_amount b tax_amount))
             else Ok None
         | None => Ok None
         end).
Proof.
  intros Hb Ht. unfold np_line_item_row. rewrite Hb. cbn [bind]. rewrite Ht.
  reflexivity.
Qed.

Lemma np_line_item_row_tax_mismatch_iff (np : numpy) (idx : nat) (row : np_row np)
    (b : scalar np) (tvs : list (scalar np)) :
  np_base_value np row = Ok (Some b) -> np_tax_vars np row b = Ok tvs ->
  (np_line_item_row np idx row = Ok (Some (np_tax_mismatch np idx))
   <-> np_disagree np tvs).
Proof.
  intros Hb Ht. rewrite (np_line_item_row_spec np idx row b tvs Hb Ht).
  destruct ((2 <=? List.length tvs) && negb (np_successive_close np tvs)) eqn:E.
  - apply np_disagree_iff in E. tauto.
  - apply np_disagree_dec in E. split; [|tauto].
    unfold np_when_present. destruct (row "final_amount") as [fa|e]; simpl;
      try discriminate.
    destruct (negb (np_isna np fa)); try discriminate.
    destruct (np_first_estimate np tvs) as [t|]; try discriminate.
    destruct (negb (np_isclose np fa (np_add np b t))); discriminate.
Qed.

(** ** Summary rows of scalars *)

Lemma np_summary_total_tax (np : numpy) (row : np_row np)
    (previous : option (scalar np)) (tta cgst sgst igst : scalar np) :
  row "total_tax_amount" = Ok tta ->
  row "total_cgst_amount" = Ok cgst -> row "total_sgst_amount" = Ok sgst ->
  row "total_igst_amount" = Ok igst ->
  np_when_present row "total_tax_amount"
    (np_when_present row "total_cgst_amount" (Ok previous) (fun c1 =>
     np_when_present row "total_sgst_amount" (Ok previous) (fun c2 =>
     np_when_present row "total_igst_amount" (Ok previous) (fun c3 =>
       Ok (Some (np_add np (np_add np c1 c2) c3))))))
    (fun t => Ok (Some t)) =
  Ok (match np_total_tax_of np tta cgst sgst igst with
      | Some t => Some t
      | None => previous
      end).
Proof.
  intros H1 H2 H3 H4. unfold np_total_tax_of, np_sum3.
  destruct (np_isna np tta) eqn:N1; [|np_read_row; reflexivity].
  destruct (np_isna np cgst) eqn:N2, (np_isna np sgst) eqn:N3,
           (np_isna np igst) eqn:N4; np_read_row; reflexivity.
Qed.

(** ** float64 comparisons *)

Lemma SFeqb_refl (s : spec_float) : s <> S754_nan -> SFeqb s s = true.
Proof.
  intro H. destruct s as [b|b| |b m e]; try congruence; unfold SFeqb, SFcompare.
  - reflexivity.
  - destruct b; reflexivity.
  - rewrite Z.compare_refl, Pos.compare_cont_refl. destruct b; reflexivity.
Qed.

Lemma is_nan_spec (a : float) : is_nan a = true <-> Prim2SF a = S754_nan.
Proof.
  unfold is_nan. rewrite FloatAxioms.eqb_spec. split.
  - intro H. destruct (Prim2SF a) eqn:E; try reflexivity;
      rewrite SFeqb_refl in H; discriminate.
  - intros ->. reflexivity.
Qed.

Lemma eqb_nan (a b : float) :
  is_nan a = true \/ is_nan b = true -> PrimFloat.eqb a b = false.
Proof.
  rewrite FloatAxioms.eqb_spec, !is_nan_spec. intros [-> | ->]; [reflexivity|].
  unfold SFeqb, SFcompare. destruct (Prim2SF a); reflexivity.
Qed.

Lemma leb_nan (a b : float) : is_nan a = true -> PrimFloat.leb a b = false.
Proof. rewrite FloatAxioms.leb_spec, is_nan_spec. intros ->. reflexivity. Qed.

Lemma abs_sub_nan (a b : float) :
  is_nan a = true -> is_nan (PrimFloat.abs (PrimFloat.sub a b)) = true.
Proof.
  rewrite !is_nan_spec, FloatAxioms.abs_spec, FloatAxioms.sub_spec. intros ->.
  unfold SF64sub, SFsub. reflexivity.
Qed.

Lemma isclose64_nan (a b : float) :
  is_nan a = true \/ is_nan b = true -> isclose64 a b = false.
Proof.
  intro H. unfold isclose64. rewrite (eqb_nan a b H), orb_false_r.
  destruct H as [H|H].
  - rewrite (leb_nan _ _ (abs_sub_nan a b H)). reflexivity.
  - unfold is_finite. rewrite H. cbn [orb negb]. apply andb_false_r.
Qed.

Lemma isclose64_refl (a : float) : is_nan a = false -> isclose64 a a = true.
Proof.
  intro H. unfold isclose64. unfold is_nan in H. apply negb_false_iff in H.
  rewrite H. apply orb_true_r.
Qed.

Lemma isclose64_iff (a b : float) :
  isclose64 a b = true <->
  (PrimFloat.leb (PrimFloat.abs (PrimFloat.sub a b))
     (PrimFloat.add atol64 (PrimFloat.mul rtol64 (PrimFloat.abs b))) = true /\
   is_finite b = true) \/
  PrimFloat.eqb a b = true.
Proof. unfold isclose64. rewrite orb_true_iff, andb_true_iff. reflexivity. Qed.

(** ** The header relation *)

(** C7: in every arithmetic, over header rows that carry the three value
    columns, the header loop passes exactly when every row with all three
    values present has [invoice_value] close to [taxable_value + tax_amount]
    under [np.isclose]; the first row that violates this aborts all of
    Step 3 with the message carrying the row index and the three values.  On
    float64 values 118 against 100 + 18 passes, 120 against 100 + 18 fails
    with the mismatch message for 120, 100 and 18, and so does 3000.029
    against 2999 + 0.999, whose sum is rounded. *)
Theorem header_relation :
  (forall (np : numpy) (invoice_rows : list (np_row np)),
     (forall j row, nth_error invoice_rows j = Some row ->
                    np_readable row relation_cols_invoice) ->
     (np_invoice_relations np invoice_rows = Ok None <->
      forall j row, nth_error invoice_rows j = Some row ->
                    np_header_row_agrees np row) /\
     (forall idx row iv tv ta,
        nth_error invoice_rows idx = Some row ->
        (forall j row', j < idx -> nth_error invoice_rows j = Some row' ->
                        np_header_row_agrees np row') ->
        row "invoice_value" = Ok iv -> row "taxable_value" = Ok tv ->
        row "tax_amount" = Ok ta ->
        np_isna np iv = false -> np_isna np tv = false -> np_isna np ta = false ->
        np_isclose np iv (np_add np tv ta) = false ->
        forall line_item_rows summary_rows,
          np_relations np invoice_rows line_item_rows summary_rows =
          Ok (false, np_invoice_mismatch np idx iv tv ta))) /\
  np_relations binary64 [header64 118 100 18] [item64_180] [summary64_118] =
    Ok (true, []) /\
  np_relations binary64 [header64 120 100 18] [item64_180] [summary64_118] =
    Ok (false,
        [Text "Invoice value mismatch at row "; RowIndex 0; Text ": ";
         Value 120%float; Text " != "; Value 100%float; Text " + ";
         Value 18%float]) /\
  np_relations binary64 [header64 3000.029 2999 0.999] [item64_180] [summary64_118] =
    Ok (false, np_invoice_mismatch binary64 0 3000.029%float 2999%float 0.999%float).
Proof.
  split; [|repeat split; vm_compute; reflexivity].
  intros np rows Hread. split.
  - unfold np_invoice_relations. split.
    + intros H j row Hj. apply (np_invoice_row_pass_iff np j); [apply (Hread j); exact Hj|].
      apply (np_for_rows_pass_inv np _ _ 0 H j row Hj).
    + intro H. apply np_for_rows_pass. intros j row Hj.
      apply np_invoice_row_pass_iff; [apply (Hread j); exact Hj|apply (H j); exact Hj].
  - intros idx row iv tv ta Hidx Hbefore H1 H2 H3 N1 N2 N3 Hclose items summ.
    unfold np_relations, np_invoice_relations.
    rewrite (np_for_rows_first np _ rows 0 idx row
               (Ok (Some (np_invoice_mismatch np idx iv tv ta)))); try assumption.
    + reflexivity.
    + intros j row' Hj Hn. apply np_invoice_row_pass_iff;
        [apply (Hread j); exact Hn|apply (Hbefore j); assumption].
    + simpl. rewrite (np_invoice_row_present np idx row iv tv ta H1 H2 H3 N1 N2 N3),
        Hclose. reflexivity.
    + discriminate.
Qed.

Lemma header_relation_witness :
  np_relations binary64 [header64 118 100 18; header64 120 100 18]
               [item64_180] [summary64_118] =
  Ok (false, np_invoice_mismatch binary64 1 120%float 100%float 18%float).
Proof.
  refine (proj2 (proj1 header_relation binary64
                   [header64 118 100 18; header64 120 100 18] _)
            1 (header64 120 100 18) 120%float 100%float 18%float
            eq_refl _ eq_refl eq_refl eq_refl eq_refl eq_refl eq_refl eq_refl
            [item64_180] [summary64_118]).
  - intros j row Hj col Hcol.
    destruct j as [|[|j]]; simpl in Hj; try (destruct j; discriminate);
      injection Hj as <-;
      simpl in Hcol; destruct Hcol as [<-|[<-|[<-|[]]]]; eexists; reflexivity.
  - intros j row' Hj Hn. destruct j as [|j]; [|lia].
    simpl in Hn. injection Hn as <-.
    intros a b c Ha Hb Hc _ _ _.
    injection Ha as <-. injection Hb as <-. injection Hc as <-.
    vm_compute. reflexivity.
Defined.

(** ** The tax estimates *)

(** C5: in every arithmetic, for a line-item row with base value [b], the
    code's [tax_vars] is the list of estimates (a), (b), (c), (d) of the
    specification, each included only when all its inputs are present, in
    that order; the row answers the tax-mismatch message exactly when at
    least two estimates exist and some successive pair is not close under
    [np.isclose]; and the first row at which the loop stops, when it
    disagrees in this way, aborts Step 3 with that message.  On float64
    values the line item of Example 3 passes and the same item with tax
    amount 200 fails; two estimates that both overflow to infinity agree. *)
Theorem tax_estimates_agreement :
  (forall (np : numpy) (idx : nat) (row : np_row np) (b : scalar np)
          (sa ca ia sr cr ir ta tr : scalar np),
     np_base_value np row = Ok (Some b) ->
     row "sgst_amount" = Ok sa -> row "cgst_amount" = Ok ca ->
     row "igst_amount" = Ok ia -> row "sgst_rate" = Ok sr ->
     row "cgst_rate" = Ok cr -> row "igst_rate" = Ok ir ->
     row "tax_amount" = Ok ta -> row "tax_rate" = Ok tr ->
     np_tax_vars np row b = Ok (np_estimates np b sa ca ia sr cr ir ta tr) /\
     (np_line_item_row np idx row = Ok (Some (np_tax_mismatch np idx)) <->
      np_disagree np (np_estimates np b sa ca ia sr cr ir ta tr))) /\
  (forall (np : numpy) (line_item_rows : list (np_row np)) (idx : nat)
          (row : np_row np) (b : scalar np) (tvs : list (scalar np)),
     nth_error line_item_rows idx = Some row ->
     (forall j row', j < idx -> nth_error line_item_rows j = Some row' ->
                     np_line_item_row np j row' = Ok None) ->
     np_base_value np row = Ok (Some b) ->
     np_tax_vars np row b = Ok tvs ->
     np_disagree np tvs ->
     np_line_item_relations np line_item_rows = Ok (Some (np_tax_mismatch np idx)) /\
     forall invoice_rows summary_rows,
       np_invoice_relations np invoice_rows = Ok None ->
       np_relations np invoice_rows line_item_rows summary_rows =
       Ok (false, np_tax_mismatch np idx)) /\
  np_tax_vars binary64 item64_180 1000%float = Ok [180%float; 180%float] /\
  np_relations binary64 [header64 118 100 18] [item64_180] [summary64_118] =
    Ok (true, []) /\
  np_relations binary64 [header64 118 100 18] [item64_200] [summary64_118] =
    Ok (false,
        [Text "Tax amount mismatch at row "; RowIndex 0;
         Text ": Different tax calculations yield different results"]) /\
  np_tax_vars binary64 item64_infinite 1e308%float = Ok [infinity; infinity] /\
  np_line_item_row binary64 0 item64_infinite = Ok None.
Proof.
  split; [|split; [|repeat split; vm_compute; reflexivity]].
  - intros np idx row b sa ca ia sr cr ir ta tr Hb H1 H2 H3 H4 H5 H6 H7 H8.
    pose proof (np_tax_vars_spec np row b sa ca ia sr cr ir ta tr
                  H1 H2 H3 H4 H5 H6 H7 H8) as Ht.
    split; [exact Ht|].
    apply (np_line_item_row_tax_mismatch_iff np idx row b _ Hb Ht).
  - intros np rows idx row b tvs Hidx Hbefore Hb Ht Hd.
    assert (Hloop : np_line_item_relations np rows =
                    Ok (Some (np_tax_mismatch np idx))).
    { unfold np_line_item_relations.
      apply (np_for_rows_first np _ rows 0 idx row); try assumption.
      - simpl. apply (proj2 (np_line_item_row_tax_mismatch_iff np idx _ b tvs Hb Ht)).
        exact Hd.
      - discriminate. }
    split; [exact Hloop|].
    intros inv summ Hinv. unfold np_relations. rewrite Hinv. cbn [bind].
    rewrite Hloop. reflexivity.
Qed.

Lemma tax_estimates_agreement_witness :
  np_line_item_relations binary64 [item64_180; item64_200] =
  Ok (Some (np_tax_mismatch binary64 1)).
Proof.
  apply (proj1 (proj2 tax_estimates_agreement) binary64
           [item64_180; item64_200] 1 item64_200 1000%float
           [180%float; 200%float]).
  - reflexivity.
  - intros j row' Hj Hn. destruct j as [|j]; [|lia].
    simpl in Hn. injection Hn as <-. vm_compute. reflexivity.
  - reflexivity.
  - vm_compute. reflexivity.
  - split; [simpl; lia|].
    exists 0, 180%float, 200%float.
    repeat split; vm_compute; reflexivity.
Defined.

(** ** The final amount *)

Lemma np_first_estimate_spec (np : numpy) (l : list (scalar np)) (k : nat)
    (tax : scalar np) :
  nth_error l k = Some tax -> np_isna np tax = false ->
  (forall j t, j < k -> nth_error l j = Some t -> np_isna np t = true) ->
  np_first_estimate np l = Some tax.
Proof.
  unfold np_first_estimate. revert k.
  induction l as [|x l IH]; intros k Hk Hn Hbefore.
  - destruct k; discriminate.
  - destruct k as [|k]; simpl in Hk.
    + injection Hk as ->. simpl. rewrite Hn. reflexivity.
    + simpl. rewrite (Hbefore 0 x (Nat.lt_0_succ k) eq_refl). simpl.
      apply (IH k Hk Hn). intros j t Hj Ht. apply (Hbefore (S j) t); [lia|exact Ht].
Qed.

Lemma np_first_estimate_none (np : numpy) (l : list (scalar np)) :
  (forall t, In t l -> np_isna np t = true) -> np_first_estimate np l = None.
Proof.
  unfold np_first_estimate. induction l as [|x l IH]; intro H; [reflexivity|].
  simpl. rewrite (H x (or_introl eq_refl)). simpl.
  apply IH. intros t Ht. apply H. right. exact Ht.
Qed.

(** X1: in every arithmetic, for a line-item row with base value [b] whose
    estimates do not disagree, the final amount, when present, is compared
    with [b] plus the first estimate in the listed order that is not NaN:
    the row passes when they are close under [np.isclose] and otherwise
    answers the final-amount message with the three values; without a final
    amount, or when every estimate is NaN, the row passes.  On float64
    values 150 against 100 + 18 fails, and a row whose only estimate
    is NaN (infinity times a zero rate) passes whatever its final amount. *)
Theorem final_amount_check :
  (forall (np : numpy) (idx : nat) (row : np_row np) (b : scalar np)
          (sa ca ia sr cr ir ta tr final_amount : scalar np),
     np_base_value np row = Ok (Some b) ->
     row "sgst_amount" = Ok sa -> row "cgst_amount" = Ok ca ->
     row "igst_amount" = Ok ia -> row "sgst_rate" = Ok sr ->
     row "cgst_rate" = Ok cr -> row "igst_rate" = Ok ir ->
     row "tax_amount" = Ok ta -> row "tax_rate" = Ok tr ->
     row "final_amount" = Ok final_amount ->
     ~ np_disagree np (np_estimates np b sa ca ia sr cr ir ta tr) ->
     (np_isna np final_amount = true -> np_line_item_row np idx row = Ok None) /\
     ((forall t, In t (np_estimates np b sa ca ia sr cr ir ta tr) ->
                 np_isna np t = true) ->
      np_line_item_row np idx row = Ok None) /\
     (forall k tax,
        np_isna np final_amount = false ->
        nth_error (np_estimates np b sa ca ia sr cr ir ta tr) k = Some tax ->
        np_isna np tax = false ->
        (forall j t, j < k ->
           nth_error (np_estimates np b sa ca ia sr cr ir ta tr) j = Some t ->
           np_isna np t = true) ->
        np_line_item_row np idx row =
        Ok (if np_isclose np final_amount (np_add np b tax) then None
            else Some [Text "Final amount mismatch at row "; RowIndex idx;
                       Text ": "; Value final_amount; Text " != "; Value b;
                       Text " + "; Value tax]))) /\
  np_line_item_row binary64 0 item64_bad_final =
    Ok (Some [Text "Final amount mismatch at row "; RowIndex 0; Text ": ";
              Value 150%float; Text " != "; Value 100%float; Text " + ";
              Value 18%float]) /\
  np_base_value binary64 item64_overflow = Ok (Some infinity) /\
  np_tax_vars binary64 item64_overflow infinity = Ok [nan] /\
  np_line_item_row binary64 0 item64_overflow = Ok None.
Proof.
  split; [|repeat split; vm_compute; reflexivity].
  intros np idx row b sa ca ia sr cr ir ta tr fa Hb H1 H2 H3 H4 H5 H6 H7 H8 Hf Hd.
  pose proof (np_tax_vars_spec np row b sa ca ia sr cr ir ta tr
                H1 H2 H3 H4 H5 H6 H7 H8) as Ht.
  rewrite (np_line_item_row_spec np idx row b _ Hb Ht).
  rewrite (proj2 (np_disagree_dec np _) Hd).
  split; [|split].
  - intro Hn. rewrite (np_when_present_none _ _ _ _ _ Hf Hn). reflexivity.
  - intro Hall. unfold np_when_present. rewrite Hf. cbn [bind].
    rewrite (np_first_estimate_none np _ Hall).
    destruct (negb (np_isna np fa)); reflexivity.
  - intros k tax Hn Hk Htax Hbefore.
    rewrite (np_when_present_some _ _ _ _ _ Hf Hn).
    rewrite (np_first_estimate_spec np _ k tax Hk Htax Hbefore).
    destruct (np_isclose np fa (np_add np b tax)); reflexivity.
Qed.

Lemma final_amount_check_witness :
  np_line_item_row binary64 0 item64_bad_final =
  Ok (Some (np_final_mismatch binary64 0 150%float 100%float 18%float)).
Proof.
  refine (proj2 (proj2 (proj1 final_amount_check binary64 0 item64_bad_final
                   100%float nan nan nan nan nan nan 18%float nan 150%float
                   eq_refl eq_refl eq_refl eq_refl eq_refl eq_refl eq_refl
                   eq_refl eq_refl eq_refl _))
            0 18%float eq_refl eq_refl eq_refl _).
  - intros [Hlen _]. vm_compute in Hlen. lia.
  - intros j t Hj. lia.
Defined.

(** ** The summary relation *)

Lemma np_summary_row_resolved (np : numpy) (idx : nat) (row : np_row np)
    (previous : option (scalar np)) (tax taxable invoice : scalar np) :
  np_resolves np row tax ->
  row "total_taxable_value" = Ok taxable ->
  row "total_invoice_value" = Ok invoice ->
  np_summary_row np idx row previous =
  Ok (Some tax, np_summary_answer np idx tax taxable invoice).
Proof.
  intros [tta [cgst [sgst [igst [H1 [H2 [H3 [H4 Ht]]]]]]]] H5 H6.
  unfold np_summary_row.
  rewrite (np_summary_total_tax np row previous tta cgst sgst igst H1 H2 H3 H4), Ht.
  cbn [bind]. unfold np_summary_answer, np_when_present. rewrite H5, H6. cbn [bind].
  destruct (np_isna np taxable), (np_isna np invoice), (np_isna np tax);
    cbn [negb andb]; try reflexivity.
  destruct (np_isclose np invoice (np_add np taxable tax)); reflexivity.
Qed.

Lemma np_resolves_unique (np : numpy) (row : np_row np) (t1 t2 : scalar np) :
  np_resolves np row t1 -> np_resolves np row t2 -> t1 = t2.
Proof.
  intros [a1 [b1 [c1 [d1 [A1 [B1 [C1 [D1 E1]]]]]]]]
         [a2 [b2 [c2 [d2 [A2 [B2 [C2 [D2 E2]]]]]]]].
  congruence.
Qed.

Lemma np_summary_answer_none (np : numpy) (idx : nat) (row : np_row np)
    (tax taxable invoice : scalar np) :
  np_resolves np row tax ->
  row "total_taxable_value" = Ok taxable ->
  row "total_invoice_value" = Ok invoice ->
  (np_summary_answer np idx tax taxable invoice = None <->
   np_summary_row_agrees np row).
Proof.
  intros Hr H5 H6. unfold np_summary_row_agrees, np_summary_answer.
  destruct (np_isna np taxable) eqn:N1;
    [split; [intros _ a b c _ Hb _ Nb; congruence|reflexivity]|].
  destruct (np_isna np invoice) eqn:N2;
    [split; [intros _ a b c _ _ Hc _ Nc; congruence|reflexivity]|].
  destruct (np_isna np tax) eqn:N3.
  - split; [|reflexivity]. intros _ a b c Ha _ _ _ _ Na.
    rewrite (np_resolves_unique np row a tax Ha Hr) in Na. congruence.
  - cbn [negb andb]. split.
    + intros H a b c Ha Hb Hc _ _ _.
      rewrite (np_resolves_unique np row a tax Ha Hr).
      rewrite H5 in Hb. rewrite H6 in Hc. injection Hb as <-. injection Hc as <-.
      destruct (np_isclose np invoice (np_add np taxable tax));
        [reflexivity|discriminate].
    + intro H. rewrite (H tax taxable invoice Hr H5 H6 N1 N2 N3). reflexivity.
Qed.

(** X10: in every arithmetic, over summary rows each of which resolves a
    total tax (the stated amount, else the sum of the three components), the
    summary loop passes exactly when every row whose two values and total
    tax are not NaN has [total_invoice_value] close to [total_taxable_value]
    plus that tax under [np.isclose]; the first row that is not aborts
    Step 3, once header and line items pass, with the message carrying the
    row index and both sides.  On float64 values 6000 against 5000 + 900
    fails, the figures of Example 5 pass, and a total tax that is NaN
    (components of opposite infinite sign) is not compared. *)
Theorem summary_relation_resolved :
  (forall (np : numpy) (summary_rows : list (np_row np)),
     (forall j row, nth_error summary_rows j = Some row ->
        np_readable row summary_cols /\ exists tax, np_resolves np row tax) ->
     (np_summary_relations np summary_rows = Ok None <->
      forall j row, nth_error summary_rows j = Some row ->
                    np_summary_row_agrees np row) /\
     (forall idx row tax taxable invoice,
        nth_error summary_rows idx = Some row ->
        (forall j row', j < idx -> nth_error summary_rows j = Some row' ->
                        np_summary_row_agrees np row') ->
        np_resolves np row tax ->
        row "total_taxable_value" = Ok taxable ->
        row "total_invoice_value" = Ok invoice ->
        np_isna np taxable = false -> np_isna np invoice = false ->
        np_isna np tax = false ->
        np_isclose np invoice (np_add np taxable tax) = false ->
        forall invoice_rows line_item_rows,
          np_invoice_relations np invoice_rows = Ok None ->
          np_line_item_relations np line_item_rows = Ok None ->
          np_relations np invoice_rows line_item_rows summary_rows =
          Ok (false,
              [Text "Total invoice value mismatch at row "; RowIndex idx;
               Text ": "; Value invoice; Text " != "; Value taxable;
               Text " + "; Value tax]))) /\
  np_relations binary64 [header64 118 100 18] [item64_180] [summary64_6000] =
    Ok (false,
        [Text "Total invoice value mismatch at row "; RowIndex 0; Text ": ";
         Value 6000%float; Text " != "; Value 5000%float; Text " + ";
         Value 900%float]) /\
  np_relations binary64 [header64 118 100 18] [item64_180] [summary64_5900] =
    Ok (true, []) /\
  np_summary_row binary64 0 summary64_nan_tax None = Ok (Some nan, None).
Proof.
  split; [|repeat split; vm_compute; reflexivity].
  intros np rows Hrows.
  set (answer := fun (j : nat) (row : np_row np) =>
         match row "total_tax_amount", row "total_cgst_amount",
               row "total_sgst_amount", row "total_igst_amount",
               row "total_taxable_value", row "total_invoice_value" with
         | Ok tta, Ok cgst, Ok sgst, Ok igst, Ok taxable, Ok invoice =>
             match np_total_tax_of np tta cgst sgst igst with
             | Some tax => np_summary_answer np j tax taxable invoice
             | None => None
             end
         | _, _, _, _, _, _ => None
         end).
  assert (Hanswer : forall j row tax taxable invoice,
            np_resolves np row tax ->
            row "total_taxable_value" = Ok taxable ->
            row "total_invoice_value" = Ok invoice ->
            answer j row = np_summary_answer np j tax taxable invoice).
  { intros j row tax taxable invoice
           [tta [cgst [sgst [igst [H1 [H2 [H3 [H4 Ht]]]]]]]] H5 H6.
    unfold answer. rewrite H1, H2, H3, H4, H5, H6, Ht. reflexivity. }
  assert (Hfields : forall j row, nth_error rows j = Some row ->
            exists tax taxable invoice,
              np_resolves np row tax /\ row "total_taxable_value" = Ok taxable /\
              row "total_invoice_value" = Ok invoice).
  { intros j row Hj. destruct (Hrows j row Hj) as [Hread [tax Hr]].
    destruct (Hread "total_taxable_value") as [taxable H5]; [simpl; tauto|].
    destruct (Hread "total_invoice_value") as [invoice H6]; [simpl; tauto|].
    exists tax, taxable, invoice. auto. }
  assert (Hloop : np_summary_relations np rows =
                  np_for_rows np (fun j row => Ok (answer j row)) 0 rows).
  { unfold np_summary_relations. apply np_for_rows_with_stateless.
    intros j row s0 Hj.
    destruct (Hfields j row Hj) as [tax [taxable [invoice [Hr [H5 H6]]]]].
    exists (Some tax). rewrite (Hanswer _ row tax taxable invoice Hr H5 H6).
    apply np_summary_row_resolved; assumption. }
  assert (Hagree : forall j row, nth_error rows j = Some row ->
            (answer j row = None <-> np_summary_row_agrees np row)).
  { intros j row Hj.
    destruct (Hfields j row Hj) as [tax [taxable [invoice [Hr [H5 H6]]]]].
    rewrite (Hanswer j row tax taxable invoice Hr H5 H6).
    apply np_summary_answer_none; assumption. }
  split.
  - rewrite Hloop. split.
    + intros H j row Hj. apply (Hagree j row Hj).
      pose proof (np_for_rows_pass_inv np _ _ 0 H j row Hj) as Hj'.
      simpl in Hj'. injection Hj' as Hj'. exact Hj'.
    + intro H. apply np_for_rows_pass. intros j row Hj. f_equal.
      apply (Hagree j row Hj). apply (H j row Hj).
  - intros idx row tax taxable invoice Hidx Hbefore Hr H5 H6 N1 N2 N3 Hclose
           inv items Hinv Hitems.
    unfold np_relations. rewrite Hinv. cbn [bind]. rewrite Hitems. cbn [bind].
    rewrite Hloop.
    rewrite (np_for_rows_first np _ rows 0 idx row
               (Ok (Some (np_total_mismatch np idx invoice taxable tax))));
      try assumption.
    + reflexivity.
    + intros j row' Hj Hn. f_equal. apply (Hagree j row' Hn).
      apply (Hbefore j row' Hj Hn).
    + simpl. rewrite (Hanswer idx row tax taxable invoice Hr H5 H6).
      unfold np_summary_answer. rewrite N1, N2, N3, Hclose. reflexivity.
    + discriminate.
Qed.

Lemma summary_relation_resolved_witness :
  np_relations binary64 [header64 118 100 18] [item64_180] [summary64_6000] =
  Ok (false, np_total_mismatch binary64 0 6000%float 5000%float 900%float).
Proof.
  refine (proj2 (proj1 summary_relation_resolved binary64 [summary64_6000] _)
            0 summary64_6000 900%float 5000%float 6000%float
            eq_refl _ _ eq_refl eq_refl eq_refl eq_refl eq_refl eq_refl
            [header64 118 100 18] [item64_180] eq_refl eq_refl).
  - intros j row Hj. destruct j as [|j]; simpl in Hj;
      [|destruct j; discriminate]. injection Hj as <-. split.
    + intros col Hcol. simpl in Hcol.
      destruct Hcol as [<-|[<-|[<-|[<-|[<-|[<-|[]]]]]]]; eexists; reflexivity.
    + exists 900%float, nan, 450%float, 450%float, 0%float.
      repeat split; reflexivity.
  - intros j row' Hj. lia.
  - exists nan, 450%float, 450%float, 0%float. repeat split; reflexivity.
Defined.

(** ** The comparator on float64 values *)

(** C2, as the code has it.  In every arithmetic each of the four checks of
    Step 3 is one call of [np.isclose] with the stated value (or the earlier
    estimate) first and the recomputed value (or the later estimate) second:
    the header check, each successive pair of estimates, the final amount
    and the summary total.  On float64 values [np.isclose(a, b, rtol=1e-05)]
    holds exactly when [b] is finite and [abs(a - b) <= 1e-8 + 1e-5 * abs(b)]
    in float64 arithmetic, or [a == b]: a value that is not NaN is close to
    itself, a NaN is close to nothing.  The test is not purely relative
    (0 against 1e-9 passes), its tolerance is taken from the second operand
    only, and scaling both operands keeps neither verdict: a passing pair
    scaled by 0.1 fails, a failing pair scaled by 2 passes. *)
Theorem isclose_mixed_tolerance :
  ((forall (np : numpy) (idx : nat) (row : np_row np) (iv tv ta : scalar np),
      row "invoice_value" = Ok iv -> row "taxable_value" = Ok tv ->
      row "tax_amount" = Ok ta ->
      np_isna np iv = false -> np_isna np tv = false -> np_isna np ta = false ->
      (np_invoice_row np idx row = Ok None <->
       np_isclose np iv (np_add np tv ta) = true)) /\
   (forall (np : numpy) (tax_vars : list (scalar np)),
      np_successive_close np tax_vars = true <->
      forall i a b,
        nth_error tax_vars i = Some a -> nth_error tax_vars (S i) = Some b ->
        np_isclose np a b = true) /\
   (forall (np : numpy) (idx : nat) (row : np_row np) (b : scalar np)
           (tax_vars : list (scalar np)) (final_amount tax : scalar np),
      np_base_value np row = Ok (Some b) -> np_tax_vars np row b = Ok tax_vars ->
      ~ np_disagree np tax_vars ->
      row "final_amount" = Ok final_amount -> np_isna np final_amount = false ->
      np_first_estimate np tax_vars = Some tax ->
      (np_line_item_row np idx row = Ok None <->
       np_isclose np final_amount (np_add np b tax) = true)) /\
   (forall (np : numpy) (idx : nat) (row : np_row np)
           (previous : option (scalar np)) (tax taxable invoice : scalar np),
      np_resolves np row tax ->
      row "total_taxable_value" = Ok taxable ->
      row "total_invoice_value" = Ok invoice ->
      np_isna np taxable = false -> np_isna np invoice = false ->
      np_isna np tax = false ->
      (np_summary_row np idx row previous = Ok (Some tax, None) <->
       np_isclose np invoice (np_add np taxable tax) = true))) /\
  ((forall a b : float,
      np_isclose binary64 a b = true <->
      (PrimFloat.leb (PrimFloat.abs (a - b)) (1e-8 + 1e-5 * PrimFloat.abs b) = true /\
       is_finite b = true) \/
      PrimFloat.eqb a b = true) /\
   (forall a : float, is_nan a = false -> np_isclose binary64 a a = true) /\
   (forall a b : float,
      is_nan a = true \/ is_nan b = true -> np_isclose binary64 a b = false)) /\
  (isclose64 0 1e-9 = true /\ relative_close64 0 1e-9 = false) /\
  (isclose64 100000 100001.00001 = true /\
   isclose64 100001.00001 100000 = false) /\
  (isclose64 123458023580.39012 123456789012.5 = true /\
   isclose64 (0.1 * 123458023580.39012) (0.1 * 123456789012.5) = false) /\
  (isclose64 0x1p1023 0x1.8p1023 = false /\
   isclose64 (2 * 0x1p1023) (2 * 0x1.8p1023) = true).
Proof.
  split; [split; [|split; [|split]]|split; [split; [|split]|]].
  - intros np idx row iv tv ta H1 H2 H3 N1 N2 N3.
    rewrite (np_invoice_row_present np idx row iv tv ta H1 H2 H3 N1 N2 N3).
    destruct (np_isclose np iv (np_add np tv ta)); split; intro H;
      try reflexivity; discriminate.
  - intros np l. apply np_successive_close_true.
  - intros np idx row b tvs fa tax Hb Ht Hd Hf Nf Hfirst.
    rewrite (np_line_item_row_spec np idx row b tvs Hb Ht).
    rewrite (proj2 (np_disagree_dec np tvs) Hd).
    rewrite (np_when_present_some _ _ _ _ _ Hf Nf), Hfirst.
    destruct (np_isclose np fa (np_add np b tax)); split; intro H;
      try reflexivity; discriminate.
  - intros np idx row previous tax taxable invoice Hr H5 H6 N1 N2 N3.
    rewrite (np_summary_row_resolved np idx row previous tax taxable invoice
               Hr H5 H6).
    unfold np_summary_answer. rewrite N1, N2, N3. cbn [negb andb].
    destruct (np_isclose np invoice (np_add np taxable tax)); split; intro H;
      try reflexivity; discriminate.
  - intros a b. apply isclose64_iff.
  - intros a. apply isclose64_refl.
  - intros a b. apply isclose64_nan.
  - repeat split; vm_compute; reflexivity.
Qed.

Lemma isclose_mixed_tolerance_witness :
  isclose64 infinity infinity = true /\
  isclose64 118 (100 + nan) = false.
Proof.
  split.
  - apply (proj1 (proj2 (proj1 (proj2 isclose_mixed_tolerance))) infinity).
    reflexivity.
  - apply (proj2 (proj2 (proj1 (proj2 isclose_mixed_tolerance)))
             118%float (100 + nan)%float).
    right. reflexivity.
Defined.

(** C2, as stated, fails on float64 values: 0 and 1e-9 are close although
    their distance exceeds 1e-5 times the larger magnitude, and scaling both
    by 1e9 turns the verdict into a failure, also for the whole of Step 3. *)
Lemma isclose_scaling_counterexample :
  isclose64 0 1e-9 = true /\
  relative_close64 0 1e-9 = false /\
  isclose64 (1e9 * 0) (1e9 * 1e-9) = false /\
  np_relations binary64 [header64 0 1e-9 0] [item64_180] [summary64_118] =
    Ok (true, []) /\
  np_relations binary64 [header64 (1e9 * 0) (1e9 * 1e-9) (1e9 * 0)]
               [item64_180] [summary64_118] =
    Ok (false, np_invoice_mismatch binary64 0 0%float 1%float 0%float).
Proof. repeat split; vm_compute; reflexivity. Qed.

(** ** The reading over frames is the one over scalars with exact arithmetic *)

Lemma bind_bind {A B C} (m : result A) (f : A -> result B) (g : B -> result C) :
  (y <- (x <- m ;; f x) ;; g y) = (x <- m ;; y <- f x ;; g y).
Proof. destruct m; reflexivity. Qed.

Lemma bind_ext {A B} (m : result A) (f g : A -> result B) :
  (forall a, f a = g a) -> (x <- m ;; f x) = (x <- m ;; g x).
Proof. intro H. destruct m; simpl; [apply H|reflexivity]. Qed.

Lemma invoice_row_rational (idx : nat) (row : Row) :
  invoice_row idx row = rendered (np_invoice_row rational idx row).
Proof.
  unfold invoice_row, np_invoice_row, np_when_present, when_present, rendered.
  destruct (row "invoice_value") as [[iv|]|e]; simpl; try reflexivity.
  destruct (row "taxable_value") as [[tv|]|e]; simpl; try reflexivity.
  destruct (row "tax_amount") as [[ta|]|e]; simpl; try reflexivity.
  destruct (isclose iv (tv + ta)); reflexivity.
Qed.

Lemma base_value_rational (row : Row) :
  np_base_value rational row = (b <- base_value row ;; Ok (option_map Some b)).
Proof.
  unfold base_value, np_base_value, np_when_present, when_present.
  destruct (row "taxable_value") as [[tv|]|e]; simpl; try reflexivity.
  destruct (row "rate_per_item_after_discount") as [[r|]|e]; simpl;
    try reflexivity.
  destruct (row "quantity") as [[q|]|e]; reflexivity.
Qed.

(** One [if] block of [tax_vars] in both readings. *)
Lemma block3_rational (row : Row) (c1 c2 c3 : string) (f : Q -> Q -> Q -> Q)
    (g : option Q -> option Q -> option Q -> option Q) (l : list Q) :
  (forall x y z, g (Some x) (Some y) (Some z) = Some (f x y z)) ->
  np_when_present (np := rational) row c1 (Ok (map Some l)) (fun x =>
  np_when_present (np := rational) row c2 (Ok (map Some l)) (fun y =>
  np_when_present (np := rational) row c3 (Ok (map Some l)) (fun z =>
    Ok (map Some l ++ [g x y z])))) =
  (l' <- when_present row c1 (Ok l) (fun x =>
         when_present row c2 (Ok l) (fun y =>
         when_present row c3 (Ok l) (fun z => Ok (l ++ [f x y z])))) ;;
   Ok (map Some l')).
Proof.
  intro Hg. unfold np_when_present, when_present.
  destruct (row c1) as [[x|]|e]; simpl; try reflexivity.
  destruct (row c2) as [[y|]|e]; simpl; try reflexivity.
  destruct (row c3) as [[z|]|e]; simpl; try reflexivity.
  rewrite Hg, map_app. reflexivity.
Qed.

Lemma block1_rational (row : Row) (c1 : string) (f : Q -> Q)
    (g : option Q -> option Q) (l : list Q) :
  (forall x, g (Some x) = Some (f x)) ->
  np_when_present (np := rational) row c1 (Ok (map Some l)) (fun x =>
    Ok (map Some l ++ [g x])) =
  (l' <- when_present row c1 (Ok l) (fun x => Ok (l ++ [f x])) ;;
   Ok (map Some l')).
Proof.
  intro Hg. unfold np_when_present, when_present.
  destruct (row c1) as [[x|]|e]; simpl; try reflexivity.
  rewrite Hg, map_app. reflexivity.
Qed.

Lemma bind_map {A A' B} (m1 : result A') (m2 : result A) (h : A -> A')
    (k1 : A' -> result B) (k2 : A -> result B) :
  m1 = (x <- m2 ;; Ok (h x)) -> (forall x, k1 (h x) = k2 x) ->
  (y <- m1 ;; k1 y) = (x <- m2 ;; k2 x).
Proof. intros -> H. destruct m2; simpl; [apply H|reflexivity]. Qed.

Lemma tax_vars_rational (row : Row) (b : Q) :
  np_tax_vars rational row (Some b) = (l <- tax_vars row b ;; Ok (map Some l)).
Proof.
  unfold tax_vars, np_tax_vars. cbv zeta. rewrite !bind_bind.
  apply (bind_map _ _ (map Some)).
  { apply (block3_rational row "sgst_amount" "cgst_amount" "igst_amount"
             (fun x y z => x + y + z)%Q
             (fun x y z => np_add rational (np_add rational x y) z) []
             (fun x y z => eq_refl)). }
  intro l0. rewrite !bind_bind. apply (bind_map _ _ (map Some)).
  { apply (block3_rational row "sgst_rate" "cgst_rate" "igst_rate"
             (fun x y z => b * (x + y + z) / 100)%Q
             (fun x y z => np_per_cent rational
                             (np_mul rational (Some b)
                                (np_add rational (np_add rational x y) z))) l0
             (fun x y z => eq_refl)). }
  intro l1. rewrite !bind_bind. apply (bind_map _ _ (map Some)).
  { apply (block1_rational row "tax_amount" (fun x => x) (fun x => x) l1
             (fun x => eq_refl)). }
  intro l2.
  apply (block1_rational row "tax_rate" (fun x => b * x / 100)%Q
           (fun x => np_per_cent rational (np_mul rational (Some b) x)) l2
           (fun x => eq_refl)).
Qed.

Lemma successive_close_rational (l : list Q) :
  np_successive_close rational (map Some l) = successive_close l.
Proof.
  induction l as [|a l IH]; [reflexivity|].
  destruct l as [|b l]; [reflexivity|].
  change (np_successive_close rational (map Some (a :: b :: l)))
    with (isclose a b && np_successive_close rational (map Some (b :: l))).
  rewrite IH. reflexivity.
Qed.

Lemma first_estimate_rational (l : list Q) :
  np_first_estimate rational (map Some l) = option_map Some (hd_error l).
Proof. destruct l; reflexivity. Qed.

Lemma line_item_row_rational (idx : nat) (row : Row) :
  line_item_row idx row = rendered (np_line_item_row rational idx row).
Proof.
  unfold line_item_row, np_line_item_row, rendered.
  rewrite base_value_rational, !bind_bind. apply bind_ext.
  intros [b|]; cbn [bind option_map]; [|reflexivity].
  rewrite tax_vars_rational, !bind_bind. apply bind_ext. intro l. cbn [bind].
  rewrite length_map, successive_close_rational, first_estimate_rational.
  destruct ((2 <=? List.length l) && negb (successive_close l)); [reflexivity|].
  unfold np_when_present, when_present.
  destruct (row "final_amount") as [[fa|]|e]; simpl; try reflexivity.
  destruct (hd_error l) as [t|]; simpl; [|reflexivity].
  destruct (isclose fa (b + t)); reflexivity.
Qed.

Lemma summary_row_rational (idx : nat) (row : Row) (total_tax : option Q) :
  match summary_row idx row total_tax with
  | Ok (t, msg) =>
      exists msg',
        np_summary_row rational idx row (option_map Some total_tax) =
          Ok (option_map Some t, msg') /\
        option_map (map render) msg' = msg
  | Raise e =>
      np_summary_row rational idx row (option_map Some total_tax) = Raise e
  end.
Proof.
  unfold summary_row, np_summary_row, np_when_present, when_present.
  repeat match goal with
         | |- context [row ?c] =>
             destruct (row c) as [[?|]|?];
             cbn [bind np_isna np_add np_isclose rational rational_isna rational_add
                  rational_isclose negb fst snd option_map]
         end;
    try (destruct total_tax as [?|];
         cbn [bind np_isna np_add np_isclose rational rational_isna rational_add
              rational_isclose negb fst snd option_map]);
    repeat match goal with
           | |- context [isclose ?a ?b] =>
               destruct (isclose a b); cbn [negb]
           end;
    try reflexivity; eexists; split; reflexivity.
Qed.

Lemma for_rows_rational
    (f : nat -> Row -> result (option fstring))
    (g : nat -> np_row rational -> result (option (np_message rational)))
    (df : DataFrame) (n start : nat) :
  (forall idx row, f idx row = rendered (g idx row)) ->
  for_rows (fun idx => f idx (iterrow df idx)) start n =
  rendered (np_for_rows rational g start (map (iterrow df) (seq start n))).
Proof.
  intro H. revert start. induction n as [|n IH]; intro start; [reflexivity|].
  simpl. rewrite H. unfold rendered at 1 2. rewrite !bind_bind.
  apply bind_ext. intros [msg|]; cbn [bind option_map]; [reflexivity|].
  rewrite IH. reflexivity.
Qed.

Lemma for_rows_with_rational (df : DataFrame) (n start : nat) (total_tax : option Q) :
  for_rows_with (fun idx => summary_row idx (iterrow df idx)) start n total_tax =
  rendered (np_for_rows_with rational (np_summary_row rational) start
              (map (iterrow df) (seq start n)) (option_map Some total_tax)).
Proof.
  revert start total_tax. induction n as [|n IH]; intros start total_tax;
    [reflexivity|].
  simpl.
  pose proof (summary_row_rational start (iterrow df start) total_tax) as H.
  destruct (summary_row start (iterrow df start) total_tax) as [[t msg]|e].
  - destruct H as [msg' [-> <-]]. cbn [bind].
    destruct msg' as [m|]; cbn [option_map]; [reflexivity|]. apply IH.
  - rewrite H. reflexivity.
Qed.

(** With exact arithmetic the three loops over scalars, run on the rows of
    the coerced frames, answer what the loops over the frames answer. *)
Lemma relations_rational (invoice_df line_items_df total_summary_df : DataFrame) :
  relations invoice_df line_items_df total_summary_df =
  (r <- np_relations rational (iterrows invoice_df) (iterrows line_items_df)
                     (iterrows total_summary_df) ;;
   Ok (fst r, map render (snd r))).
Proof.
  unfold relations, np_relations, invoice_relations, line_item_relations,
    summary_relations, np_invoice_relations, np_line_item_relations,
    np_summary_relations, iterrows.
  rewrite (for_rows_rational invoice_row (np_invoice_row rational) invoice_df
             (nrows invoice_df) 0 invoice_row_rational).
  unfold rendered at 1. rewrite !bind_bind. apply bind_ext.
  intros [msg|]; cbn [bind option_map fst snd]; [reflexivity|].
  rewrite (for_rows_rational line_item_row (np_line_item_row rational) line_items_df
             (nrows line_items_df) 0 line_item_row_rational).
  unfold rendered at 1. rewrite !bind_bind. apply bind_ext.
  intros [msg|]; cbn [bind option_map fst snd]; [reflexivity|].
  rewrite (for_rows_with_rational total_summary_df (nrows total_summary_df) 0 None).
  unfold rendered at 1. cbn [option_map]. rewrite !bind_bind. apply bind_ext.
  intros [msg|]; reflexivity.
Qed.

Local Open Scope Q_scope.

(** * Further properties of the stages *)

(** ** Step 1: line items and summary *)

(** X2: over a line-item frame with its twelve columns, a row satisfies the
    code's condition exactly when one tax group and one value group are
    present; the block passes exactly when every row does, and otherwise
    answers the message that carries only the index of the first failing
    row. *)
Theorem line_item_presence (df : DataFrame) :
  wf_frame df = true -> has_columns df relation_cols_items = true ->
  (forall i,
     item_row_valid df i = true <->
     ((present df i "tax_amount" = true \/ present df i "tax_rate" = true \/
       (present df i "sgst_amount" = true /\ present df i "cgst_amount" = true) \/
       present df i "igst_amount" = true \/
       (present df i "sgst_rate" = true /\ present df i "cgst_rate" = true) \/
       present df i "igst_rate" = true) /\
      (present df i "final_amount" = true \/ present df i "taxable_value" = true \/
       (present df i "rate_per_item_after_discount" = true /\
        present df i "quantity" = true)))) /\
  (check_line_items_df df = Ok None <->
   forall i, (i < nrows df)%nat -> item_row_valid df i = true) /\
  (forall i,
     is_first_violation (item_row_valid df) (nrows df) i ->
     check_line_items_df df =
     Ok (Some [Lit "Missing required values in line_items_df at row "; Idx i])).
Proof.
  intros Hwf Hc. split; [|split].
  - intro i. unfold item_row_valid.
    rewrite !andb_true_iff, !orb_true_iff, !andb_true_iff. tauto.
  - rewrite (check_line_items_df_spec df Hwf Hc).
    rewrite <- first_violation_none_iff.
    destruct (first_violation (item_row_valid df) (nrows df)); simpl;
      split; intro H; try reflexivity; discriminate.
  - intros i Hi. rewrite (check_line_items_df_spec df Hwf Hc).
    rewrite (is_first_violation_eq _ _ _ Hi). reflexivity.
Qed.

Lemma line_item_presence_witness :
  check_line_items_df items_second_invalid =
  Ok (Some [Lit "Missing required values in line_items_df at row "; Idx 1]).
Proof.
  apply (proj2 (proj2 (line_item_presence items_second_invalid eq_refl eq_refl))).
  split; [simpl; lia|]. split; [reflexivity|].
  intros j Hj. destruct j; [reflexivity|lia].
Defined.

(** X3: over a summary frame with its six presence columns, a row satisfies
    the code's condition exactly when a total value and a total tax in one of
    its forms are present; the block passes exactly when every row does, and
    otherwise answers the message with the index of the first failing row. *)
Theorem summary_presence (df : DataFrame) :
  wf_frame df = true -> has_columns df summary_cols = true ->
  (forall i,
     summary_row_valid df i = true <->
     ((present df i "total_taxable_value" = true \/
       present df i "total_invoice_value" = true) /\
      (present df i "total_tax_amount" = true \/
       present df i "total_igst_amount" = true \/
       (present df i "total_cgst_amount" = true /\
        present df i "total_sgst_amount" = true)))) /\
  (check_total_summary_df df = Ok None <->
   forall i, (i < nrows df)%nat -> summary_row_valid df i = true) /\
  (forall i,
     is_first_violation (summary_row_valid df) (nrows df) i ->
     check_total_summary_df df =
     Ok (Some [Lit "Missing required values in total_summary_df at row "; Idx i])).
Proof.
  intros Hwf Hc. split; [|split].
  - intro i. unfold summary_row_valid.
    rewrite !andb_true_iff, !orb_true_iff, !andb_true_iff. tauto.
  - rewrite (check_total_summary_df_spec df Hwf Hc).
    rewrite <- first_violation_none_iff.
    destruct (first_violation (summary_row_valid df) (nrows df)); simpl;
      split; intro H; try reflexivity; discriminate.
  - intros i Hi. rewrite (check_total_summary_df_spec df Hwf Hc).
    rewrite (is_first_violation_eq _ _ _ Hi). reflexivity.
Qed.

Lemma summary_presence_witness :
  check_total_summary_df
    (frame_of_records [summary_record (CNum 100) CNone CNone CNone CNone (CNum 118)]) =
  Ok (Some [Lit "Missing required values in total_summary_df at row "; Idx 0]).
Proof.
  apply (proj2 (proj2 (summary_presence
           (frame_of_records
              [summary_record (CNum 100) CNone CNone CNone CNone (CNum 118)])
           eq_refl eq_refl))).
  split; [simpl; lia|]. split; [reflexivity|].
  intros j Hj. lia.
Defined.

(** ** Step 1: a column that is not there *)

(** Reads the columns of a condition one by one until the missing one. *)
Ltac until_missing :=
  unfold first_missing; cbn [find];
  repeat match goal with
         | |- context [negb (has_column ?df ?c)] =>
             let E := fresh "E" in
             let s := fresh "s" in
             let Hs := fresh "Hs" in
             destruct (has_column df c) eqn:E; cbn [negb];
             [ destruct (has_column_getitem df c E) as [s Hs];
               rewrite (col_notna_ok df c s Hs); cbn [bind]
             | intros [= <-]; unfold col_notna;
               rewrite (has_column_false df c E); reflexivity ]
         end;
  try discriminate.

Lemma check_invoice_df_missing (df : DataFrame) (col : string) :
  first_missing df header_cols = Some col ->
  check_invoice_df df = Raise (KeyError col).
Proof. unfold check_invoice_df, header_cols. until_missing. Qed.

Lemma check_line_items_df_missing (df : DataFrame) (col : string) :
  first_missing df item_presence_cols = Some col ->
  check_line_items_df df = Raise (KeyError col).
Proof. unfold check_line_items_df, item_presence_cols. until_missing. Qed.

Lemma check_total_summary_df_missing (df : DataFrame) (col : string) :
  first_missing df summary_cols = Some col ->
  check_total_summary_df df = Raise (KeyError col).
Proof. unfold check_total_summary_df, summary_cols. until_missing. Qed.

Lemma first_missing_none (df : DataFrame) (names : list string) :
  first_missing df names = None <-> has_columns df names = true.
Proof.
  unfold first_missing, has_columns. induction names as [|c names IH]; simpl.
  - tauto.
  - destruct (has_column df c); simpl; [exact IH|].
    split; discriminate.
Qed.

Lemma first_missing_some (df : DataFrame) (names : list string) (col : string) :
  first_missing df names = Some col -> In col names /\ has_column df col = false.
Proof.
  unfold first_missing. intro H. apply find_some in H. destruct H as [Hin H].
  split; [exact Hin|]. apply negb_true_iff. exact H.
Qed.

Local Open Scope nat_scope.

(** X4: a column that a Step 1 condition reads and the frame does not have
    makes the whole call raise [KeyError] for the first such column in
    reading order, and no verdict is returned: in the header, or in the line
    items once the header passes, or in the summary once both pass.  A
    header that fails its condition is reported before any later frame is
    read. *)
Theorem missing_column_raises (parse_date : cell -> option Timestamp)
    (parse_number : cell -> option (option Q))
    (h : heap) (r1 r2 r3 : ref) (a b c : DataFrame) :
  nth_error h r1 = Some a -> nth_error h r2 = Some b -> nth_error h r3 = Some c ->
  let invoice_df := standardize_nulls a in
  let line_items_df := standardize_nulls b in
  let total_summary_df := standardize_nulls c in
  let outcome := fst (validate_invoice_data parse_date parse_number r1 r2 r3 h) in
  (forall col, first_missing invoice_df header_cols = Some col ->
               outcome = Raise (KeyError col)) /\
  (check_invoice_df invoice_df = Ok None ->
   forall col, first_missing line_items_df item_presence_cols = Some col ->
               outcome = Raise (KeyError col)) /\
  (check_invoice_df invoice_df = Ok None ->
   check_line_items_df line_items_df = Ok None ->
   forall col, first_missing total_summary_df summary_cols = Some col ->
               outcome = Raise (KeyError col)) /\
  (forall msg, check_invoice_df invoice_df = Ok (Some msg) ->
               outcome = Ok (false, "Step 1: Missing Values", msg)).
Proof.
  intros H1 H2 H3 invoice_df line_items_df total_summary_df outcome.
  assert (Hout : outcome = fst (engine parse_date parse_number a b c)).
  { unfold outcome.
    rewrite (validate_run parse_date parse_number h r1 r2 r3 a b c H1 H2 H3).
    reflexivity. }
  rewrite Hout. unfold engine, check_missing_values.
  fold invoice_df line_items_df total_summary_df.
  split; [|split; [|split]].
  - intros col H. rewrite (check_invoice_df_missing _ _ H). reflexivity.
  - intros Hi col H. rewrite Hi. cbn [bind].
    rewrite (check_line_items_df_missing _ _ H). reflexivity.
  - intros Hi Hl col H. rewrite Hi. cbn [bind]. rewrite Hl. cbn [bind].
    rewrite (check_total_summary_df_missing _ _ H). reflexivity.
  - intros msg H. rewrite H. reflexivity.
Qed.

Lemma missing_column_raises_witness :
  fst (validate_invoice_data dby_date decimal_number 0 1 2
         [header_118; no_items; summary_118]) = Raise (KeyError "tax_amount").
Proof.
  apply (proj1 (proj2 (missing_column_raises dby_date decimal_number
           [header_118; no_items; summary_118] 0 1 2
           header_118 no_items summary_118 eq_refl eq_refl eq_refl))).
  - reflexivity.
  - reflexivity.
Defined.

(** ** Step 2 *)

Lemma mapM_map {A B} (f : A -> result B) (g : A -> B) (l : list A) :
  (forall a, In a l -> f a = Ok (g a)) -> mapM f l = Ok (map g l).
Proof.
  induction l as [|a l IH]; intro H; simpl; [reflexivity|].
  rewrite (H a) by (left; reflexivity). simpl.
  rewrite IH by (intros x Hx; apply H; right; exact Hx). reflexivity.
Qed.

Lemma mapM_ok_inv {A B} (f : A -> result B) (l : list A) (l' : list B) :
  mapM f l = Ok l' ->
  List.length l' = List.length l /\ forall a, In a l -> exists b, f a = Ok b.
Proof.
  revert l'. induction l as [|a l IH]; intros l' H; simpl in H.
  - injection H as <-. split; [reflexivity|]. intros x [].
  - destruct (f a) as [b|e] eqn:E; simpl in H; [|discriminate].
    destruct (mapM f l) as [bs|e] eqn:E'; simpl in H; [|discriminate].
    injection H as <-. destruct (IH bs eq_refl) as [Hlen Hall].
    split; [simpl; f_equal; exact Hlen|].
    intros x [<-|Hx]; [exists b; exact E|apply Hall; exact Hx].
Qed.

Lemma mapM_ok_iff {A B} (f : A -> result B) (l : list A) :
  (exists l', mapM f l = Ok l') <-> forall a, In a l -> exists b, f a = Ok b.
Proof.
  split.
  - intros [l' H]. apply (mapM_ok_inv f l l' H).
  - induction l as [|a l IH]; intro H; simpl; [eauto|].
    destruct (H a (or_introl eq_refl)) as [b Hb]. rewrite Hb. simpl.
    destruct IH as [bs Hbs]; [intros x Hx; apply H; right; exact Hx|].
    rewrite Hbs. simpl. eauto.
Qed.

Lemma all_isna (s : Series) :
  all (map isna s) = true -> forall c, In c s -> isna c = true.
Proof.
  unfold all. rewrite forallb_forall. intros H c Hc. apply H.
  apply in_map. exact Hc.
Qed.

Lemma null_converts (parse_number : cell -> option (option Q)) (c : cell) :
  isna c = true -> to_numeric_cell parse_number c = Ok CNaN.
Proof. destruct c; simpl; intro H; try discriminate; reflexivity. Qed.

(** The check of one column passes exactly when each of its cells converts. *)
Lemma column_check_iff (parse_number : cell -> option (option Q)) (s : Series) :
  (if negb (all (map isna s))
   then _ <- to_numeric parse_number (dropna s) ;; Ok tt
   else Ok tt) = Ok tt <->
  forall c, In c s -> exists c', to_numeric_cell parse_number c = Ok c'.
Proof.
  destruct (all (map isna s)) eqn:E; simpl.
  - split; [|reflexivity]. intros _ c Hc.
    exists CNaN. apply null_converts. apply (all_isna s E c Hc).
  - unfold to_numeric, dropna.
    destruct (mapM (to_numeric_cell parse_number) (filter notna s)) as [l|e] eqn:M;
      simpl.
    + split; [|reflexivity]. intros _ c Hc.
      destruct (isna c) eqn:Hn; [exists CNaN; apply null_converts; exact Hn|].
      apply (proj2 (mapM_ok_inv _ _ _ M)). apply filter_In.
      split; [exact Hc|]. unfold notna. rewrite Hn. reflexivity.
    + split; [discriminate|]. intro H. exfalso.
      assert (Hex : exists l', mapM (to_numeric_cell parse_number)
                                    (filter notna s) = Ok l').
      { apply mapM_ok_iff. intros x Hx. apply filter_In in Hx. apply H, Hx. }
      destruct Hex as [l' Hl']. congruence.
Qed.

Lemma check_numeric_iff (parse_number : cell -> option (option Q))
    (df : DataFrame) (names : list string) :
  check_numeric parse_number df names = Ok tt <->
  numeric_columns_convert parse_number df names.
Proof.
  unfold numeric_columns_convert.
  induction names as [|col names IH]; simpl.
  - split; [intros _ col []|reflexivity].
  - destruct (getitem df col) as [s|e] eqn:G; simpl.
    + pose proof (column_check_iff parse_number s) as Hcol.
      destruct (if negb (all (map isna s))
                then _ <- to_numeric parse_number (dropna s) ;; Ok tt
                else Ok tt) as [[]|e] eqn:C; simpl.
      * rewrite IH. split.
        -- intros H x [<-|Hx]; [|apply H; exact Hx].
           exists s. split; [exact G|]. apply Hcol. reflexivity.
        -- intros H x Hx. apply H. right. exact Hx.
      * split; [discriminate|]. intro H. exfalso.
        destruct (H col (or_introl eq_refl)) as [s' [G' Hs']].
        rewrite G in G'. injection G' as <-.
        apply Hcol in Hs'. discriminate.
    + split; [discriminate|]. intro H.
      destruct (H col (or_introl eq_refl)) as [s' [G' _]]. congruence.
Qed.

Lemma to_datetime_ok_iff (parse_date : cell -> option Timestamp) (s : Series) :
  (exists d, to_datetime parse_date s = Ok d) <->
  forall c, In c s -> isna c = false -> exists t, parse_date c = Some t.
Proof.
  unfold to_datetime. split.
  - intros [d H] c Hc Hn.
    destruct (proj2 (mapM_ok_inv _ _ _ H) c Hc) as [b Hb].
    simpl in Hb. rewrite Hn in Hb.
    destruct (parse_date c) as [t|]; [eauto|discriminate].
  - intros H. unfold Series. apply (proj2 (mapM_ok_iff _ s)). intros c Hc. simpl.
    destruct (isna c) eqn:Hn; [eauto|].
    destruct (H c Hc Hn) as [t Ht]. rewrite Ht. eauto.
Qed.

Lemma getitem_setitem (df : DataFrame) (k col : string) (v : Series) :
  getitem (setitem df k v) col = if String.eqb col k then Ok v else getitem df col.
Proof.
  unfold getitem, setitem. simpl cols. rewrite assoc_assoc_set.
  destruct (String.eqb col k); reflexivity.
Qed.

Lemma numeric_columns_convert_setitem (parse_number : cell -> option (option Q))
    (df : DataFrame) (k : string) (v : Series) (names : list string) :
  ~ In k names ->
  (numeric_columns_convert parse_number (setitem df k v) names <->
   numeric_columns_convert parse_number df names).
Proof.
  intro Hk. unfold numeric_columns_convert.
  split; intros H col Hcol; specialize (H col Hcol);
    rewrite getitem_setitem in *;
    (destruct (String.eqb col k) eqn:E;
     [apply String.eqb_eq in E; subst; contradiction|exact H]).
Qed.

Lemma invoice_date_not_numeric : ~ In "invoice_date" numeric_cols_invoice.
Proof.
  simpl. intros [H|[H|[H|[H|[H|[]]]]]]; discriminate.
Qed.

Lemma check_data_types_pass_iff (parse_date : cell -> option Timestamp)
    (parse_number : cell -> option (option Q))
    (invoice_df line_items_df total_summary_df : DataFrame) :
  fst (check_data_types parse_date parse_number
         invoice_df line_items_df total_summary_df) = (true, []) <->
  dates_parse parse_date invoice_df /\
  numeric_columns_convert parse_number invoice_df numeric_cols_invoice /\
  numeric_columns_convert parse_number line_items_df numeric_cols_items /\
  numeric_columns_convert parse_number total_summary_df numeric_cols_summary.
Proof.
  unfold check_data_types, data_types_body, dates_parse.
  destruct (getitem invoice_df "invoice_date") as [s|e] eqn:G; cbn [bind].
  - pose proof (to_datetime_ok_iff parse_date s) as Hd.
    destruct (to_datetime parse_date s) as [d|e] eqn:T.
    + rewrite <- (numeric_columns_convert_setitem parse_number invoice_df
                    "invoice_date" d numeric_cols_invoice invoice_date_not_numeric).
      rewrite <- !check_numeric_iff.
      destruct (check_numeric parse_number (setitem invoice_df "invoice_date" d)
                  numeric_cols_invoice) as [[]|e1]; cbn [bind fst].
      * destruct (check_numeric parse_number line_items_df numeric_cols_items)
          as [[]|e2]; cbn [bind fst].
        -- destruct (check_numeric parse_number total_summary_df
                       numeric_cols_summary) as [[]|e3]; cbn [bind fst].
           ++ split; [|reflexivity]. intros _.
              split; [|repeat split]. exists s. split; [reflexivity|].
              apply Hd. eauto.
           ++ split; [discriminate|]. intros [_ [_ [_ H]]]. discriminate.
        -- split; [discriminate|]. intros [_ [_ [H _]]]. discriminate.
      * split; [discriminate|]. intros [_ [H _]]. discriminate.
    + cbn [fst]. split; [discriminate|].
      intros [[s' [Hs' Hp]] _]. injection Hs' as <-.
      apply Hd in Hp. destruct Hp as [d Hd']. discriminate.
  - cbn [fst]. split; [discriminate|]. intros [[s' [Hs' _]] _]. discriminate.
Qed.

Lemma check_data_types_answer (parse_date : cell -> option Timestamp)
    (parse_number : cell -> option (option Q))
    (invoice_df line_items_df total_summary_df : DataFrame) :
  fst (check_data_types parse_date parse_number
         invoice_df line_items_df total_summary_df) = (true, []) \/
  exists e,
    fst (check_data_types parse_date parse_number
           invoice_df line_items_df total_summary_df) =
    (false, [Lit "Data type conversion failed: "; Exc e]).
Proof.
  unfold check_data_types.
  destruct (data_types_body parse_date parse_number invoice_df line_items_df
              total_summary_df) as [[d|e] a']; cbn [fst]; [left|right; exists e];
    reflexivity.
Qed.

(** X5: Step 2 passes exactly when the [invoice_date] column exists and each
    of its non-null cells parses, and every listed numeric column of the
    three frames exists and each of its cells converts; otherwise it does
    not raise but answers "Data type conversion failed: " followed by the
    text of the exception. *)
Theorem data_types_pass_iff (parse_date : cell -> option Timestamp)
    (parse_number : cell -> option (option Q))
    (invoice_df line_items_df total_summary_df : DataFrame) :
  (fst (check_data_types parse_date parse_number
          invoice_df line_items_df total_summary_df) = (true, []) <->
   (exists dates,
      getitem invoice_df "invoice_date" = Ok dates /\
      forall c, In c dates -> isna c = false -> exists t, parse_date c = Some t) /\
   numeric_columns_convert parse_number invoice_df
     ["place_of_supply"; "place_of_origin"; "taxable_value"; "invoice_value";
      "tax_amount"] /\
   numeric_columns_convert parse_number line_items_df
     ["quantity"; "rate_per_item_after_discount"; "taxable_value"; "sgst_amount";
      "cgst_amount"; "igst_amount"; "sgst_rate"; "cgst_rate"; "igst_rate";
      "tax_amount"; "tax_rate"; "final_amount"] /\
   numeric_columns_convert parse_number total_summary_df
     ["total_taxable_value"; "total_cgst_amount"; "total_sgst_amount";
      "total_igst_amount"; "total_tax_amount"; "total_invoice_value";
      "rounding_adjustment"]) /\
  (fst (check_data_types parse_date parse_number
          invoice_df line_items_df total_summary_df) <> (true, []) ->
   exists e,
     fst (check_data_types parse_date parse_number
            invoice_df line_items_df total_summary_df) =
     (false, [Lit "Data type conversion failed: "; Exc e])).
Proof.
  split.
  - apply check_data_types_pass_iff.
  - intro H.
    destruct (check_data_types_answer parse_date parse_number invoice_df
                line_items_df total_summary_df) as [Hp|He];
      [contradiction|exact He].
Qed.

Lemma data_types_pass_iff_witness :
  exists e,
    fst (check_data_types dby_date decimal_number
           header_bad_date items_180 summary_118) =
    (false, [Lit "Data type conversion failed: "; Exc e]).
Proof.
  apply (proj2 (data_types_pass_iff dby_date decimal_number
                  header_bad_date items_180 summary_118)).
  vm_compute. discriminate.
Defined.

Lemma for_rows_ext (body body' : nat -> result (option fstring)) (n start : nat) :
  (forall j, start <= j < start + n -> body j = body' j) ->
  for_rows body start n = for_rows body' start n.
Proof.
  revert start. induction n as [|n IH]; intros start H; simpl; [reflexivity|].
  rewrite (H start) by lia. destruct (body' start) as [[m|]|e]; simpl; try reflexivity.
  apply IH. intros j Hj. apply H. lia.
Qed.

Lemma invoice_row_ext (idx : nat) (row row' : Row) :
  (forall col, In col relation_cols_invoice -> row col = row' col) ->
  invoice_row idx row = invoice_row idx row'.
Proof.
  intro H. unfold invoice_row, when_present.
  rewrite (H "invoice_value"), (H "taxable_value"), (H "tax_amount");
    [reflexivity|simpl; tauto..].
Qed.

Lemma data_types_frame (parse_date : cell -> option Timestamp)
    (parse_number : cell -> option (option Q))
    (invoice_df line_items_df total_summary_df : DataFrame) :
  snd (check_data_types parse_date parse_number
         invoice_df line_items_df total_summary_df) =
  match (s <- getitem invoice_df "invoice_date" ;; to_datetime parse_date s) with
  | Ok dates => setitem invoice_df "invoice_date" dates
  | Raise _ => invoice_df
  end.
Proof.
  unfold check_data_types, data_types_body.
  destruct (s <- getitem invoice_df "invoice_date" ;; to_datetime parse_date s)
    as [d|e]; [|reflexivity].
  destruct (_ <- check_numeric parse_number (setitem invoice_df "invoice_date" d)
                   numeric_cols_invoice ;;
            _ <- check_numeric parse_number line_items_df numeric_cols_items ;;
            _ <- check_numeric parse_number total_summary_df numeric_cols_summary ;;
            Ok (setitem invoice_df "invoice_date" d)); reflexivity.
Qed.

(** X6: the only thing Step 2 changes is the [invoice_date] column of the
    local invoice frame, which it overwrites with the parsed dates when all
    of them parse (whatever the numeric checks then answer) and leaves alone
    when the date conversion raises; the row count and every other column
    stay, and Step 3 answers the same on the frame before and after. *)
Theorem data_types_effect (parse_date : cell -> option Timestamp)
    (parse_number : cell -> option (option Q))
    (invoice_df line_items_df total_summary_df : DataFrame) :
  let df_after := snd (check_data_types parse_date parse_number
                      invoice_df line_items_df total_summary_df) in
  nrows df_after = nrows invoice_df /\
  (forall col, col <> "invoice_date" -> getitem df_after col = getitem invoice_df col) /\
  (forall dates,
     getitem invoice_df "invoice_date" = Ok dates ->
     (forall c, In c dates -> isna c = false -> exists t, parse_date c = Some t) ->
     getitem df_after "invoice_date" =
     Ok (map (fun c => if isna c then CNaN
                       else match parse_date c with
                            | Some t => CDate t
                            | None => CNaN
                            end) dates)) /\
  (forall dates c,
     getitem invoice_df "invoice_date" = Ok dates ->
     In c dates -> isna c = false -> parse_date c = None ->
     df_after = invoice_df) /\
  fst (check_relations parse_number df_after line_items_df total_summary_df) =
  fst (check_relations parse_number invoice_df line_items_df total_summary_df).
Proof.
  intro df_after.
  assert (Hdf : df_after =
            match (s <- getitem invoice_df "invoice_date" ;;
                   to_datetime parse_date s) with
            | Ok dates => setitem invoice_df "invoice_date" dates
            | Raise _ => invoice_df
            end) by apply data_types_frame.
  clearbody df_after.
  assert (Hrows : nrows df_after = nrows invoice_df).
  { rewrite Hdf.
    destruct (s <- getitem invoice_df "invoice_date" ;; to_datetime parse_date s);
      reflexivity. }
  assert (Hcols : forall col, col <> "invoice_date" ->
                              getitem df_after col = getitem invoice_df col).
  { intros col Hne. rewrite Hdf.
    destruct (s <- getitem invoice_df "invoice_date" ;; to_datetime parse_date s);
      [|reflexivity].
    rewrite getitem_setitem.
    destruct (String.eqb col "invoice_date") eqn:E; [|reflexivity].
    apply String.eqb_eq in E. contradiction. }
  split; [exact Hrows|]. split; [exact Hcols|]. split; [|split].
  - intros dates Hd Hp. rewrite Hdf, Hd. cbn [bind]. unfold to_datetime.
    rewrite (mapM_map _ (fun c => if isna c then CNaN
                                  else match parse_date c with
                                       | Some t => CDate t
                                       | None => CNaN
                                       end)).
    + rewrite getitem_setitem. reflexivity.
    + intros c Hc. simpl. destruct (isna c) eqn:Hn; [reflexivity|].
      destruct (Hp c Hc Hn) as [t ->]. reflexivity.
  - intros dates c Hd Hc Hn Hnone. rewrite Hdf, Hd. cbn [bind].
    destruct (to_datetime parse_date dates) as [d|e] eqn:T; [|reflexivity].
    exfalso.
    assert (Hex : exists d', to_datetime parse_date dates = Ok d') by eauto.
    destruct (proj1 (to_datetime_ok_iff parse_date dates) Hex c Hc Hn) as [t Ht].
    congruence.
  - destruct (check_relations_reads parse_number df_after line_items_df
                total_summary_df) as [-> Hread].
    destruct (check_relations_reads parse_number invoice_df line_items_df
                total_summary_df) as [-> _].
    unfold relations.
    replace (invoice_relations (coerce_columns parse_number df_after
                                  relation_cols_invoice))
      with (invoice_relations (coerce_columns parse_number invoice_df
                                 relation_cols_invoice)); [reflexivity|].
    unfold invoice_relations. rewrite !nrows_coerce_columns, Hrows.
    apply for_rows_ext. intros j _. apply invoice_row_ext. intros col Hin.
    rewrite !(Hread _ _ _ _ Hin). unfold cell_at. rewrite Hcols; [reflexivity|].
    intros ->. simpl in Hin.
    destruct Hin as [H|[H|[H|[]]]]; discriminate.
Qed.

Lemma data_types_effect_witness :
  getitem (snd (check_data_types dby_date decimal_number
                  header_118 items_180 summary_118)) "invoice_date" =
    Ok [CDate (mkTimestamp 2024 1 5)] /\
  snd (check_data_types dby_date decimal_number
         header_bad_date items_180 summary_118) = header_bad_date.
Proof.
  destruct (data_types_effect dby_date decimal_number
              header_118 items_180 summary_118) as [_ [_ [Hdates _]]].
  destruct (data_types_effect dby_date decimal_number
              header_bad_date items_180 summary_118) as [_ [_ [_ [Hkeep _]]]].
  split.
  - apply (Hdates [CStr "05-Jan-24"] eq_refl).
    intros c [<-|[]] _. exists (mkTimestamp 2024 1 5). reflexivity.
  - apply (Hkeep [CStr "2024-01-05"] (CStr "2024-01-05") eq_refl).
    + left. reflexivity.
    + reflexivity.
    + reflexivity.
Defined.

Lemma check_numeric_app (parse_number : cell -> option (option Q))
    (df : DataFrame) (l1 l2 : list string) :
  check_numeric parse_number df (l1 ++ l2) =
  (_ <- check_numeric parse_number df l1 ;; check_numeric parse_number df l2).
Proof.
  induction l1 as [|col l1 IH]; simpl; [reflexivity|].
  destruct (getitem df col) as [s|e]; simpl; [|reflexivity].
  destruct (if negb (all (map isna s))
            then _ <- to_numeric parse_number (dropna s) ;; Ok tt
            else Ok tt) as [[]|e]; simpl; [exact IH|reflexivity].
Qed.

Lemma check_data_types_without_rounding (parse_date : cell -> option Timestamp)
    (parse_number : cell -> option (option Q))
    (invoice_df line_items_df total_summary_df : DataFrame) :
  dates_parse parse_date invoice_df ->
  numeric_columns_convert parse_number invoice_df numeric_cols_invoice ->
  numeric_columns_convert parse_number line_items_df numeric_cols_items ->
  numeric_columns_convert parse_number total_summary_df
    ["total_taxable_value"; "total_cgst_amount"; "total_sgst_amount";
     "total_igst_amount"; "total_tax_amount"; "total_invoice_value"] ->
  has_column total_summary_df "rounding_adjustment" = false ->
  fst (check_data_types parse_date parse_number
         invoice_df line_items_df total_summary_df) =
  (false, [Lit "Data type conversion failed: ";
           Exc (KeyError "rounding_adjustment")]).
Proof.
  intros [s [Hs Hp]] Hinv Hitems Hsumm Hmiss.
  unfold check_data_types, data_types_body. rewrite Hs. cbn [bind].
  destruct (proj2 (to_datetime_ok_iff parse_date s) Hp) as [d Hd]. rewrite Hd.
  apply (numeric_columns_convert_setitem parse_number invoice_df "invoice_date" d
           numeric_cols_invoice invoice_date_not_numeric) in Hinv.
  apply check_numeric_iff in Hinv, Hitems, Hsumm.
  rewrite Hinv, Hitems. cbn [bind].
  change numeric_cols_summary
    with (["total_taxable_value"; "total_cgst_amount"; "total_sgst_amount";
           "total_igst_amount"; "total_tax_amount"; "total_invoice_value"]
          ++ ["rounding_adjustment"]).
  rewrite check_numeric_app, Hsumm. cbn [bind check_numeric].
  rewrite (has_column_false _ _ Hmiss). reflexivity.
Qed.

Lemma check_total_summary_df_rounding (df : DataFrame) (s : Series) :
  check_total_summary_df (setitem df "rounding_adjustment" s) =
  check_total_summary_df df.
Proof.
  unfold check_total_summary_df, col_notna.
  rewrite !getitem_setitem. reflexivity.
Qed.

(** X7: Step 1 does not look at [rounding_adjustment] (whatever is assigned
    to that column, its answer is the same), but Step 2 requires the column.
    When Step 1 passes, the dates parse and every other numeric column
    converts, a summary frame without the column makes the call return the
    Step 2 failure whose message carries the [KeyError] for it: nothing is
    raised, and Step 3 is not reached. *)
Theorem rounding_adjustment_required (parse_date : cell -> option Timestamp)
    (parse_number : cell -> option (option Q))
    (h : heap) (r1 r2 r3 : ref) (a b c : DataFrame) :
  nth_error h r1 = Some a -> nth_error h r2 = Some b -> nth_error h r3 = Some c ->
  let invoice_df := standardize_nulls a in
  let line_items_df := standardize_nulls b in
  let total_summary_df := standardize_nulls c in
  (forall s,
     check_missing_values invoice_df line_items_df
       (setitem total_summary_df "rounding_adjustment" s) =
     check_missing_values invoice_df line_items_df total_summary_df) /\
  (has_column total_summary_df "rounding_adjustment" = false ->
   check_missing_values invoice_df line_items_df total_summary_df = Ok (true, []) ->
   dates_parse parse_date invoice_df ->
   numeric_columns_convert parse_number invoice_df numeric_cols_invoice ->
   numeric_columns_convert parse_number line_items_df numeric_cols_items ->
   numeric_columns_convert parse_number total_summary_df
     ["total_taxable_value"; "total_cgst_amount"; "total_sgst_amount";
      "total_igst_amount"; "total_tax_amount"; "total_invoice_value"] ->
   fst (validate_invoice_data parse_date parse_number r1 r2 r3 h) =
   Ok (false, "Step 2: Data Types",
       [Lit "Data type conversion failed: ";
        Exc (KeyError "rounding_adjustment")])).
Proof.
  intros H1 H2 H3 invoice_df line_items_df total_summary_df. split.
  - intro s. unfold check_missing_values.
    rewrite check_total_summary_df_rounding. reflexivity.
  - intros Hmiss Hstep1 Hdates Hinv Hitems Hsumm.
    rewrite (validate_run parse_date parse_number h r1 r2 r3 a b c H1 H2 H3).
    cbn [fst]. unfold engine.
    fold invoice_df line_items_df total_summary_df. rewrite Hstep1.
    pose proof (check_data_types_without_rounding parse_date parse_number
                  invoice_df line_items_df total_summary_df
                  Hdates Hinv Hitems Hsumm Hmiss) as Hstep2.
    destruct (check_data_types parse_date parse_number invoice_df line_items_df
                total_summary_df) as [[passed msg] a1].
    cbn [fst] in Hstep2. injection Hstep2 as -> ->. reflexivity.
Qed.

Lemma rounding_adjustment_required_witness :
  fst (validate_invoice_data dby_date decimal_number 0 1 2
         [header_118; items_180; summary_no_rounding]) =
  Ok (false, "Step 2: Data Types",
      [Lit "Data type conversion failed: "; Exc (KeyError "rounding_adjustment")]).
Proof.
  apply (proj2 (rounding_adjustment_required dby_date decimal_number
                  [header_118; items_180; summary_no_rounding] 0 1 2
                  header_118 items_180 summary_no_rounding
                  eq_refl eq_refl eq_refl)).
  - reflexivity.
  - reflexivity.
  - exists [CStr "05-Jan-24"]. split; [reflexivity|].
    intros c [<-|[]] _. exists (mkTimestamp 2024 1 5). reflexivity.
  - apply check_numeric_iff. reflexivity.
  - apply check_numeric_iff. reflexivity.
  - apply check_numeric_iff. reflexivity.
Defined.

(** X8: what Step 2 accepts, Step 3 keeps.  When the numeric check of a
    frame passes, the strict conversion of each checked column succeeds and
    gives exactly the column that the coercing conversion of Step 3
    produces: [errors='coerce'] discards nothing there. *)
Theorem coercion_after_check (parse_number : cell -> option (option Q))
    (df : DataFrame) (names : list string) (col : string) (s : Series) :
  check_numeric parse_number df names = Ok tt ->
  In col names -> getitem df col = Ok s ->
  to_numeric parse_number s = Ok (to_numeric_coerce parse_number s) /\
  getitem (coerce_columns parse_number df names) col =
    Ok (to_numeric_coerce parse_number s).
Proof.
  intros Hcheck Hin Hs. apply check_numeric_iff in Hcheck.
  destruct (Hcheck col Hin) as [s' [Hs' Hconv]].
  rewrite Hs in Hs'. injection Hs' as <-. split.
  - unfold to_numeric, to_numeric_coerce. apply mapM_map.
    intros c Hc. destruct (Hconv c Hc) as [c' ->]. reflexivity.
  - rewrite getitem_coerce_columns, Hs. cbn [bind].
    replace (existsb (String.eqb col) names) with true; [reflexivity|].
    symmetry. apply existsb_exists. exists col.
    split; [exact Hin|apply String.eqb_refl].
Qed.

Lemma coercion_after_check_witness :
  to_numeric decimal_number [CNum 100; CStr "18.5"; CNone] =
  Ok (to_numeric_coerce decimal_number [CNum 100; CStr "18.5"; CNone]).
Proof.
  apply (coercion_after_check decimal_number
           (mkDF 3 [("tax_amount", [CNum 100; CStr "18.5"; CNone])])
           ["tax_amount"] "tax_amount" [CNum 100; CStr "18.5"; CNone]).
  - reflexivity.
  - left. reflexivity.
  - reflexivity.
Defined.

(** ** The coercion of Step 3 *)

Lemma assoc_set_keys (k : string) (v : Series) (l : list (string * Series)) :
  existsb (String.eqb k) (map fst l) = true ->
  map fst (assoc_set k v l) = map fst l.
Proof.
  induction l as [|[k' v'] l IH]; simpl; [discriminate|].
  destruct (String.eqb k k'); simpl; [reflexivity|].
  intro H. rewrite IH by exact H. reflexivity.
Qed.

Lemma assoc_set_lengths (n : nat) (k : string) (v : Series)
    (l : list (string * Series)) :
  forallb (fun kv => Nat.eqb (List.length (snd kv)) n) l = true ->
  List.length v = n ->
  forallb (fun kv => Nat.eqb (List.length (snd kv)) n) (assoc_set k v l) = true.
Proof.
  intros Hl Hv. induction l as [|[k' v'] l IH]; simpl in *.
  - rewrite Hv, Nat.eqb_refl. reflexivity.
  - apply andb_true_iff in Hl. destruct Hl as [H1 H2].
    destruct (String.eqb k k'); simpl.
    + rewrite Hv, Nat.eqb_refl, H2. reflexivity.
    + rewrite H1, (IH H2). reflexivity.
Qed.

Lemma coerced_cell_shape (parse_number : cell -> option (option Q)) (c : cell) :
  let c' := match to_numeric_cell parse_number c with
            | Ok x => x
            | Raise _ => CNaN
            end in
  c' = CNaN \/ exists q, c' = CNum q.
Proof.
  simpl. destruct (to_numeric_cell parse_number c) as [x|e] eqn:E; [|left; reflexivity].
  apply (to_numeric_cell_shape parse_number c x E).
Qed.

Lemma coerce_columns_keeps (parse_number : cell -> option (option Q))
    (names : list string) (df : DataFrame) :
  columns (coerce_columns parse_number df names) = columns df /\
  (wf_frame df = true -> wf_frame (coerce_columns parse_number df names) = true).
Proof.
  unfold coerce_columns. revert df.
  induction names as [|k names IH]; intro df; simpl; [tauto|].
  destruct (has_column df k) eqn:Hk; [|apply IH].
  destruct (has_column_getitem df k Hk) as [s Hs]. rewrite Hs.
  destruct (IH (setitem df k (to_numeric_coerce parse_number s))) as [Hc Hw].
  split.
  - rewrite Hc. unfold columns, setitem. simpl cols.
    apply assoc_set_keys. exact Hk.
  - intro Hwf. apply Hw. unfold wf_frame, setitem. simpl.
    apply assoc_set_lengths; [exact Hwf|].
    unfold to_numeric_coerce. rewrite length_map.
    apply (wf_frame_length df k s Hwf Hs).
Qed.

(** X9: the coercion that opens Step 3 keeps the row count, the column names
    and the well-formedness of a frame; it creates no column, leaves every
    column outside its list as it is, and leaves in each listed column
    numbers and NaN only. *)
Theorem coerce_columns_frame (parse_number : cell -> option (option Q))
    (df : DataFrame) (names : list string) :
  let coerced := coerce_columns parse_number df names in
  nrows coerced = nrows df /\
  columns coerced = columns df /\
  (wf_frame df = true -> wf_frame coerced = true) /\
  (forall col, has_column df col = false -> getitem coerced col = Raise (KeyError col)) /\
  (forall col, ~ In col names -> getitem coerced col = getitem df col) /\
  (forall col s c,
     In col names -> getitem coerced col = Ok s -> In c s ->
     c = CNaN \/ exists q, c = CNum q).
Proof.
  intro coerced. unfold coerced.
  destruct (coerce_columns_keeps parse_number names df) as [Hc Hw].
  split; [apply nrows_coerce_columns|]. split; [exact Hc|]. split; [exact Hw|].
  split; [|split].
  - intros col Hmiss. rewrite getitem_coerce_columns.
    rewrite (has_column_false df col Hmiss). reflexivity.
  - intros col Hnot. rewrite getitem_coerce_columns.
    replace (existsb (String.eqb col) names) with false.
    + destruct (getitem df col); reflexivity.
    + symmetry. apply not_true_is_false. intro H. apply Hnot.
      apply existsb_exists in H. destruct H as [x [Hx Heq]].
      apply String.eqb_eq in Heq. subst x. exact Hx.
  - intros col s c Hin Hs Hc'. rewrite getitem_coerce_columns in Hs.
    replace (existsb (String.eqb col) names) with true in Hs.
    + destruct (getitem df col) as [s0|e]; simpl in Hs; [|discriminate].
      injection Hs as <-. unfold to_numeric_coerce in Hc'.
      apply in_map_iff in Hc'. destruct Hc' as [c0 [<- _]].
      apply coerced_cell_shape.
    + symmetry. apply existsb_exists. exists col.
      split; [exact Hin|apply String.eqb_refl].
Qed.

Lemma coerce_columns_frame_witness :
  wf_frame (coerce_columns decimal_number
              (mkDF 2 [("tax_amount", [CStr "18"; CStr "n/a"]);
                       ("receiver_name", [CStr "Acme"; CNone])])
              ["tax_amount"; "tax_rate"]) = true /\
  getitem (coerce_columns decimal_number
             (mkDF 2 [("tax_amount", [CStr "18"; CStr "n/a"]);
                      ("receiver_name", [CStr "Acme"; CNone])])
             ["tax_amount"; "tax_rate"]) "tax_rate" = Raise (KeyError "tax_rate").
Proof.
  destruct (coerce_columns_frame decimal_number
              (mkDF 2 [("tax_amount", [CStr "18"; CStr "n/a"]);
                       ("receiver_name", [CStr "Acme"; CNone])])
              ["tax_amount"; "tax_rate"]) as [_ [_ [Hwf [Hmiss _]]]].
  split; [apply Hwf; reflexivity|apply Hmiss; reflexivity].
Defined.

(** ** Summary rows that resolve their total tax *)

Lemma summary_row_resolved_any (idx : nat) (row : Row) (previous : option Q)
    (total_tax_amount cgst sgst igst taxable invoice : option Q) (tax : Q) :
  row "total_tax_amount" = Ok total_tax_amount ->
  row "total_cgst_amount" = Ok cgst -> row "total_sgst_amount" = Ok sgst ->
  row "total_igst_amount" = Ok igst ->
  total_tax_of total_tax_amount cgst sgst igst = Some tax ->
  row "total_taxable_value" = Ok taxable ->
  row "total_invoice_value" = Ok invoice ->
  summary_row idx row previous = Ok (Some tax, summary_answer idx tax taxable invoice).
Proof.
  intros H1 H2 H3 H4 Ht H5 H6.
  destruct taxable as [t|], invoice as [v|];
    try (rewrite (summary_row_resolved idx row previous total_tax_amount cgst sgst
                    igst tax t v H1 H2 H3 H4 Ht H5 H6);
         unfold summary_answer; destruct (isclose v (t + tax)); reflexivity);
    unfold summary_row, summary_answer;
    (destruct total_tax_amount as [x|]; simpl in Ht;
     [injection Ht as ->
     |destruct cgst as [c1|]; [|discriminate];
      destruct sgst as [c2|]; [|discriminate];
      destruct igst as [c3|]; [|discriminate]; injection Ht as <-]);
    read_row; reflexivity.
Qed.

(** ** Summary rows that resolve nothing *)



(** ** The normalizer, again *)

Lemma replace_cell_idem (c : cell) : replace_cell (replace_cell c) = replace_cell c.
Proof.
  destruct c as [| |s| |]; try reflexivity. unfold replace_cell.
  destruct (existsb (String.eqb s) null_strings) eqn:E; [reflexivity|].
  rewrite E. reflexivity.
Qed.

Lemma standardize_nulls_idem (df : DataFrame) :
  standardize_nulls (standardize_nulls df) = standardize_nulls df.
Proof.
  unfold standardize_nulls. simpl. f_equal. rewrite map_map. apply map_ext.
  intros [k s]. simpl. f_equal. rewrite map_map. apply map_ext.
  apply replace_cell_idem.
Qed.

Lemma wf_standardize_nulls (df : DataFrame) :
  wf_frame (standardize_nulls df) = wf_frame df.
Proof.
  unfold wf_frame, standardize_nulls. simpl.
  induction (cols df) as [|[k s] l IH]; simpl; [reflexivity|].
  rewrite length_map, IH. reflexivity.
Qed.

Lemma columns_standardize_nulls (df : DataFrame) :
  columns (standardize_nulls df) = columns df.
Proof. unfold columns, standardize_nulls. simpl. rewrite map_map. reflexivity. Qed.

Lemma replace_cell_notna (c : cell) : notna (replace_cell c) = true -> notna c = true.
Proof.
  destruct c as [| |s| |]; simpl; tauto.
Qed.

(** X12: the normalizer is idempotent, keeps well-formed frames well-formed,
    and can only remove presence: a cell present afterwards was present
    before.  So a caller that normalizes the frames itself gets the same
    outcome from the engine. *)
Theorem standardize_nulls_idempotent (parse_date : cell -> option Timestamp)
    (parse_number : cell -> option (option Q)) (a b c : DataFrame) :
  standardize_nulls (standardize_nulls a) = standardize_nulls a /\
  wf_frame (standardize_nulls a) = wf_frame a /\
  (forall i col, present (standardize_nulls a) i col = true -> present a i col = true) /\
  (forall (h h' : heap) (r1 r2 r3 r1' r2' r3' : ref),
     nth_error h r1 = Some a -> nth_error h r2 = Some b -> nth_error h r3 = Some c ->
     nth_error h' r1' = Some (standardize_nulls a) ->
     nth_error h' r2' = Some (standardize_nulls b) ->
     nth_error h' r3' = Some (standardize_nulls c) ->
     fst (validate_invoice_data parse_date parse_number r1' r2' r3' h') =
     fst (validate_invoice_data parse_date parse_number r1 r2 r3 h)).
Proof.
  split; [apply standardize_nulls_idem|]. split; [apply wf_standardize_nulls|].
  split.
  - intros i col. unfold present. rewrite cell_at_standardize_nulls.
    destruct (cell_at a col i) as [x|e]; simpl; [apply replace_cell_notna|tauto].
  - intros h h' r1 r2 r3 r1' r2' r3' H1 H2 H3 H1' H2' H3'.
    rewrite (validate_run parse_date parse_number h r1 r2 r3 a b c H1 H2 H3).
    rewrite (validate_run parse_date parse_number h' r1' r2' r3' _ _ _ H1' H2' H3').
    unfold engine. rewrite !standardize_nulls_idem. reflexivity.
Qed.

Lemma standardize_nulls_idempotent_witness :
  fst (validate_invoice_data dby_date decimal_number 0 1 2
         [standardize_nulls header_no_gstin; standardize_nulls items_180;
          standardize_nulls summary_118]) =
  fst (validate_invoice_data dby_date decimal_number 0 1 2
         [header_no_gstin; items_180; summary_118]).
Proof.
  apply (proj2 (proj2 (proj2 (standardize_nulls_idempotent dby_date decimal_number
           header_no_gstin items_180 summary_118))));
    reflexivity.
Defined.

(** ** Whole runs *)

Lemma has_column_standardize_nulls (df : DataFrame) (col : string) :
  has_column (standardize_nulls df) col = has_column df col.
Proof. unfold has_column. rewrite columns_standardize_nulls. reflexivity. Qed.

Lemma has_columns_standardize_nulls (df : DataFrame) (names : list string) :
  has_columns (standardize_nulls df) names = has_columns df names.
Proof.
  unfold has_columns. induction names as [|col names IH]; simpl; [reflexivity|].
  rewrite has_column_standardize_nulls, IH. reflexivity.
Qed.

Lemma has_columns_subset (df : DataFrame) (l1 l2 : list string) :
  (forall x, In x l1 -> In x l2) ->
  has_columns df l2 = true -> has_columns df l1 = true.
Proof.
  unfold has_columns. rewrite !forallb_forall. intros Hsub H x Hx.
  apply H, Hsub, Hx.
Qed.

Lemma getitem_has_column (df : DataFrame) (col : string) (s : Series) :
  getitem df col = Ok s -> has_column df col = true.
Proof.
  intro H. destruct (has_column df col) eqn:E; [reflexivity|].
  rewrite (has_column_false df col E) in H. discriminate.
Qed.

Lemma empty_frame_converts (parse_number : cell -> option (option Q))
    (df : DataFrame) (names : list string) :
  wf_frame df = true -> nrows df = 0 -> has_columns df names = true ->
  numeric_columns_convert parse_number df names.
Proof.
  intros Hwf Hn Hc col Hin.
  destruct (column_ok df names col Hwf Hc Hin) as [s [Hs Hlen]].
  exists s. split; [exact Hs|]. rewrite Hn in Hlen.
  destruct s; [intros c []|discriminate].
Qed.

Lemma nrows_data_types (parse_date : cell -> option Timestamp)
    (parse_number : cell -> option (option Q))
    (invoice_df line_items_df total_summary_df : DataFrame) :
  nrows (snd (check_data_types parse_date parse_number
                invoice_df line_items_df total_summary_df)) = nrows invoice_df.
Proof.
  rewrite data_types_frame.
  destruct (s <- getitem invoice_df "invoice_date" ;; to_datetime parse_date s);
    reflexivity.
Qed.

Lemma relations_no_rows (invoice_df line_items_df total_summary_df : DataFrame) :
  nrows invoice_df = 0 -> nrows line_items_df = 0 -> nrows total_summary_df = 0 ->
  relations invoice_df line_items_df total_summary_df = Ok (true, []).
Proof.
  intros H1 H2 H3.
  unfold relations, invoice_relations, line_item_relations, summary_relations.
  rewrite H1, H2, H3. reflexivity.
Qed.

Lemma check_missing_values_no_rows (invoice_df line_items_df total_summary_df : DataFrame) :
  wf_frame invoice_df = true -> wf_frame line_items_df = true ->
  wf_frame total_summary_df = true ->
  nrows invoice_df = 0 -> nrows line_items_df = 0 -> nrows total_summary_df = 0 ->
  has_columns invoice_df header_cols = true ->
  has_columns line_items_df relation_cols_items = true ->
  has_columns total_summary_df summary_cols = true ->
  check_missing_values invoice_df line_items_df total_summary_df = Ok (true, []).
Proof.
  intros W1 W2 W3 N1 N2 N3 C1 C2 C3. unfold check_missing_values.
  rewrite (check_invoice_df_spec _ W1 C1), (check_line_items_df_spec _ W2 C2),
          (check_total_summary_df_spec _ W3 C3).
  rewrite N1, N2, N3. reflexivity.
Qed.

(** X13: three collections that carry their columns and have no row pass
    all three steps: every condition holds vacuously and the call returns
    the success verdict. *)
Theorem empty_collections_pass (parse_date : cell -> option Timestamp)
    (parse_number : cell -> option (option Q))
    (h : heap) (r1 r2 r3 : ref) (a b c : DataFrame) :
  nth_error h r1 = Some a -> nth_error h r2 = Some b -> nth_error h r3 = Some c ->
  wf_frame a = true -> wf_frame b = true -> wf_frame c = true ->
  nrows a = 0 -> nrows b = 0 -> nrows c = 0 ->
  has_columns a header_cols = true ->
  has_columns b relation_cols_items = true ->
  has_columns c numeric_cols_summary = true ->
  fst (validate_invoice_data parse_date parse_number r1 r2 r3 h) =
  Ok (true, "All Steps", [Lit "Validation successful"]).
Proof.
  intros H1 H2 H3 W1 W2 W3 N1 N2 N3 C1 C2 C3.
  rewrite (validate_run parse_date parse_number h r1 r2 r3 a b c H1 H2 H3).
  unfold engine.
  rewrite <- wf_standardize_nulls in W1, W2, W3.
  rewrite <- has_columns_standardize_nulls in C1, C2, C3.
  change (nrows a) with (nrows (standardize_nulls a)) in N1.
  change (nrows b) with (nrows (standardize_nulls b)) in N2.
  change (nrows c) with (nrows (standardize_nulls c)) in N3.
  revert W1 W2 W3 N1 N2 N3 C1 C2 C3.
  generalize (standardize_nulls a) (standardize_nulls b) (standardize_nulls c).
  intros a0 b0 c0 W1 W2 W3 N1 N2 N3 C1 C2 C3.
  assert (C3' : has_columns c0 summary_cols = true).
  { apply (has_columns_subset c0 summary_cols numeric_cols_summary); [|exact C3].
    simpl. tauto. }
  rewrite (check_missing_values_no_rows a0 b0 c0); try assumption.
  assert (Hpass : fst (check_data_types parse_date parse_number a0 b0 c0) = (true, [])).
  { apply check_data_types_pass_iff. split; [|split; [|split]].
    - assert (Hin : In "invoice_date" header_cols) by (simpl; tauto).
      destruct (column_ok a0 header_cols "invoice_date" W1 C1 Hin) as [s [Hs Hlen]].
      exists s. split; [exact Hs|]. rewrite N1 in Hlen.
      destruct s; [intros x []|discriminate].
    - apply empty_frame_converts; try assumption.
      apply (has_columns_subset a0 numeric_cols_invoice header_cols); [|exact C1].
      simpl. tauto.
    - apply empty_frame_converts; try assumption.
      apply (has_columns_subset b0 numeric_cols_items relation_cols_items);
        [|exact C2].
      simpl. tauto.
    - apply empty_frame_converts; assumption. }
  pose proof (nrows_data_types parse_date parse_number a0 b0 c0) as Hn.
  destruct (check_data_types parse_date parse_number a0 b0 c0) as [[p m] a1].
  cbn [fst snd] in Hpass, Hn. injection Hpass as -> ->.
  unfold check_relations.
  rewrite relations_no_rows; [reflexivity|..];
    rewrite nrows_coerce_columns; congruence.
Qed.

Lemma empty_collections_pass_witness :
  fst (validate_invoice_data dby_date decimal_number 0 1 2
         [empty_header; empty_items; empty_summary]) =
  Ok (true, "All Steps", [Lit "Validation successful"]).
Proof.
  apply (empty_collections_pass dby_date decimal_number
           [empty_header; empty_items; empty_summary] 0 1 2
           empty_header empty_items empty_summary); reflexivity.
Defined.

Lemma check_invoice_df_outcome (df : DataFrame) :
  wf_frame df = true ->
  (exists col, check_invoice_df df = Raise (KeyError col)) \/
  (has_columns df header_cols = true /\
   check_invoice_df df =
   Ok (option_map (missing_in_invoice df)
                  (first_violation (header_row_valid df) (nrows df)))).
Proof.
  intro Hwf. destruct (first_missing df header_cols) as [col|] eqn:E.
  - left. exists col. apply check_invoice_df_missing. exact E.
  - right. apply first_missing_none in E. split; [exact E|].
    apply check_invoice_df_spec; assumption.
Qed.

Lemma check_line_items_df_outcome (df : DataFrame) :
  wf_frame df = true ->
  (exists col, check_line_items_df df = Raise (KeyError col)) \/
  (has_columns df relation_cols_items = true /\
   check_line_items_df df =
   Ok (option_map missing_in_items
                  (first_violation (item_row_valid df) (nrows df)))).
Proof.
  intro Hwf. destruct (first_missing df item_presence_cols) as [col|] eqn:E.
  - left. exists col. apply check_line_items_df_missing. exact E.
  - right. apply first_missing_none in E.
    assert (Hc : has_columns df relation_cols_items = true).
    { apply (has_columns_subset df relation_cols_items item_presence_cols);
        [|exact E].
      simpl. tauto. }
    split; [exact Hc|]. apply check_line_items_df_spec; assumption.
Qed.

Lemma check_total_summary_df_outcome (df : DataFrame) :
  wf_frame df = true ->
  (exists col, check_total_summary_df df = Raise (KeyError col)) \/
  (has_columns df summary_cols = true /\
   check_total_summary_df df =
   Ok (option_map missing_in_summary
                  (first_violation (summary_row_valid df) (nrows df)))).
Proof.
  intro Hwf. destruct (first_missing df summary_cols) as [col|] eqn:E.
  - left. exists col. apply check_total_summary_df_missing. exact E.
  - right. apply first_missing_none in E. split; [exact E|].
    apply check_total_summary_df_spec; assumption.
Qed.

(** Step 1 on well-formed frames raises nothing but [KeyError]. *)
Lemma check_missing_values_outcome
    (invoice_df line_items_df total_summary_df : DataFrame) :
  wf_frame invoice_df = true -> wf_frame line_items_df = true ->
  wf_frame total_summary_df = true ->
  (exists col, check_missing_values invoice_df line_items_df total_summary_df =
               Raise (KeyError col)) \/
  (exists msg, check_missing_values invoice_df line_items_df total_summary_df =
               Ok (false, msg)) \/
  (check_missing_values invoice_df line_items_df total_summary_df = Ok (true, []) /\
   has_columns invoice_df header_cols = true /\
   has_columns line_items_df relation_cols_items = true /\
   has_columns total_summary_df summary_cols = true /\
   first_violation (header_row_valid invoice_df) (nrows invoice_df) = None /\
   first_violation (item_row_valid line_items_df) (nrows line_items_df) = None /\
   first_violation (summary_row_valid total_summary_df) (nrows total_summary_df)
     = None).
Proof.
  intros W1 W2 W3. unfold check_missing_values.
  destruct (check_invoice_df_outcome invoice_df W1) as [[col ->]|[C1 ->]];
    [left; exists col; reflexivity|].
  destruct (first_violation (header_row_valid invoice_df) (nrows invoice_df))
    as [i|] eqn:V1; cbn [option_map bind]; [right; left; eauto|].
  destruct (check_line_items_df_outcome line_items_df W2) as [[col ->]|[C2 ->]];
    [left; exists col; reflexivity|].
  destruct (first_violation (item_row_valid line_items_df) (nrows line_items_df))
    as [i|] eqn:V2; cbn [option_map bind]; [right; left; eauto|].
  destruct (check_total_summary_df_outcome total_summary_df W3)
    as [[col ->]|[C3 ->]]; [left; exists col; reflexivity|].
  destruct (first_violation (summary_row_valid total_summary_df)
              (nrows total_summary_df)) as [i|] eqn:V3; cbn [option_map bind];
    [right; left; eauto|].
  right. right. repeat split; assumption.
Qed.

(** X14: a verdict with [passed = true] is sound for Steps 1 and 2.  Over
    well-formed frames it is returned only when the normalized collections
    carry all the columns the steps read, every row of each collection
    satisfies its presence predicate, every non-null date parses and every
    cell of the numeric columns converts. *)
Theorem passed_is_sound (parse_date : cell -> option Timestamp)
    (parse_number : cell -> option (option Q))
    (h : heap) (r1 r2 r3 : ref) (a b c : DataFrame) (step : string) (msg : fstring) :
  nth_error h r1 = Some a -> nth_error h r2 = Some b -> nth_error h r3 = Some c ->
  wf_frame a = true -> wf_frame b = true -> wf_frame c = true ->
  fst (validate_invoice_data parse_date parse_number r1 r2 r3 h) =
    Ok (true, step, msg) ->
  let invoice_df := standardize_nulls a in
  let line_items_df := standardize_nulls b in
  let total_summary_df := standardize_nulls c in
  (step = "All Steps" /\ msg = [Lit "Validation successful"]) /\
  (has_columns invoice_df header_cols = true /\
   has_columns line_items_df relation_cols_items = true /\
   has_columns total_summary_df numeric_cols_summary = true) /\
  ((forall i, i < nrows invoice_df -> header_row_valid invoice_df i = true) /\
   (forall i, i < nrows line_items_df -> item_row_valid line_items_df i = true) /\
   (forall i, i < nrows total_summary_df ->
              summary_row_valid total_summary_df i = true)) /\
  (dates_parse parse_date invoice_df /\
   numeric_columns_convert parse_number invoice_df numeric_cols_invoice /\
   numeric_columns_convert parse_number line_items_df numeric_cols_items /\
   numeric_columns_convert parse_number total_summary_df numeric_cols_summary).
Proof.
  intros H1 H2 H3 W1 W2 W3.
  rewrite (validate_run parse_date parse_number h r1 r2 r3 a b c H1 H2 H3).
  unfold engine.
  rewrite <- wf_standardize_nulls in W1, W2, W3.
  revert W1 W2 W3.
  generalize (standardize_nulls a) (standardize_nulls b) (standardize_nulls c).
  intros a0 b0 c0 W1 W2 W3 Hout. cbv zeta.
  destruct (check_missing_values_outcome a0 b0 c0 W1 W2 W3)
    as [[col Hs1]|[[m1 Hs1]|[Hs1 [C1 [C2 [C3 [V1 [V2 V3]]]]]]]];
    rewrite Hs1 in Hout; cbn [fst] in Hout; try discriminate.
  pose proof (check_data_types_answer parse_date parse_number a0 b0 c0) as Hans.
  pose proof (check_data_types_pass_iff parse_date parse_number a0 b0 c0) as Hiff.
  destruct (check_data_types parse_date parse_number a0 b0 c0) as [[p m2] a1].
  cbn [fst] in Hans, Hiff.
  destruct Hans as [Hp|[e Hp]]; injection Hp as -> ->; cbn [fst] in Hout;
    [|discriminate].
  pose proof (proj1 Hiff eq_refl) as Hpass.
  destruct Hpass as [Hd [Hn1 [Hn2 Hn3]]].
  split.
  { destruct (check_relations parse_number a1 b0 c0) as [[[[|] m3]|e] [[a2 b2] c2]];
      cbn [fst] in Hout; try discriminate.
    injection Hout as <- <-. split; reflexivity. }
  split.
  { split; [exact C1|]. split; [exact C2|].
    unfold has_columns. apply forallb_forall. intros col Hin.
    destruct (Hn3 col Hin) as [s [Hs _]]. apply (getitem_has_column c0 col s Hs). }
  split.
  { split; [|split]; apply first_violation_none_iff; assumption. }
  repeat split; assumption.
Qed.

Lemma passed_is_sound_witness :
  (forall i, i < nrows (standardize_nulls header_118) ->
             header_row_valid (standardize_nulls header_118) i = true) /\
  dates_parse dby_date (standardize_nulls header_118).
Proof.
  destruct (passed_is_sound dby_date decimal_number
              [header_118; items_180; summary_118] 0 1 2
              header_118 items_180 summary_118
              "All Steps" [Lit "Validation successful"]
              eq_refl eq_refl eq_refl eq_refl eq_refl eq_refl)
    as [_ [_ [[Hrows _] [Hdates _]]]].
  - vm_compute. reflexivity.
  - split; [exact Hrows|exact Hdates].
Defined.

(** ** What a call can raise *)

Lemma for_rows_ok (body : nat -> result (option fstring)) (n start : nat) :
  (forall j, start <= j < start + n -> exists r, body j = Ok r) ->
  exists r, for_rows body start n = Ok r.
Proof.
  revert start. induction n as [|n IH]; intros start H; simpl; [eauto|].
  destruct (H start) as [r Hr]; [lia|]. rewrite Hr. simpl.
  destruct r as [m|]; [eauto|]. apply IH. intros j Hj. apply H. lia.
Qed.

Lemma for_rows_with_ok {St : Type} (body : nat -> St -> result (St * option fstring))
    (e : exn) (n start : nat) (s : St) :
  (forall j s0, start <= j < start + n ->
                (exists r, body j s0 = Ok r) \/ body j s0 = Raise e) ->
  (exists r, for_rows_with body start n s = Ok r) \/
  for_rows_with body start n s = Raise e.
Proof.
  revert start s. induction n as [|n IH]; intros start s H; simpl; [eauto|].
  destruct (H start s) as [[[s' r] Hr]|Hr]; [lia| |]; rewrite Hr; simpl.
  - destruct r as [m|]; [eauto|]. apply IH. intros j s0 Hj. apply H. lia.
  - right. reflexivity.
Qed.

Lemma invoice_row_ok (idx : nat) (row : Row) :
  readable row relation_cols_invoice -> exists r, invoice_row idx row = Ok r.
Proof.
  intro Hr.
  destruct (Hr "invoice_value") as [v1 H1]; [simpl; tauto|].
  destruct (Hr "taxable_value") as [v2 H2]; [simpl; tauto|].
  destruct (Hr "tax_amount") as [v3 H3]; [simpl; tauto|].
  unfold invoice_row.
  destruct v1 as [x|], v2 as [y|], v3 as [z|]; read_row; eauto.
  destruct (negb (isclose x (y + z))); eauto.
Qed.

Lemma line_item_row_ok (idx : nat) (row : Row) :
  readable row relation_cols_items -> exists r, line_item_row idx row = Ok r.
Proof.
  intro Hr.
  destruct (Hr "taxable_value") as [tv Htv]; [simpl; tauto|].
  destruct (Hr "rate_per_item_after_discount") as [rt Hrt]; [simpl; tauto|].
  destruct (Hr "quantity") as [qt Hqt]; [simpl; tauto|].
  destruct (Hr "sgst_amount") as [sa Hsa]; [simpl; tauto|].
  destruct (Hr "cgst_amount") as [ca Hca]; [simpl; tauto|].
  destruct (Hr "igst_amount") as [ia Hia]; [simpl; tauto|].
  destruct (Hr "sgst_rate") as [sr Hsr]; [simpl; tauto|].
  destruct (Hr "cgst_rate") as [cr Hcr]; [simpl; tauto|].
  destruct (Hr "igst_rate") as [ir Hir]; [simpl; tauto|].
  destruct (Hr "tax_amount") as [ta Hta]; [simpl; tauto|].
  destruct (Hr "tax_rate") as [tr Htr]; [simpl; tauto|].
  destruct (Hr "final_amount") as [fa Hfa]; [simpl; tauto|].
  pose proof (base_value_spec row tv rt qt Htv Hrt Hqt) as Hb.
  destruct (base_value_of tv rt qt) as [b|].
  - pose proof (tax_vars_spec row b sa ca ia sr cr ir ta tr
                  Hsa Hca Hia Hsr Hcr Hir Hta Htr) as Ht.
    rewrite (line_item_row_spec idx row b _ Hb Ht).
    destruct ((2 <=? List.length (estimates b sa ca ia sr cr ir ta tr))
              && negb (successive_close (estimates b sa ca ia sr cr ir ta tr)));
      [eauto|].
    unfold when_present. rewrite Hfa. cbn [bind].
    destruct fa as [f|]; [|eauto].
    destruct (hd_error (estimates b sa ca ia sr cr ir ta tr)) as [t|]; [|eauto].
    destruct (negb (isclose f (b + t))); eauto.
  - unfold line_item_row. rewrite Hb. cbn [bind]. eauto.
Qed.

Lemma summary_row_ok (idx : nat) (row : Row) (previous : option Q) :
  readable row summary_cols ->
  (exists r, summary_row idx row previous = Ok r) \/
  summary_row idx row previous = Raise (UnboundLocalError "total_tax").
Proof.
  intro Hr.
  destruct (Hr "total_tax_amount") as [v1 H1]; [simpl; tauto|].
  destruct (Hr "total_cgst_amount") as [v2 H2]; [simpl; tauto|].
  destruct (Hr "total_sgst_amount") as [v3 H3]; [simpl; tauto|].
  destruct (Hr "total_igst_amount") as [v4 H4]; [simpl; tauto|].
  destruct (Hr "total_taxable_value") as [v5 H5]; [simpl; tauto|].
  destruct (Hr "total_invoice_value") as [v6 H6]; [simpl; tauto|].
  destruct (total_tax_of v1 v2 v3 v4) as [tax|] eqn:Ht.
  - left. rewrite (summary_row_resolved_any idx row previous v1 v2 v3 v4 v5 v6 tax);
      try assumption. eauto.
  - destruct v1 as [x|]; [discriminate|].
    destruct v5 as [t|], v6 as [v|].
    + rewrite (summary_row_unresolved idx row previous v2 v3 v4 t v);
        try assumption.
      destruct previous; [left; eauto|right; reflexivity].
    + left. unfold summary_row.
      destruct v2 as [c1|], v3 as [c2|], v4 as [c3|]; simpl in Ht;
        try discriminate; read_row; eauto.
    + left. unfold summary_row.
      destruct v2 as [c1|], v3 as [c2|], v4 as [c3|]; simpl in Ht;
        try discriminate; read_row; eauto.
    + left. unfold summary_row.
      destruct v2 as [c1|], v3 as [c2|], v4 as [c3|]; simpl in Ht;
        try discriminate; read_row; eauto.
Qed.

Lemma relations_outcome (invoice_df line_items_df total_summary_df : DataFrame) :
  wf_frame invoice_df = true -> wf_frame line_items_df = true ->
  wf_frame total_summary_df = true ->
  has_columns invoice_df relation_cols_invoice = true ->
  has_columns line_items_df relation_cols_items = true ->
  has_columns total_summary_df summary_cols = true ->
  (exists r, relations invoice_df line_items_df total_summary_df = Ok r) \/
  relations invoice_df line_items_df total_summary_df =
    Raise (UnboundLocalError "total_tax").
Proof.
  intros W1 W2 W3 C1 C2 C3. unfold relations.
  destruct (for_rows_ok (fun idx => invoice_row idx (iterrow invoice_df idx))
              (nrows invoice_df) 0) as [r1 Hr1].
  { intros j Hj. apply invoice_row_ok. apply iterrow_readable; try assumption. lia. }
  unfold invoice_relations. rewrite Hr1. cbn [bind].
  destruct r1 as [m|]; [left; eauto|].
  destruct (for_rows_ok (fun idx => line_item_row idx (iterrow line_items_df idx))
              (nrows line_items_df) 0) as [r2 Hr2].
  { intros j Hj. apply line_item_row_ok. apply iterrow_readable; try assumption. lia. }
  unfold line_item_relations. rewrite Hr2. cbn [bind].
  destruct r2 as [m|]; [left; eauto|].
  destruct (for_rows_with_ok
              (fun idx => summary_row idx (iterrow total_summary_df idx))
              (UnboundLocalError "total_tax") (nrows total_summary_df) 0 None)
    as [[r3 Hr3]|Hr3].
  { intros j s0 Hj. apply summary_row_ok. apply iterrow_readable; try assumption. lia. }
  - unfold summary_relations. rewrite Hr3. cbn [bind].
    destruct r3 as [m|]; left; eauto.
  - unfold summary_relations. rewrite Hr3. right. reflexivity.
Qed.

Lemma has_columns_same (df df' : DataFrame) (names : list string) :
  columns df' = columns df -> has_columns df' names = has_columns df names.
Proof. intro H. unfold has_columns, has_column. rewrite H. reflexivity. Qed.

Lemma data_types_keeps (parse_date : cell -> option Timestamp)
    (parse_number : cell -> option (option Q))
    (invoice_df line_items_df total_summary_df : DataFrame) :
  wf_frame invoice_df = true ->
  wf_frame (snd (check_data_types parse_date parse_number
                   invoice_df line_items_df total_summary_df)) = true /\
  columns (snd (check_data_types parse_date parse_number
                  invoice_df line_items_df total_summary_df)) = columns invoice_df.
Proof.
  intro Hwf. rewrite data_types_frame.
  destruct (getitem invoice_df "invoice_date") as [s|e] eqn:G; cbn [bind]; [|tauto].
  destruct (to_datetime parse_date s) as [d|e] eqn:T; [|tauto].
  pose proof (proj1 (mapM_ok_inv _ _ _ T)) as Hlen. split.
  - unfold wf_frame, setitem. simpl. apply assoc_set_lengths; [exact Hwf|].
    rewrite Hlen. apply (wf_frame_length invoice_df "invoice_date" s Hwf G).
  - unfold columns, setitem. simpl cols. apply assoc_set_keys.
    apply (getitem_has_column invoice_df "invoice_date" s G).
Qed.

Lemma check_relations_outcome (parse_number : cell -> option (option Q))
    (invoice_df line_items_df total_summary_df : DataFrame) :
  wf_frame invoice_df = true -> wf_frame line_items_df = true ->
  wf_frame total_summary_df = true ->
  has_columns invoice_df relation_cols_invoice = true ->
  has_columns line_items_df relation_cols_items = true ->
  has_columns total_summary_df summary_cols = true ->
  (exists r, fst (check_relations parse_number invoice_df line_items_df
                    total_summary_df) = Ok r) \/
  fst (check_relations parse_number invoice_df line_items_df total_summary_df) =
    Raise (UnboundLocalError "total_tax").
Proof.
  intros W1 W2 W3 C1 C2 C3. unfold check_relations. cbn [fst].
  destruct (coerce_columns_keeps parse_number relation_cols_invoice invoice_df)
    as [K1 V1].
  destruct (coerce_columns_keeps parse_number relation_cols_items line_items_df)
    as [K2 V2].
  destruct (coerce_columns_keeps parse_number relation_cols_summary total_summary_df)
    as [K3 V3].
  apply relations_outcome; auto;
    [rewrite (has_columns_same _ _ _ K1)|rewrite (has_columns_same _ _ _ K2)
    |rewrite (has_columns_same _ _ _ K3)]; assumption.
Qed.

Lemma check_missing_values_returns
    (invoice_df line_items_df total_summary_df : DataFrame) :
  wf_frame invoice_df = true -> wf_frame line_items_df = true ->
  wf_frame total_summary_df = true ->
  has_columns invoice_df header_cols = true ->
  has_columns line_items_df relation_cols_items = true ->
  has_columns total_summary_df summary_cols = true ->
  exists r, check_missing_values invoice_df line_items_df total_summary_df = Ok r.
Proof.
  intros W1 W2 W3 C1 C2 C3. unfold check_missing_values.
  rewrite (check_invoice_df_spec invoice_df W1 C1).
  destruct (first_violation (header_row_valid invoice_df) (nrows invoice_df));
    cbn [option_map bind]; [eauto|].
  rewrite (check_line_items_df_spec line_items_df W2 C2).
  destruct (first_violation (item_row_valid line_items_df) (nrows line_items_df));
    cbn [option_map bind]; [eauto|].
  rewrite (check_total_summary_df_spec total_summary_df W3 C3).
  destruct (first_violation (summary_row_valid total_summary_df)
              (nrows total_summary_df)); cbn [option_map bind]; eauto.
Qed.

Lemma engine_outcome (parse_date : cell -> option Timestamp)
    (parse_number : cell -> option (option Q)) (a b c : DataFrame) :
  wf_frame (standardize_nulls a) = true -> wf_frame (standardize_nulls b) = true ->
  wf_frame (standardize_nulls c) = true ->
  (exists v, fst (engine parse_date parse_number a b c) = Ok v) \/
  (exists col,
     check_missing_values (standardize_nulls a) (standardize_nulls b)
                          (standardize_nulls c) = Raise (KeyError col) /\
     fst (engine parse_date parse_number a b c) = Raise (KeyError col)) \/
  fst (engine parse_date parse_number a b c) = Raise (UnboundLocalError "total_tax").
Proof.
  unfold engine.
  generalize (standardize_nulls a) (standardize_nulls b) (standardize_nulls c).
  intros a0 b0 c0 W1 W2 W3.
  destruct (check_missing_values_outcome a0 b0 c0 W1 W2 W3)
    as [[col Hk]|[[m1 Hf]|[Hp [C1 [C2 [C3 _]]]]]].
  - right. left. exists col. rewrite Hk. split; reflexivity.
  - left. rewrite Hf. cbn [fst]. eauto.
  - rewrite Hp.
    destruct (data_types_keeps parse_date parse_number a0 b0 c0 W1) as [Wa Ka].
    destruct (check_data_types parse_date parse_number a0 b0 c0) as [[[|] m2] a1];
      cbn [snd] in Wa, Ka; [|left; cbn [fst]; eauto].
    assert (Ca : has_columns a1 relation_cols_invoice = true).
    { rewrite (has_columns_same a0 a1 _ Ka).
      apply (has_columns_subset a0 relation_cols_invoice header_cols); [|exact C1].
      simpl. tauto. }
    destruct (check_relations_outcome parse_number a1 b0 c0 Wa W2 W3 Ca C2 C3)
      as [[r Hr]|Hr];
      destruct (check_relations parse_number a1 b0 c0) as [o [[a2 b2] c2]];
      cbn [fst] in Hr; subst o.
    + left. destruct r as [[|] m3]; cbn [fst]; eauto.
    + right. right. reflexivity.
Qed.

(** X15: over well-formed frames a call returns a verdict, or raises
    [KeyError] for a column that Step 1 reads, or raises the
    [UnboundLocalError] of the summary loop; it raises nothing else.  When
    the three frames carry the columns Step 1 reads there is no [KeyError]
    either. *)
Theorem call_outcomes (parse_date : cell -> option Timestamp)
    (parse_number : cell -> option (option Q))
    (h : heap) (r1 r2 r3 : ref) (a b c : DataFrame) :
  nth_error h r1 = Some a -> nth_error h r2 = Some b -> nth_error h r3 = Some c ->
  wf_frame a = true -> wf_frame b = true -> wf_frame c = true ->
  let outcome := fst (validate_invoice_data parse_date parse_number r1 r2 r3 h) in
  ((exists v, outcome = Ok v) \/
   (exists col, outcome = Raise (KeyError col)) \/
   outcome = Raise (UnboundLocalError "total_tax")) /\
  (has_columns a header_cols = true ->
   has_columns b relation_cols_items = true ->
   has_columns c summary_cols = true ->
   (exists v, outcome = Ok v) \/ outcome = Raise (UnboundLocalError "total_tax")).
Proof.
  intros H1 H2 H3 W1 W2 W3 outcome. unfold outcome.
  rewrite (validate_run parse_date parse_number h r1 r2 r3 a b c H1 H2 H3).
  cbn [fst].
  rewrite <- wf_standardize_nulls in W1, W2, W3.
  destruct (engine_outcome parse_date parse_number a b c W1 W2 W3)
    as [Hv|[[col [Hk Hr]]|Hu]].
  - split; [left; exact Hv|]. intros _ _ _. left. exact Hv.
  - split; [right; left; exists col; exact Hr|]. intros C1 C2 C3. exfalso.
    rewrite <- has_columns_standardize_nulls in C1, C2, C3.
    destruct (check_missing_values_returns _ _ _ W1 W2 W3 C1 C2 C3) as [r Hok].
    congruence.
  - split; [right; right; exact Hu|]. intros _ _ _. right. exact Hu.
Qed.

Lemma call_outcomes_witness :
  (exists v, fst (validate_invoice_data dby_date decimal_number 0 1 2
                    [header_118; items_180; summary_igst_only]) = Ok v) \/
  fst (validate_invoice_data dby_date decimal_number 0 1 2
         [header_118; items_180; summary_igst_only]) =
    Raise (UnboundLocalError "total_tax").
Proof.
  apply (proj2 (call_outcomes dby_date decimal_number
                  [header_118; items_180; summary_igst_only] 0 1 2
                  header_118 items_180 summary_igst_only
                  eq_refl eq_refl eq_refl eq_refl eq_refl eq_refl));
    reflexivity.
Defined.

(** ** The comparator, again *)

Local Open Scope Q_scope.




